(** * Doctor appointment system: slot engine and booking service

    A shallow embedding of [config/appointment_types.py],
    [src/calendly_client.py], [src/doctor_schedule.py],
    [src/available_slots.py] and [src/appointment_booking.py], and the
    properties of the slot-availability engine and of the booking flow.

    Layout: the part of Python's [datetime] and [str] that the code calls;
    the effect monad (exceptions, standard output, queries to the remote
    calendar, the uuid source); the catalog and the shapes of the calendar's
    answers; a sample environment to run the program on; the program, module
    by module in dependency order, and the definitions that the statements
    need; the lemmas and the claims; the program run on the sample
    environment. *)

From Stdlib Require Import ZArith List String Ascii Bool Lia Sorted.
From stdpp Require Import gmap strings.
Import ListNotations.

Local Open Scope string_scope.
Local Open Scope list_scope.
Local Open Scope Z_scope.

(** ** Python's [str] and [datetime], as far as the code uses them *)

Module Py.

(** A naive [datetime] is its number of microseconds since midnight of the
    day before 0001-01-01, so that [dt / US_PER_DAY] is [date.toordinal()].
    Ordinals are unbounded here, where CPython raises [OverflowError]
    outside the years 1..9999. A [time] is the number of microseconds since
    midnight, and a [timedelta] a number of microseconds. *)
Abbreviation datetime := Z (only parsing).
Abbreviation time := Z (only parsing).
Abbreviation timedelta := Z (only parsing).

Definition US_PER_SECOND : Z := 1000000.
Definition US_PER_MINUTE : Z := 60 * US_PER_SECOND.
Definition US_PER_HOUR : Z := 60 * US_PER_MINUTE.
Definition US_PER_DAY : Z := 24 * US_PER_HOUR.

Definition minutes (n : Z) : timedelta := n * US_PER_MINUTE.
Definition days (n : Z) : timedelta := n * US_PER_DAY.

Definition toordinal (dt : datetime) : Z := dt / US_PER_DAY.
Definition time_of (dt : datetime) : time := dt mod US_PER_DAY.
Definition combine (ordinal : Z) (t : time) : datetime := ordinal * US_PER_DAY + t.

Definition hour (dt : datetime) : Z := time_of dt / US_PER_HOUR.
Definition minute (dt : datetime) : Z := (time_of dt / US_PER_MINUTE) mod 60.
Definition second (dt : datetime) : Z := (time_of dt / US_PER_SECOND) mod 60.
Definition microsecond (dt : datetime) : Z := time_of dt mod US_PER_SECOND.

(** [dt.replace(hour=0, minute=0, second=0, microsecond=0)] and
    [dt.replace(hour=23, minute=59, second=59, microsecond=999999)]. *)
Definition start_of_day (dt : datetime) : datetime := combine (toordinal dt) 0.
Definition end_of_day (dt : datetime) : datetime :=
  combine (toordinal dt) (US_PER_DAY - 1).

(** [date.weekday()]: Monday is 0. *)
Definition weekday (dt : datetime) : Z := (toordinal dt + 6) mod 7.

(** *** The proleptic Gregorian calendar (CPython's [_pydatetime]) *)

Definition is_leap (year : Z) : bool :=
  (year mod 4 =? 0) && (negb (year mod 100 =? 0) || (year mod 400 =? 0)).

Definition days_before_year (year : Z) : Z :=
  let y := year - 1 in y * 365 + y / 4 - y / 100 + y / 400.

Definition DAYS_IN_MONTH (month : Z) : Z :=
  match month with
  | 1 => 31 | 2 => 28 | 3 => 31 | 4 => 30 | 5 => 31 | 6 => 30
  | 7 => 31 | 8 => 31 | 9 => 30 | 10 => 31 | 11 => 30 | 12 => 31
  | _ => -1
  end.

Definition DAYS_BEFORE_MONTH (month : Z) : Z :=
  match month with
  | 1 => 0 | 2 => 31 | 3 => 59 | 4 => 90 | 5 => 120 | 6 => 151
  | 7 => 181 | 8 => 212 | 9 => 243 | 10 => 273 | 11 => 304 | 12 => 334
  | _ => -1
  end.

Definition days_in_month (year month : Z) : Z :=
  if (month =? 2) && is_leap year then 29 else DAYS_IN_MONTH month.

Definition days_before_month (year month : Z) : Z :=
  DAYS_BEFORE_MONTH month + (if (2 <? month) && is_leap year then 1 else 0).

Definition ymd2ord (year month day : Z) : Z :=
  days_before_year year + days_before_month year month + day.

Definition DI400Y : Z := 146097.
Definition DI100Y : Z := 36524.
Definition DI4Y : Z := 1461.

Definition ord2ymd (ordinal : Z) : Z * Z * Z :=
  let n := ordinal - 1 in
  let n400 := n / DI400Y in
  let n := n mod DI400Y in
  let year := n400 * 400 + 1 in
  let n100 := n / DI100Y in
  let n := n mod DI100Y in
  let n4 := n / DI4Y in
  let n := n mod DI4Y in
  let n1 := n / 365 in
  let n := n mod 365 in
  let year := year + n100 * 100 + n4 * 4 + n1 in
  if (n1 =? 4) || (n100 =? 4) then (year - 1, 12, 31)
  else
    let leapyear := (n1 =? 3) && (negb (n4 =? 24) || (n100 =? 3)) in
    let month := Z.shiftr (n + 50) 5 in
    let preceding :=
      DAYS_BEFORE_MONTH month + (if (2 <? month) && leapyear then 1 else 0) in
    if n <? preceding then
      let month := month - 1 in
      let preceding :=
        preceding
        - (DAYS_IN_MONTH month + (if (month =? 2) && leapyear then 1 else 0)) in
      (year, month, n - preceding + 1)
    else (year, month, n - preceding + 1).

(** *** Strings *)

Definition digit_char (d : Z) : ascii :=
  ascii_of_nat (Z.to_nat (48 + d mod 10)).

(** [n] in decimal, zero-padded to [width] digits (["%0<width>d"]), for
    [0 <= n < 10 ^ width]. *)
Fixpoint zero_padded (width : nat) (n : Z) : string :=
  match width with
  | O => ""
  | S w => zero_padded w (n / 10) +:+ String (digit_char n) ""
  end.

Definition is_upper (c : ascii) : bool :=
  let n := nat_of_ascii c in (Nat.leb 65 n && Nat.leb n 90)%bool.

Definition lower_char (c : ascii) : ascii :=
  if is_upper c then ascii_of_nat (nat_of_ascii c + 32) else c.

(** [s.lower()], on ASCII. *)
Fixpoint lower (s : string) : string :=
  match s with
  | EmptyString => EmptyString
  | String c r => String (lower_char c) (lower r)
  end.

(** [s.replace('Z', '+00:00')]. *)
Fixpoint replace_Z (s : string) : string :=
  match s with
  | EmptyString => EmptyString
  | String c r =>
      if Ascii.eqb c "Z"%char then "+00:00" +:+ replace_Z r
      else String c (replace_Z r)
  end.

(** [c in s] for a one-character [c]. *)
Fixpoint contains_char (c : ascii) (s : string) : bool :=
  match s with
  | EmptyString => false
  | String c' r => Ascii.eqb c c' || contains_char c r
  end.

(** [s.split('/')[-1]]: what follows the last ['/'], the whole of [s] when it
    has none. *)
Fixpoint last_segment_from (acc s : string) : string :=
  match s with
  | EmptyString => acc
  | String c r =>
      if Ascii.eqb c "/"%char then last_segment_from "" r
      else last_segment_from (acc +:+ String c "") r
  end.

Definition last_segment (s : string) : string := last_segment_from "" s.

(** *** Formatting *)

Definition DAY_NAMES : list string :=
  ["Monday"; "Tuesday"; "Wednesday"; "Thursday"; "Friday"; "Saturday"; "Sunday"].

(** [dt.strftime('%A')]. *)
Definition strftime_A (dt : datetime) : string :=
  nth (Z.to_nat (weekday dt)) DAY_NAMES "".

(** [dt.strftime('%H:%M')]. *)
Definition strftime_HM (dt : datetime) : string :=
  zero_padded 2 (hour dt) +:+ ":" +:+ zero_padded 2 (minute dt).

(** [dt.strftime('%Y-%m-%d')], the year on four digits (as the C library
    prints the years from 1000 on). *)
Definition strftime_Ymd (dt : datetime) : string :=
  let '(y, m, d) := ord2ymd (toordinal dt) in
  zero_padded 4 y +:+ "-" +:+ zero_padded 2 m +:+ "-" +:+ zero_padded 2 d.

(** [dt.isoformat()]: the microseconds are printed only when not zero. *)
Definition isoformat (dt : datetime) : string :=
  strftime_Ymd dt +:+ "T" +:+ zero_padded 2 (hour dt) +:+ ":"
  +:+ zero_padded 2 (minute dt) +:+ ":" +:+ zero_padded 2 (second dt)
  +:+ (if microsecond dt =? 0 then ""
       else "." +:+ zero_padded 6 (microsecond dt)).

(** *** Parsing: [datetime.strptime]

    [_strptime] turns the format into a regular expression, matches it at the
    start of the input and rejects input that the match leaves unconsumed.
    The directives of the two formats in use are
    [%H = 2[0-3]|[0-1]\d|\d], [%M = [0-5]\d|\d], [%Y = \d\d\d\d],
    [%m = 1[0-2]|0[1-9]|[1-9]] and [%d = 3[01]|[12]\d|0[1-9]|[1-9]| [1-9]];
    alternatives are tried from left to right. A text of the model is a
    text whose characters have code points below 256; of these, the decimal
    digits, which are what [\d] and [int] accept, are ['0'] to ['9']. Text
    with other characters is outside the model. *)

Definition digit_value (c : ascii) : option Z :=
  let n := nat_of_ascii c in
  if (Nat.leb 48 n && Nat.leb n 57)%bool then Some (Z.of_nat n - 48) else None.

Definition in_range (lo hi : Z) (c : ascii) : option Z :=
  match digit_value c with
  | Some v => if (lo <=? v) && (v <=? hi) then Some v else None
  | None => None
  end.

(** One alternative made of two character classes, then one made of a single
    class. Each returns the value read and the rest of the input. *)
Definition two_chars (lo1 hi1 lo2 hi2 : Z) (s : string) : option (Z * string) :=
  match s with
  | String a (String b r) =>
      match in_range lo1 hi1 a, in_range lo2 hi2 b with
      | Some x, Some y => Some (10 * x + y, r)
      | _, _ => None
      end
  | _ => None
  end.

Definition one_char (lo hi : Z) (s : string) : option (Z * string) :=
  match s with
  | String a r =>
      match in_range lo hi a with
      | Some x => Some (x, r)
      | None => None
      end
  | _ => None
  end.

(** The alternatives of a directive, each kept only when what follows it in
    the format ([next]) matches too; the first that does is the match. *)
Fixpoint first_alt {A : Type} (alts : list (string -> option (Z * string)))
    (next : Z -> string -> option A) (s : string) : option A :=
  match alts with
  | [] => None
  | alt :: rest =>
      match alt s with
      | Some (v, r) =>
          match next v r with
          | Some a => Some a
          | None => first_alt rest next s
          end
      | None => first_alt rest next s
      end
  end.

Definition literal {A : Type} (c : ascii) (next : string -> option A)
    (s : string) : option A :=
  match s with
  | String c' r => if Ascii.eqb c c' then next r else None
  | EmptyString => None
  end.

Definition directive_H := [two_chars 2 2 0 3; two_chars 0 1 0 9; one_char 0 9].
Definition directive_M := [two_chars 0 5 0 9; one_char 0 9].
Definition directive_m := [two_chars 1 1 0 2; two_chars 0 0 1 9; one_char 1 9].
Definition directive_d :=
  [two_chars 3 3 0 1; two_chars 1 2 0 9; two_chars 0 0 1 9; one_char 1 9;
   literal " "%char (one_char 1 9)].

Definition directive_Y (s : string) : option (Z * string) :=
  match s with
  | String a (String b (String c (String d r))) =>
      match digit_value a, digit_value b, digit_value c, digit_value d with
      | Some w, Some x, Some y, Some z =>
          Some (1000 * w + 100 * x + 10 * y + z, r)
      | _, _, _, _ => None
      end
  | _ => None
  end.

(** The regular expression matched; the result carries the unconsumed rest. *)
Definition match_HM (s : string) : option (Z * Z * string) :=
  first_alt directive_H
    (fun h => literal ":"%char
       (first_alt directive_M (fun m r => Some (h, m, r)))) s.

Definition match_Ymd (s : string) : option (Z * Z * Z * string) :=
  first_alt [directive_Y]
    (fun y => literal "-"%char
       (first_alt directive_m
          (fun m => literal "-"%char
             (first_alt directive_d (fun d r => Some (y, m, d, r)))))) s.

(** [datetime.strptime(s, '%H:%M').time()]; [None] stands for [ValueError]. *)
Definition strptime_HM (s : string) : option time :=
  match match_HM s with
  | Some (h, m, EmptyString) => Some (h * US_PER_HOUR + m * US_PER_MINUTE)
  | _ => None
  end.

(** [datetime.strptime(s, '%Y-%m-%d')], a datetime at midnight; [None] stands
    for [ValueError] (no match, input left over, or no such day). *)
Definition strptime_Ymd (s : string) : option datetime :=
  match match_Ymd s with
  | Some (y, m, d, EmptyString) =>
      if (1 <=? y) && (d <=? days_in_month y m)
      then Some (combine (ymd2ord y m d) 0) else None
  | _ => None
  end.

Definition is_lower (c : ascii) : bool :=
  let n := nat_of_ascii c in (Nat.leb 97 n && Nat.leb n 122)%bool.

Definition upper_char (c : ascii) : ascii :=
  if is_lower c then ascii_of_nat (nat_of_ascii c - 32) else c.

(** [s.capitalize()], on ASCII: the first character in upper case, the rest
    in lower case. *)
Definition capitalize (s : string) : string :=
  match s with
  | EmptyString => EmptyString
  | String c r => String (upper_char c) (lower r)
  end.

End Py.

(** ** Effects

    The code raises exceptions, prints, queries the remote calendar and draws
    uuids. A computation threads the [state] that records these and ends in
    a value or in an exception. [Exhausted] is not a Python exception: it is
    the outcome of a [while] loop that did not finish within the bound the
    model gives it, so that an [Ok] outcome is always a real return. *)

Inductive exn : Type :=
| ValueError
| AttributeError
| TypeError
| KeyError
| Exhausted.

Inductive outcome (A : Type) : Type :=
| Ok (a : A)
| Raise (e : exn).

Arguments Ok {A} a.
Arguments Raise {A} e.

Record state : Type := mkState {
  stdout : list string;               (* lines printed so far *)
  requests : list (string * string);  (* scheduled-events queries sent so far *)
  uuids_drawn : nat                   (* calls to uuid.uuid4() so far *)
}.

Definition M (A : Type) : Type := state -> outcome A * state.

Definition ret {A : Type} (a : A) : M A := fun st => (Ok a, st).

Definition raise {A : Type} (e : exn) : M A := fun st => (Raise e, st).

Definition bind {A B : Type} (m : M A) (k : A -> M B) : M B :=
  fun st =>
    match m st with
    | (Ok a, st') => k a st'
    | (Raise e, st') => (Raise e, st')
    end.

Definition lift {A : Type} (o : outcome A) : M A := fun st => (o, st).

Definition print (line : string) : M unit :=
  fun st => (Ok tt, mkState (stdout st ++ [line]) (requests st) (uuids_drawn st)).

Notation "x <- m ;; k" := (bind m (fun x => k))
  (at level 100, m at next level, right associativity).
Notation "m ;;; k" := (bind m (fun _ => k))
  (at level 100, right associativity).

(** Exceptions alone, for the code that has no other effect. *)
Definition obind {A B : Type} (o : outcome A) (k : A -> outcome B) : outcome B :=
  match o with
  | Ok a => k a
  | Raise e => Raise e
  end.

Notation "x <~ o ;; k" := (obind o (fun x => k))
  (at level 100, o at next level, right associativity).

(** ** config/appointment_types.py *)

Record appointment_type_info : Type := mkInfo {
  info_name : string;
  info_duration : Z;
  info_description : string
}.

Definition APPOINTMENT_TYPES : gmap string appointment_type_info :=
  list_to_map
    [("general_consultation",
      mkInfo "General Consultation" 30 "Standard medical consultation");
     ("follow_up",
      mkInfo "Follow-up" 15 "Follow-up appointment for previous consultation");
     ("physical_exam",
      mkInfo "Physical Exam" 45 "Comprehensive physical examination");
     ("specialist_consultation",
      mkInfo "Specialist Consultation" 60 "Detailed consultation with specialist")].

Definition get_appointment_duration (appointment_type : string) : option Z :=
  match APPOINTMENT_TYPES !! appointment_type with
  | Some info => Some (info_duration info)
  | None => None
  end.

Definition get_appointment_info (appointment_type : string)
  : option appointment_type_info :=
  APPOINTMENT_TYPES !! appointment_type.

(** ** src/calendly_client.py

    The remote calendar is outside the program. What [_make_request] returns
    is a JSON object or the error dict it builds itself; the keys the callers
    read are kept. Of an event, [location] and [invitees_counter] are copied
    through and never read, and are left out. *)

Record event : Type := mkEvent {
  ev_uri : string;
  ev_name : option string;
  ev_start_time : option string;
  ev_end_time : option string;
  ev_status : option string
}.

Record response : Type := mkResponse {
  resp_error : option bool;             (* the 'error' key *)
  resp_message : option string;         (* the 'message' key *)
  resp_status_code : option Z;          (* the 'status_code' key *)
  resp_collection : option (list event) (* the 'collection' key *)
}.

(** What [_make_request] returns on a [RequestException]. *)
Definition error_response (message : string) (status_code : option Z) : response :=
  mkResponse (Some true) (Some message) status_code None.

Definition collection_response (events : list event) : response :=
  mkResponse None None None (Some events).

(** A timestamp as [datetime.fromisoformat] returns it: the wall-clock value
    and the offset from UTC, in microseconds, when the text carries one. *)
Record iso_datetime : Type := mkIso {
  naive : Py.datetime;
  tzinfo : option Z
}.

(** [dt.replace(tzinfo=None)]: the offset is dropped, the clock reading kept. *)
Definition replace_tzinfo_None (dt : iso_datetime) : iso_datetime :=
  mkIso (naive dt) None.

(** ** A sample environment

    One instance of what the program leaves open, for running it: a parser
    of [YYYY-MM-DD?HH:MM:SS] with an optional [+HH:MM] or [-HH:MM], which
    every version of [datetime.fromisoformat] accepts; a calendar holding one
    event on Monday 2024-01-15, another that is down; clocks; uuids. *)

Module Sample.

Definition two_digits : string -> option (Z * string) := Py.two_chars 0 9 0 9.

Definition iso_offset (s : string) : option (option Z) :=
  match s with
  | EmptyString => Some None
  | String sign r =>
      match two_digits r with
      | Some (h, String ":" r') =>
          match two_digits r' with
          | Some (m, EmptyString) =>
              let offset := h * Py.US_PER_HOUR + m * Py.US_PER_MINUTE in
              if Ascii.eqb sign "+"%char then Some (Some offset)
              else if Ascii.eqb sign "-"%char then Some (Some (- offset))
              else None
          | _ => None
          end
      | _ => None
      end
  end.

Definition iso_time (s : string) : option (Py.time * string) :=
  match two_digits s with
  | Some (h, String ":" r) =>
      match two_digits r with
      | Some (m, String ":" r') =>
          match two_digits r' with
          | Some (sec, rest) =>
              if (h <? 24) && (m <? 60) && (sec <? 60)
              then Some (h * Py.US_PER_HOUR + m * Py.US_PER_MINUTE
                         + sec * Py.US_PER_SECOND, rest)
              else None
          | None => None
          end
      | _ => None
      end
  | _ => None
  end.

Definition iso_date (s : string) : option (Z * string) :=
  match Py.directive_Y s with
  | Some (y, String "-" r) =>
      match two_digits r with
      | Some (m, String "-" r') =>
          match two_digits r' with
          | Some (d, rest) =>
              if (1 <=? y) && (1 <=? m) && (m <=? 12) && (1 <=? d)
                 && (d <=? Py.days_in_month y m)
              then Some (Py.ymd2ord y m d, rest) else None
          | None => None
          end
      | _ => None
      end
  | _ => None
  end.

Definition fromisoformat (s : string) : option iso_datetime :=
  match iso_date s with
  | Some (ordinal, String _ r) =>
      match iso_time r with
      | Some (t, rest) =>
          match iso_offset rest with
          | Some offset => Some (mkIso (Py.combine ordinal t) offset)
          | None => None
          end
      | None => None
      end
  | _ => None
  end.

(** Monday 2024-01-15 and the Sunday before it, at midnight. *)
Definition monday : Py.datetime := Py.combine 738900 0.
Definition sunday : Py.datetime := Py.combine 738899 0.

Definition at_minute (date : Py.datetime) (h m : Z) : Py.datetime :=
  date + Py.minutes (60 * h + m).

Definition checkup : event :=
  mkEvent "https://api.calendly.com/scheduled_events/EV1" (Some "Check-up")
    (Some "2024-01-15T09:30:00Z") (Some "2024-01-15T10:00:00Z") (Some "active").

(** The calendar with [checkup] on its day and nothing on the others. *)
Definition remote (n : nat) (start_time end_time : string) : response :=
  if String.eqb start_time "2024-01-15T00:00:00Z"
  then collection_response [checkup]
  else collection_response [].

(** The calendar when every request fails. *)
Definition remote_down (n : nat) (start_time end_time : string) : response :=
  error_response "503 Server Error: Service Unavailable" (Some 503).

Definition now : Py.datetime := at_minute monday 15 0.
Definition utcnow : Py.datetime := at_minute monday 20 0.

Definition uuid4 (n : nat) : string :=
  "00000000-0000-4000-8000-0000000000" +:+ Py.zero_padded 2 (Z.of_nat n).

Definition start : state := mkState [] [] 0.

Definition request : gmap string string :=
  list_to_map
    [("appointment_type", "general_consultation"); ("date", "2024-01-15");
     ("time", "10:00"); ("patient_name", "Ada Lovelace");
     ("patient_email", "ada@example.org")].

Definition tuesday : Py.datetime := monday + Py.days 1.

(** The request with its time written without the leading zero, and the
    request for the Sunday before. *)
Definition unpadded_request : gmap string string :=
  <["time" := "9:00"]> request.

Definition sunday_request : gmap string string :=
  <["date" := "2024-01-14"]> request.

End Sample.

(** ** The program

    Its environment: the library's ISO-8601 parser, whose grammar differs
    between Python versions and is left open; the remote calendar, which
    answers the [n]-th query it receives; the two clocks; the uuid source,
    which gives the text of the [n]-th uuid drawn. *)

Section Program.

Variable fromisoformat : string -> option iso_datetime.
Variable remote : nat -> string -> string -> response.
Variable now : Py.datetime.
Variable utcnow : Py.datetime.
Variable uuid4 : nat -> string.

(** [CalendlyAPI.get_scheduled_events]: both bounds are always given by the
    caller below, so the defaults for missing bounds never apply. *)
Definition get_scheduled_events (start_time end_time : string) : M response :=
  fun st =>
    (Ok (remote (length (requests st)) start_time end_time),
     mkState (stdout st) (requests st ++ [(start_time, end_time)]) (uuids_drawn st)).

(** *** src/doctor_schedule.py *)

Record hours : Type := mkHours {
  wh_start : option string;
  wh_end : option string;
  wh_available : bool
}.

Definition get_working_hours : gmap string hours :=
  list_to_map
    [("monday", mkHours (Some "09:00") (Some "17:00") true);
     ("tuesday", mkHours (Some "09:00") (Some "17:00") true);
     ("wednesday", mkHours (Some "09:00") (Some "17:00") true);
     ("thursday", mkHours (Some "09:00") (Some "17:00") true);
     ("friday", mkHours (Some "09:00") (Some "17:00") true);
     ("saturday", mkHours (Some "10:00") (Some "14:00") true);
     ("sunday", mkHours None None false)].

Record appointment : Type := mkAppointment {
  apt_id : string;
  apt_name : option string;
  apt_start_time : option string;
  apt_end_time : option string;
  apt_status : option string
}.

Definition appointment_of_event (ev : event) : appointment :=
  mkAppointment (Py.last_segment (ev_uri ev)) (ev_name ev)
    (ev_start_time ev) (ev_end_time ev) (ev_status ev).

Definition get_existing_appointments (start_date end_date : option Py.datetime)
  : M (list appointment) :=
  let start_date := match start_date with Some d => d | None => utcnow end in
  let end_date :=
    match end_date with Some d => d | None => start_date + Py.days 30 end in
  let start_time_str := Py.isoformat start_date +:+ "Z" in
  let end_time_str := Py.isoformat end_date +:+ "Z" in
  response <- get_scheduled_events start_time_str end_time_str ;;
  match resp_error response with
  | Some _ =>
      match resp_message response with
      | Some message =>
          print ("Error fetching appointments: " +:+ message) ;;;
          ret []
      | None => raise KeyError
      end
  | None =>
      match resp_collection response with
      | Some collection => ret (map appointment_of_event collection)
      | None => ret []
      end
  end.

Definition is_working_day (date : Py.datetime) : bool :=
  let day_name := Py.lower (Py.strftime_A date) in
  match get_working_hours !! day_name with
  | Some h => wh_available h
  | None => false
  end.

Record busy_slot : Type := mkBusy {
  busy_start : option string;
  busy_end : option string
}.

Definition is_active (a : appointment) : bool :=
  match apt_status a with
  | Some s => String.eqb s "active"
  | None => false
  end.

Definition get_busy_time_slots (date : Py.datetime) : M (list busy_slot) :=
  let start_of_day := Py.start_of_day date in
  let end_of_day := Py.end_of_day date in
  appointments <- get_existing_appointments (Some start_of_day) (Some end_of_day) ;;
  ret (map (fun a => mkBusy (apt_start_time a) (apt_end_time a))
         (List.filter is_active appointments)).

(** *** src/available_slots.py *)

Definition slot_interval : Z := 15.

Definition parse_time_string (time_str : option string) : outcome Py.time :=
  match time_str with
  | None => Raise TypeError
  | Some s =>
      match Py.strptime_HM s with
      | Some t => Ok t
      | None => Raise ValueError
      end
  end.

(** The [while] loop of [generate_time_slots], at most [fuel] rounds of it.
    The datetimes of the model have no first and no last year: a run is
    modelled as long as its datetimes stay within the years 1 to 9999, as
    they do when the step is not negative and the day is not the last one.
    With a negative step the loop of the code goes down to the year 1 and
    ends there with [OverflowError], which the model does not have. *)
Fixpoint generate_loop (fuel : nat) (current_datetime end_datetime : Py.datetime)
    (step : Py.timedelta) (slots : list Py.datetime) : outcome (list Py.datetime) :=
  if current_datetime <? end_datetime then
    match fuel with
    | O => Raise Exhausted
    | S fuel' =>
        generate_loop fuel' (current_datetime + step) end_datetime step
          (slots ++ [current_datetime])
    end
  else Ok slots.

(** Rounds enough for a loop from [lo] up to [hi] by a positive [step]; a
    step that is not positive never gets the loop past [hi]. *)
Definition rounds (lo hi : Z) (step : Z) : nat :=
  if 0 <? step then Z.to_nat ((hi - lo) / step + 1) else O.

Definition generate_time_slots (start_time end_time : Py.time) (date : Py.datetime)
    (interval : Z) : outcome (list Py.datetime) :=
  let current_datetime := Py.combine (Py.toordinal date) start_time in
  let end_datetime := Py.combine (Py.toordinal date) end_time in
  generate_loop (rounds current_datetime end_datetime (Py.minutes interval))
    current_datetime end_datetime (Py.minutes interval) [].

(** [datetime.fromisoformat(text.replace('Z', '+00:00'))]; the text is
    [None] when the event had no such key. *)
Definition parse_busy (text : option string) : outcome iso_datetime :=
  match text with
  | None => Raise AttributeError
  | Some s =>
      match fromisoformat (Py.replace_Z s) with
      | Some dt => Ok dt
      | None => Raise ValueError
      end
  end.

Definition strip (dt : iso_datetime) : iso_datetime :=
  match tzinfo dt with
  | Some _ => replace_tzinfo_None dt
  | None => dt
  end.

Fixpoint is_slot_available (slot_start : Py.datetime) (duration : Z)
    (busy_slots : list busy_slot) : outcome bool :=
  let slot_end := slot_start + Py.minutes duration in
  match busy_slots with
  | [] => Ok true
  | busy :: rest =>
      busy_start <~ parse_busy (busy_start busy) ;;
      busy_end <~ parse_busy (busy_end busy) ;;
      let busy_start := strip busy_start in
      let busy_end := strip busy_end in
      if (slot_start <? naive busy_end) && (naive busy_start <? slot_end)
      then Ok false
      else is_slot_available slot_start duration rest
  end.

Record slot : Type := mkSlot {
  slot_start_time : string;
  slot_end_time : string;
  slot_datetime : string
}.

(** The dict that [get_available_slots] returns, by its keys: a key the dict
    does not have is [None]. *)
Record slots_info : Type := mkSlotsInfo {
  si_error : option bool;
  si_message : option string;
  si_date : option string;
  si_day_of_week : option string;
  si_appointment_type : option string;
  si_duration : option Z;
  si_available_slots : option (list slot);
  si_total_slots : option Z
}.

Definition slot_of (slot_start : Py.datetime) (duration : Z) : slot :=
  let slot_end := slot_start + Py.minutes duration in
  mkSlot (Py.strftime_HM slot_start) (Py.strftime_HM slot_end)
    (Py.isoformat slot_start).

(** The loop of [get_available_slots] over the candidates. *)
Fixpoint filter_slots (all_slots : list Py.datetime) (duration : Z)
    (end_time : Py.time) (busy_slots : list busy_slot)
    (available_slots : list slot) : outcome (list slot) :=
  match all_slots with
  | [] => Ok available_slots
  | slot :: rest =>
      free <~ is_slot_available slot duration busy_slots ;;
      if free then
        let slot_end := slot + Py.minutes duration in
        if Py.time_of slot_end <=? end_time
        then filter_slots rest duration end_time busy_slots
               (available_slots ++ [slot_of slot duration])
        else filter_slots rest duration end_time busy_slots available_slots
      else filter_slots rest duration end_time busy_slots available_slots
  end.

Definition invalid_type_info (appointment_type : string) : slots_info :=
  mkSlotsInfo (Some true) (Some ("Invalid appointment type: " +:+ appointment_type))
    None None None None None None.

Definition lookup_or_KeyError {A : Type} (o : option A) : outcome A :=
  match o with
  | Some a => Ok a
  | None => Raise KeyError
  end.

(** The dict returned for a day that is not a working day, and for one that
    is. *)
Definition not_working_day_info (date : Py.datetime) (appointment_type : string)
    (duration : Z) : slots_info :=
  mkSlotsInfo None (Some "Not a working day") (Some (Py.strftime_Ymd date)) None
    (Some appointment_type) (Some duration) (Some []) None.

Definition working_day_info (date : Py.datetime) (type_name : string)
    (duration : Z) (available_slots : list slot) : slots_info :=
  mkSlotsInfo None None (Some (Py.strftime_Ymd date)) (Some (Py.strftime_A date))
    (Some type_name) (Some duration) (Some available_slots)
    (Some (Z.of_nat (length available_slots))).

Definition get_available_slots (date : Py.datetime) (appointment_type : string)
  : M slots_info :=
  match get_appointment_duration appointment_type with
  | None => ret (invalid_type_info appointment_type)
  | Some duration =>
      if duration =? 0 then ret (invalid_type_info appointment_type)
      else if negb (is_working_day date) then
        ret (not_working_day_info date appointment_type duration)
      else
        let day_name := Py.lower (Py.strftime_A date) in
        working_hours <- lift (lookup_or_KeyError (get_working_hours !! day_name)) ;;
        start_time <- lift (parse_time_string (wh_start working_hours)) ;;
        end_time <- lift (parse_time_string (wh_end working_hours)) ;;
        all_slots <- lift (generate_time_slots start_time end_time date slot_interval) ;;
        busy_slots <- get_busy_time_slots date ;;
        available_slots <-
          lift (filter_slots all_slots duration end_time busy_slots []) ;;
        info <- lift (lookup_or_KeyError (APPOINTMENT_TYPES !! appointment_type)) ;;
        ret (working_day_info date (info_name info) duration available_slots)
  end.

(** [if slots.get('available_slots')]: the key is there and its list is not
    empty. *)
Definition has_available_slots (slots : slots_info) : bool :=
  match si_available_slots slots with
  | Some (_ :: _) => true
  | _ => false
  end.

(** The [while] loop of [get_available_slots_range], at most [fuel] rounds. *)
Fixpoint range_loop (fuel : nat) (current_date end_date : Py.datetime)
    (appointment_type : string) (results : list slots_info)
  : M (list slots_info) :=
  if current_date <=? end_date then
    match fuel with
    | O => raise Exhausted
    | S fuel' =>
        slots <- get_available_slots current_date appointment_type ;;
        range_loop fuel' (current_date + Py.days 1) end_date appointment_type
          (if has_available_slots slots then results ++ [slots] else results)
    end
  else ret results.

Definition get_available_slots_range (start_date end_date : Py.datetime)
    (appointment_type : string) : M (list slots_info) :=
  range_loop (rounds start_date end_date (Py.days 1)) start_date end_date
    appointment_type [].

Record next_slot : Type := mkNextSlot {
  ns_found : bool;
  ns_date : option string;
  ns_slot : option slot;
  ns_appointment_type : option string;
  ns_duration : option Z;
  ns_message : option string
}.

Definition get_next_available_slot (appointment_type : string)
    (start_from : option Py.datetime) : M next_slot :=
  let start_from := match start_from with Some d => d | None => now end in
  let end_date := start_from + Py.days 30 in
  slots_range <- get_available_slots_range start_from end_date appointment_type ;;
  let not_found :=
    mkNextSlot false None None None None
      (Some ("No available slots found in the next 30 days for "
             +:+ appointment_type)) in
  match slots_range with
  | [] => ret not_found
  | first_day :: _ =>
      available <- lift (lookup_or_KeyError (si_available_slots first_day)) ;;
      match available with
      | [] => ret not_found
      | first_slot :: _ =>
          date <- lift (lookup_or_KeyError (si_date first_day)) ;;
          type_name <- lift (lookup_or_KeyError (si_appointment_type first_day)) ;;
          duration <- lift (lookup_or_KeyError (si_duration first_day)) ;;
          ret (mkNextSlot true (Some date) (Some first_slot) (Some type_name)
                 (Some duration) None)
      end
  end.

(** *** src/appointment_booking.py *)

Definition required_fields : list string :=
  ["appointment_type"; "date"; "time"; "patient_name"; "patient_email"].

(** The loop over [required_fields]: the first field that is missing from the
    request or empty in it. *)
Fixpoint first_missing (fields : list string) (appointment_data : gmap string string)
  : option string :=
  match fields with
  | [] => None
  | field :: rest =>
      match appointment_data !! field with
      | None => Some field
      | Some value =>
          if String.eqb value "" then Some field
          else first_missing rest appointment_data
      end
  end.

Definition validate_appointment_data (appointment_data : gmap string string)
  : outcome (bool * option string) :=
  match first_missing required_fields appointment_data with
  | Some field => Ok (false, Some ("Missing required field: " +:+ field))
  | None =>
      appointment_type <~ lookup_or_KeyError (appointment_data !! "appointment_type") ;;
      match APPOINTMENT_TYPES !! appointment_type with
      | None => Ok (false, Some ("Invalid appointment type: " +:+ appointment_type))
      | Some _ =>
          date <~ lookup_or_KeyError (appointment_data !! "date") ;;
          match Py.strptime_Ymd date with
          | None => Ok (false, Some "Invalid date format. Use YYYY-MM-DD")
          | Some _ =>
              time <~ lookup_or_KeyError (appointment_data !! "time") ;;
              match Py.strptime_HM time with
              | None => Ok (false, Some "Invalid time format. Use HH:MM")
              | Some _ =>
                  email <~ lookup_or_KeyError (appointment_data !! "patient_email") ;;
                  if negb (Py.contains_char "@"%char email)
                  then Ok (false, Some "Invalid email format")
                  else Ok (true, None)
              end
          end
      end
  end.

Definition strptime_or_ValueError {A : Type} (o : option A) : outcome A :=
  match o with
  | Some a => Ok a
  | None => Raise ValueError
  end.

(** The loop of [check_slot_availability] over the day's slots. *)
Fixpoint slot_listed (time_str : string) (available_slots : list slot) : bool :=
  match available_slots with
  | [] => false
  | slot :: rest =>
      if String.eqb (slot_start_time slot) time_str then true
      else slot_listed time_str rest
  end.

Definition check_slot_availability (appointment_type date_str time_str : string)
  : M (bool * string) :=
  appointment_date <- lift (strptime_or_ValueError (Py.strptime_Ymd date_str)) ;;
  appointment_time <- lift (strptime_or_ValueError (Py.strptime_HM time_str)) ;;
  slots_info <- get_available_slots appointment_date appointment_type ;;
  match si_error slots_info with
  | Some _ =>
      message <- lift (lookup_or_KeyError (si_message slots_info)) ;;
      ret (false, message)
  | None =>
      available_slots <- lift (lookup_or_KeyError (si_available_slots slots_info)) ;;
      match available_slots with
      | [] => ret (false, "No available slots on " +:+ date_str)
      | _ :: _ =>
          if slot_listed time_str available_slots
          then ret (true, "Slot is available")
          else ret (false, "Time slot " +:+ time_str +:+ " is not available on "
                           +:+ date_str)
      end
  end.

Record patient : Type := mkPatient {
  patient_name : string;
  patient_email : string;
  patient_phone : string
}.

Record appointment_details : Type := mkDetails {
  det_type : string;
  det_duration : Z;
  det_date : string;
  det_start_time : string;
  det_end_time : string;
  det_patient : patient;
  det_notes : string;
  det_status : string
}.

(** The dict that [create_appointment] returns, by its keys. *)
Record booking_result : Type := mkBooking {
  br_success : bool;
  br_booking_id : option string;
  br_appointment_details : option appointment_details;
  br_message : option string;
  br_next_steps : option (list string);
  br_error : option string
}.

Definition booking_failure (error : option string) : booking_result :=
  mkBooking false None None None None error.

(** [str(uuid.uuid4())]. *)
Definition draw_uuid : M string :=
  fun st =>
    (Ok (uuid4 (uuids_drawn st)),
     mkState (stdout st) (requests st) (S (uuids_drawn st))).

Definition _simulate_booking (appointment_data : gmap string string)
    (appointment_info : option appointment_type_info)
    (start_datetime : Py.datetime) : M booking_result :=
  info <- lift (match appointment_info with
                | Some i => Ok i
                | None => Raise TypeError
                end) ;;
  let end_datetime := start_datetime + Py.minutes (info_duration info) in
  booking_id <- draw_uuid ;;
  date <- lift (lookup_or_KeyError (appointment_data !! "date")) ;;
  time <- lift (lookup_or_KeyError (appointment_data !! "time")) ;;
  name <- lift (lookup_or_KeyError (appointment_data !! "patient_name")) ;;
  email <- lift (lookup_or_KeyError (appointment_data !! "patient_email")) ;;
  let phone := default "N/A" (appointment_data !! "patient_phone") in
  let notes := default "" (appointment_data !! "notes") in
  ret (mkBooking true (Some booking_id)
         (Some (mkDetails (info_name info) (info_duration info) date time
                  (Py.strftime_HM end_datetime) (mkPatient name email phone)
                  notes "scheduled"))
         (Some "Appointment booked successfully")
         (Some ["Confirmation email will be sent to the patient";
                "Calendar invite will be sent";
                "Please arrive 10 minutes before appointment time"])
         None).

Definition create_appointment (appointment_data : gmap string string)
  : M booking_result :=
  validation <- lift (validate_appointment_data appointment_data) ;;
  let '(is_valid, error_message) := validation in
  if negb is_valid then ret (booking_failure error_message)
  else
    appointment_type <-
      lift (lookup_or_KeyError (appointment_data !! "appointment_type")) ;;
    date_str <- lift (lookup_or_KeyError (appointment_data !! "date")) ;;
    time_str <- lift (lookup_or_KeyError (appointment_data !! "time")) ;;
    availability <- check_slot_availability appointment_type date_str time_str ;;
    let '(is_available, message) := availability in
    if negb is_available then ret (booking_failure (Some message))
    else
      let appointment_info := get_appointment_info appointment_type in
      appointment_date <- lift (strptime_or_ValueError (Py.strptime_Ymd date_str)) ;;
      appointment_time <- lift (strptime_or_ValueError (Py.strptime_HM time_str)) ;;
      let start_datetime :=
        Py.combine (Py.toordinal appointment_date) appointment_time in
      _simulate_booking appointment_data appointment_info start_datetime.

(** *** src/doctor_schedule.py, the schedule summary *)

(** The dict that [get_schedule_summary] returns. Its ['working_hours'] is
    [working_hours.get(day_name, {})]: [None] stands for the empty dict. *)
Record schedule_summary : Type := mkSummary {
  ss_date : string;
  ss_day_of_week : string;
  ss_working_hours : option hours;
  ss_total_appointments : Z;
  ss_appointments : list appointment
}.

Definition get_schedule_summary (date : option Py.datetime) : M schedule_summary :=
  let date := match date with Some d => d | None => now end in
  let day_name := Py.lower (Py.strftime_A date) in
  let working_hours := get_working_hours in
  let start_of_day := Py.start_of_day date in
  let end_of_day := Py.end_of_day date in
  appointments <- get_existing_appointments (Some start_of_day) (Some end_of_day) ;;
  ret (mkSummary (Py.strftime_Ymd date) (Py.capitalize day_name)
         (working_hours !! day_name) (Z.of_nat (length appointments))
         appointments).

(** *** src/appointment_booking.py, rescheduling and the summary *)

(** The dict that [reschedule_appointment] returns. *)
Record reschedule_result : Type := mkReschedule {
  rs_success : bool;
  rs_message : string;
  rs_old_booking_id : string;
  rs_new_booking_id : string;
  rs_new_date : string;
  rs_new_time : string
}.

Definition reschedule_appointment (booking_id new_date new_time : string)
  : M reschedule_result :=
  new_booking_id <- draw_uuid ;;
  ret (mkReschedule true "Appointment rescheduled successfully" booking_id
         new_booking_id new_date new_time).

(** The dict that [get_booking_summary] returns. A key of ['by_type'] is the
    ['name'] of an appointment, which is [None] for an event without one. *)
Record booking_summary : Type := mkBookingSummary {
  bs_total_appointments : Z;
  bs_by_type : gmap (option string) Z;
  bs_appointments : list appointment
}.

(** The loop of [get_booking_summary]. Its key is
    [apt.get('name', 'Unknown')]; [get_existing_appointments] gives every
    appointment a ['name'] key, so the default never applies. The count
    read back by [+= 1] is there: the key has just been set. *)
Fixpoint count_by_type (appointments : list appointment)
    (by_type : gmap (option string) Z) : gmap (option string) Z :=
  match appointments with
  | [] => by_type
  | apt :: rest =>
      let apt_name := apt_name apt in
      let by_type :=
        match by_type !! apt_name with
        | None => <[apt_name := 0]> by_type
        | Some _ => by_type
        end in
      count_by_type rest
        (<[apt_name := default 0 (by_type !! apt_name) + 1]> by_type)
  end.

Definition get_booking_summary (start_date end_date : option Py.datetime)
  : M booking_summary :=
  appointments <- get_existing_appointments start_date end_date ;;
  ret (mkBookingSummary (Z.of_nat (length appointments))
         (count_by_type appointments ∅) appointments).

(** *** src/appointment_type_handler.py *)

(** [APPOINTMENT_TYPES.items()]: the entries in the order of their
    declaration, which is the order in which a dict is gone through. *)
Definition APPOINTMENT_TYPES_items : list (string * appointment_type_info) :=
  [("general_consultation",
    mkInfo "General Consultation" 30 "Standard medical consultation");
   ("follow_up",
    mkInfo "Follow-up" 15 "Follow-up appointment for previous consultation");
   ("physical_exam",
    mkInfo "Physical Exam" 45 "Comprehensive physical examination");
   ("specialist_consultation",
    mkInfo "Specialist Consultation" 60 "Detailed consultation with specialist")].

Record type_entry : Type := mkEntry {
  entry_id : string;
  entry_name : string;
  entry_duration : Z;
  entry_description : string
}.

Definition list_all_types : list type_entry :=
  map (fun item =>
         mkEntry (fst item) (info_name (snd item)) (info_duration (snd item))
           (info_description (snd item)))
    APPOINTMENT_TYPES_items.

Definition get_type_by_id (type_id : string) : option appointment_type_info :=
  get_appointment_info type_id.

Definition get_duration (type_id : string) : option Z :=
  get_appointment_duration type_id.

Definition validate_type (type_id : string) : bool :=
  match APPOINTMENT_TYPES !! type_id with
  | Some _ => true
  | None => false
  end.

(** [if bound and ...]: a bound that is [None] or [0] is no bound. *)
Definition is_set (bound : option Z) : bool :=
  match bound with
  | Some n => negb (n =? 0)
  | None => false
  end.

(** The loop of [filter_types_by_duration]; a bound that is tested is
    there. *)
Fixpoint filter_types_loop (types : list type_entry)
    (min_duration max_duration : option Z) (filtered : list type_entry)
  : list type_entry :=
  match types with
  | [] => filtered
  | apt_type :: rest =>
      let duration := entry_duration apt_type in
      if is_set min_duration && (duration <? default 0 min_duration)
      then filter_types_loop rest min_duration max_duration filtered
      else if is_set max_duration && (default 0 max_duration <? duration)
      then filter_types_loop rest min_duration max_duration filtered
      else filter_types_loop rest min_duration max_duration
             (filtered ++ [apt_type])
  end.

Definition filter_types_by_duration (min_duration max_duration : option Z)
  : list type_entry :=
  filter_types_loop list_all_types min_duration max_duration [].

Record recommendation : Type := mkRecommendation {
  rec_type : type_entry;
  rec_fits : bool;
  rec_time_remaining : Z
}.

(** [recommendations.sort(key=..., reverse=True)]: the library's sort is
    stable, also in reverse; it is a sort by insertion here, an element
    going in front of the first one whose duration is not longer. *)
Fixpoint insert_by_duration (x : recommendation) (sorted : list recommendation)
  : list recommendation :=
  match sorted with
  | [] => [x]
  | y :: rest =>
      if entry_duration (rec_type x) <? entry_duration (rec_type y)
      then y :: insert_by_duration x rest
      else x :: y :: rest
  end.

Definition sort_longest_first (l : list recommendation) : list recommendation :=
  fold_right insert_by_duration [] l.

(** The loop of [get_type_recommendations]. *)
Fixpoint recommend_loop (types : list type_entry) (available_time : Z)
    (recommendations : list recommendation) : list recommendation :=
  match types with
  | [] => recommendations
  | apt_type :: rest =>
      if entry_duration apt_type <=? available_time
      then recommend_loop rest available_time
             (recommendations
              ++ [mkRecommendation apt_type true
                    (available_time - entry_duration apt_type)])
      else recommend_loop rest available_time recommendations
  end.

Definition get_type_recommendations (available_time : Z) : list recommendation :=
  sort_longest_first (recommend_loop list_all_types available_time []).

(** *** dashboard.py, the availability trends (lines 543 to 557)

    The two loops that fill [trend_data], over the keys of the catalog and
    the 14 days from today; a key that a dict does not have raises. *)

Record trend_row : Type := mkTrend {
  trend_date : string;
  trend_type : string;
  trend_available_slots : Z
}.

Fixpoint trend_days (apt_type_key : string) (today : Py.datetime)
    (range : list Z) (trend_data : list trend_row) : M (list trend_row) :=
  match range with
  | [] => ret trend_data
  | i :: rest =>
      let check_date := today + Py.days i in
      slots_info <- get_available_slots check_date apt_type_key ;;
      date <- lift (lookup_or_KeyError (si_date slots_info)) ;;
      info <- lift (lookup_or_KeyError (APPOINTMENT_TYPES !! apt_type_key)) ;;
      total_slots <- lift (lookup_or_KeyError (si_total_slots slots_info)) ;;
      trend_days apt_type_key today rest
        (trend_data ++ [mkTrend date (info_name info) total_slots])
  end.

Fixpoint trend_types (keys : list string) (today : Py.datetime)
    (trend_data : list trend_row) : M (list trend_row) :=
  match keys with
  | [] => ret trend_data
  | apt_type_key :: rest =>
      trend_data <- trend_days apt_type_key today
                      (map Z.of_nat (seq 0 14)) trend_data ;;
      trend_types rest today trend_data
  end.

Definition availability_trends : M (list trend_row) :=
  let today := now in
  trend_types (map fst APPOINTMENT_TYPES_items) today [].

(** ** Specification-side definitions

    These are not in the source: they name what the statements below talk
    about. *)

(** The working window of the day of [date]: opening and closing time, when
    the day is a working day. *)
Definition working_window (date : Py.datetime) : option (Py.time * Py.time) :=
  match get_working_hours !! Py.lower (Py.strftime_A date) with
  | Some h =>
      if wh_available h then
        match parse_time_string (wh_start h), parse_time_string (wh_end h) with
        | Ok s, Ok e => Some (s, e)
        | _, _ => None
        end
      else None
  | None => None
  end.

(** The query that [get_busy_time_slots] sends for the day of [date], the
    answer of the calendar to it in state [st], and the state once the query
    is sent and once a line is printed. *)
Definition query (date : Py.datetime) : string * string :=
  (Py.isoformat (Py.start_of_day date) +:+ "Z",
   Py.isoformat (Py.end_of_day date) +:+ "Z").

Definition answer (date : Py.datetime) (st : state) : response :=
  remote (length (requests st)) (fst (query date)) (snd (query date)).

Definition sent (q : string * string) (st : state) : state :=
  mkState (stdout st) (requests st ++ [q]) (uuids_drawn st).

Definition printed (line : string) (st : state) : state :=
  mkState (stdout st ++ [line]) (requests st) (uuids_drawn st).

(** The state after a fetch for the day of [date] that failed with
    [message]: the query is sent and the error printed. *)
Definition after_failed_fetch (date : Py.datetime) (message : string) (st : state)
  : state :=
  printed ("Error fetching appointments: " +:+ message) (sent (query date) st).

(** A computation that draws no uuid, whatever its outcome. *)
Definition keeps_uuids {A : Type} (m : M A) : Prop :=
  forall st o st', m st = (o, st') -> uuids_drawn st' = uuids_drawn st.

(** The busy intervals of a list of events: those of the active ones. *)
Definition busy_of_events (events : list event) : list busy_slot :=
  map (fun a => mkBusy (apt_start_time a) (apt_end_time a))
    (List.filter is_active (map appointment_of_event events)).

(** The candidates that [get_available_slots] keeps: free of every busy
    interval and ending within working hours. *)
Definition is_free (duration : Z) (busy_slots : list busy_slot) (t : Py.datetime)
  : bool :=
  match is_slot_available t duration busy_slots with
  | Ok true => true
  | _ => false
  end.

Definition fits (duration : Z) (end_time : Py.time) (t : Py.datetime) : bool :=
  Py.time_of (t + Py.minutes duration) <=? end_time.

Definition accepted (all_slots : list Py.datetime) (duration : Z)
    (end_time : Py.time) (busy_slots : list busy_slot) : list Py.datetime :=
  List.filter (fun t => is_free duration busy_slots t && fits duration end_time t)
    all_slots.

(** The half-open overlap test of the specification, on a candidate
    [\[t, t + duration)] and a busy interval read off the wall clock. *)
Definition overlaps (t : Py.datetime) (duration : Z) (b_start b_end : iso_datetime)
  : Prop :=
  t < naive b_end /\ t + Py.minutes duration > naive b_start.

(** The days from [start_date] to [end_date] inclusive: [start_date] and
    every whole number of days after it, as long as [end_date] is not
    passed. *)
Definition days_inclusive (start_date end_date : Py.datetime) : list Py.datetime :=
  map (fun k => start_date + Py.days (Z.of_nat k))
    (seq 0 (rounds start_date end_date (Py.days 1))).

(** The slots of a day's result, none when the dict has no such key, and
    what it is for them to render the candidate starts [starts] of the day
    of [day], listed in ascending order. *)
Definition slots_of (info : slots_info) : list slot :=
  default [] (si_available_slots info).

Definition rendered (duration : Z) (day : Py.datetime) (info : slots_info)
    (starts : list Py.datetime) : Prop :=
  slots_of info = map (fun t => slot_of t duration) starts
  /\ StronglySorted Z.lt starts
  /\ Forall (fun t => Py.toordinal t = Py.toordinal day) starts.

(** Where [get_next_available_slot] starts its search, and the days of its
    window. *)
Definition search_start (start_from : option Py.datetime) : Py.datetime :=
  match start_from with Some d => d | None => now end.

Definition search_window (start_from : option Py.datetime) : list Py.datetime :=
  days_inclusive (search_start start_from) (search_start start_from + Py.days 30).

Definition not_found (appointment_type : string) : next_slot :=
  mkNextSlot false None None None None
    (Some ("No available slots found in the next 30 days for "
           +:+ appointment_type)).

(** One call of [f] per element, in order. *)
Fixpoint for_each {A B : Type} (f : A -> M B) (l : list A) : M (list B) :=
  match l with
  | [] => ret []
  | a :: rest =>
      b <- f a ;;
      bs <- for_each f rest ;;
      ret (b :: bs)
  end.

(** The five checks of the booking validation, each on its own: the error
    of the check when the request violates it. A check that reads a field
    has nothing to say when the field is missing. The first check is that
    each of the five required fields is there and is not the empty text; its
    error names the first field of the list that is not. *)
Definition present_and_non_empty (data : gmap string string) (field : string)
  : Prop :=
  exists value, data !! field = Some value /\ value <> "".

Definition filled (data : gmap string string) (field : string) : bool :=
  bool_decide (is_Some (data !! field) /\ data !! field <> Some "").

Definition check_required (data : gmap string string) : option string :=
  match List.find (fun field => negb (filled data field))
          ["appointment_type"; "date"; "time"; "patient_name"; "patient_email"]
  with
  | Some field => Some ("Missing required field: " +:+ field)
  | None => None
  end.

Definition check_type (data : gmap string string) : option string :=
  match data !! "appointment_type" with
  | Some t =>
      match APPOINTMENT_TYPES !! t with
      | Some _ => None
      | None => Some ("Invalid appointment type: " +:+ t)
      end
  | None => None
  end.

Definition check_date (data : gmap string string) : option string :=
  match data !! "date" with
  | Some d =>
      match Py.strptime_Ymd d with
      | Some _ => None
      | None => Some "Invalid date format. Use YYYY-MM-DD"
      end
  | None => None
  end.

Definition check_time (data : gmap string string) : option string :=
  match data !! "time" with
  | Some t =>
      match Py.strptime_HM t with
      | Some _ => None
      | None => Some "Invalid time format. Use HH:MM"
      end
  | None => None
  end.

Definition check_email (data : gmap string string) : option string :=
  match data !! "patient_email" with
  | Some e =>
      if Py.contains_char "@"%char e then None else Some "Invalid email format"
  | None => None
  end.

Definition checks_in_order : list (gmap string string -> option string) :=
  [check_required; check_type; check_date; check_time; check_email].

(** The error of the first check that the request violates. *)
Fixpoint first_violation (checks : list (gmap string string -> option string))
    (data : gmap string string) : option string :=
  match checks with
  | [] => None
  | check :: rest =>
      match check data with
      | Some error => Some error
      | None => first_violation rest data
      end
  end.

(** The [n] instants from [first] on, [step] apart, and how many multiples
    of a positive [step] there are from [lo] on before [hi]. *)
Definition progression (first step : Z) (n : nat) : list Z :=
  map (fun k => first + step * Z.of_nat k) (seq 0 n).

Definition steps_between (lo hi step : Z) : nat :=
  Z.to_nat ((hi - lo + step - 1) / step).

(** A busy interval whose two ends parse and which the candidate
    [\[t, t + duration)] does not meet: it ends by the start of the interval
    or starts at its end or later. *)
Definition clear_of (t : Py.datetime) (duration : Z) (b : busy_slot) : Prop :=
  exists bs be,
    parse_busy (busy_start b) = Ok bs
    /\ parse_busy (busy_end b) = Ok be
    /\ (t + Py.minutes duration <= naive bs \/ naive be <= t).

(** What ['%H:%M'] prints for hour [h] and minute [m], and whether reading
    it gives the same time of day back, from a text of five characters. *)
Definition clock (h m : Z) : string :=
  Py.zero_padded 2 h +:+ ":" +:+ Py.zero_padded 2 m.

Definition clock_reads_back (h m : Z) : bool :=
  match Py.strptime_HM (clock h m) with
  | Some t =>
      (t =? h * Py.US_PER_HOUR + m * Py.US_PER_MINUTE)
      && (String.length (clock h m) =? 5)%nat
  | None => false
  end.

(** An appointment under the key [name] of the booking summary. *)
Definition named (name : option string) (a : appointment) : bool :=
  bool_decide (apt_name a = name).

(** A duration within the bounds given to [filter_types_by_duration]: not
    below the minimum and not above the maximum, a bound that is [None] or
    [0] being no bound. *)
Definition within (min_duration max_duration : option Z) (duration : Z) : bool :=
  match min_duration with
  | None => true
  | Some n => (n =? 0) || (n <=? duration)
  end
  && match max_duration with
     | None => true
     | Some n => (n =? 0) || (duration <=? n)
     end.

(** An appointment whose status is ['active']. *)
Definition status_is_active (a : appointment) : bool :=
  bool_decide (apt_status a = Some "active").

(** The candidate starts of the day of [date]: from opening time on, a
    quarter of an hour apart, before closing time; none on a day that is not
    a working day. *)
Definition candidates (date : Py.datetime) : list Py.datetime :=
  match working_window date with
  | Some (s, e) =>
      progression (Py.combine (Py.toordinal date) s) (Py.minutes slot_interval)
        (steps_between (Py.combine (Py.toordinal date) s)
           (Py.combine (Py.toordinal date) e) (Py.minutes slot_interval))
  | None => []
  end.

(** The recommendation of a type for [available_time] minutes, and the
    order of the answer: no shorter type before a longer one. *)
Definition recommended (available_time : Z) (apt_type : type_entry) : recommendation :=
  mkRecommendation apt_type true (available_time - entry_duration apt_type).

Definition not_shorter (a b : recommendation) : Prop :=
  entry_duration (rec_type b) <= entry_duration (rec_type a).

(** ** Properties *)

(** *** The effect monad *)

Lemma bind_Ok {A B : Type} (m : M A) (k : A -> M B) st a st1 :
  m st = (Ok a, st1) -> bind m k st = k a st1.
Proof. intros H. unfold bind. now rewrite H. Qed.

Lemma bind_Raise {A B : Type} (m : M A) (k : A -> M B) st e st1 :
  m st = (Raise e, st1) -> bind m k st = (Raise e, st1).
Proof. intros H. unfold bind. now rewrite H. Qed.

Lemma bind_Ok_inv {A B : Type} (m : M A) (k : A -> M B) st b st' :
  bind m k st = (Ok b, st') ->
  exists a st1, m st = (Ok a, st1) /\ k a st1 = (Ok b, st').
Proof.
  unfold bind. destruct (m st) as [[a | e] st1]; intros H.
  - now exists a, st1.
  - discriminate.
Qed.

Lemma lift_Ok_inv {A : Type} (o : outcome A) st a st' :
  lift o st = (Ok a, st') -> o = Ok a /\ st' = st.
Proof. unfold lift. intros H. now inversion H. Qed.

Lemma bind_lift {A B : Type} (o : outcome A) (k : A -> M B) st :
  bind (lift o) k st =
  match o with Ok a => k a st | Raise e => (Raise e, st) end.
Proof. unfold bind, lift. now destruct o. Qed.

Lemma bind_ret {A B : Type} (a : A) (k : A -> M B) st :
  bind (ret a) k st = k a st.
Proof. reflexivity. Qed.

(** *** Dates and times *)

Lemma US_PER_DAY_pos : 0 < Py.US_PER_DAY.
Proof. reflexivity. Qed.

Lemma toordinal_combine ordinal t :
  0 <= t < Py.US_PER_DAY -> Py.toordinal (Py.combine ordinal t) = ordinal.
Proof.
  intros Ht. unfold Py.toordinal, Py.combine.
  rewrite Z.add_comm, Z.div_add by (pose proof US_PER_DAY_pos; lia).
  rewrite Z.div_small by lia. lia.
Qed.

Lemma time_of_combine ordinal t :
  0 <= t < Py.US_PER_DAY -> Py.time_of (Py.combine ordinal t) = t.
Proof.
  intros Ht. unfold Py.time_of, Py.combine.
  rewrite Z.add_comm, Z.mod_add by (pose proof US_PER_DAY_pos; lia).
  now apply Z.mod_small.
Qed.

Lemma combine_split dt :
  dt = Py.combine (Py.toordinal dt) (Py.time_of dt).
Proof.
  unfold Py.combine, Py.toordinal, Py.time_of.
  pose proof (Z.div_mod dt Py.US_PER_DAY) as H.
  pose proof US_PER_DAY_pos. lia.
Qed.

Lemma time_of_range dt : 0 <= Py.time_of dt < Py.US_PER_DAY.
Proof. unfold Py.time_of. apply Z.mod_pos_bound. exact US_PER_DAY_pos. Qed.

Lemma toordinal_add_days dt k :
  Py.toordinal (dt + Py.days k) = Py.toordinal dt + k.
Proof.
  unfold Py.toordinal, Py.days.
  apply Z.div_add. pose proof US_PER_DAY_pos. lia.
Qed.

Lemma weekday_range dt : 0 <= Py.weekday dt < 7.
Proof. unfold Py.weekday. apply Z.mod_pos_bound. lia. Qed.

(** The seven cases of the weekday, each with its opening hours. *)
Lemma weekday_cases dt :
  let day_name := Py.lower (Py.strftime_A dt) in
  (Py.weekday dt < 5 /\
   get_working_hours !! day_name = Some (mkHours (Some "09:00") (Some "17:00") true))
  \/ (Py.weekday dt = 5 /\
      get_working_hours !! day_name = Some (mkHours (Some "10:00") (Some "14:00") true))
  \/ (Py.weekday dt = 6 /\
      get_working_hours !! day_name = Some (mkHours None None false)).
Proof.
  pose proof (weekday_range dt) as Hr. unfold Py.strftime_A. cbv zeta.
  assert (Hc : Py.weekday dt = 0 \/ Py.weekday dt = 1 \/ Py.weekday dt = 2
               \/ Py.weekday dt = 3 \/ Py.weekday dt = 4 \/ Py.weekday dt = 5
               \/ Py.weekday dt = 6) by lia.
  destruct Hc as [H | [H | [H | [H | [H | [H | H]]]]]]; rewrite H;
    [left | left | left | left | left | right; left | right; right];
    (split; [lia | vm_compute; reflexivity]).
Qed.

(** *** The catalog and the opening hours *)

Lemma catalog_durations appointment_type info :
  APPOINTMENT_TYPES !! appointment_type = Some info ->
  info_duration info = 30 \/ info_duration info = 15
  \/ info_duration info = 45 \/ info_duration info = 60.
Proof.
  intros H. unfold APPOINTMENT_TYPES in H.
  apply elem_of_list_to_map_2 in H.
  repeat (apply elem_of_cons in H as [H | H]; [inversion H; subst; simpl; lia |]).
  now apply elem_of_nil in H.
Qed.

Lemma known_duration appointment_type info :
  APPOINTMENT_TYPES !! appointment_type = Some info ->
  get_appointment_duration appointment_type = Some (info_duration info)
  /\ 0 < info_duration info <= 60.
Proof.
  intros H. unfold get_appointment_duration. rewrite H. split; [reflexivity |].
  pose proof (catalog_durations _ _ H). lia.
Qed.

Lemma duration_known appointment_type d :
  get_appointment_duration appointment_type = Some d ->
  exists info, APPOINTMENT_TYPES !! appointment_type = Some info
               /\ info_duration info = d /\ 0 < d <= 60.
Proof.
  unfold get_appointment_duration.
  destruct (APPOINTMENT_TYPES !! appointment_type) as [info |] eqn:H; [| discriminate].
  intros E. inversion E; subst. exists info. repeat split; try reflexivity;
    pose proof (catalog_durations _ _ H); lia.
Qed.

Lemma unknown_duration appointment_type :
  APPOINTMENT_TYPES !! appointment_type = None ->
  get_appointment_duration appointment_type = None.
Proof. intros H. unfold get_appointment_duration. now rewrite H. Qed.

(** The window of a working day: opening and closing on the hour, closing
    at 17:00 at the latest. *)
Lemma working_day_window date :
  is_working_day date = true ->
  exists h s e,
    get_working_hours !! Py.lower (Py.strftime_A date) = Some h
    /\ parse_time_string (wh_start h) = Ok s
    /\ parse_time_string (wh_end h) = Ok e
    /\ working_window date = Some (s, e)
    /\ 0 <= s /\ s < e /\ e <= 17 * Py.US_PER_HOUR.
Proof.
  unfold is_working_day, working_window. intros Hw.
  destruct (weekday_cases date) as [[_ H] | [[_ H] | [_ H]]];
    cbv zeta in H; rewrite H in Hw |- *; simpl in Hw; try discriminate.
  - exists (mkHours (Some "09:00") (Some "17:00") true),
      (9 * Py.US_PER_HOUR), (17 * Py.US_PER_HOUR).
    repeat split; vm_compute; congruence.
  - exists (mkHours (Some "10:00") (Some "14:00") true),
      (10 * Py.US_PER_HOUR), (14 * Py.US_PER_HOUR).
    repeat split; vm_compute; congruence.
Qed.

Lemma not_working_day_window date :
  is_working_day date = false -> working_window date = None.
Proof.
  unfold is_working_day, working_window. intros Hw.
  destruct (get_working_hours !! Py.lower (Py.strftime_A date)) as [h |];
    [| reflexivity].
  now rewrite Hw.
Qed.

Lemma working_window_working_day date s e :
  working_window date = Some (s, e) -> is_working_day date = true.
Proof.
  intros H. destruct (is_working_day date) eqn:E; [reflexivity |].
  rewrite (not_working_day_window _ E) in H. discriminate.
Qed.

(** *** The candidate grid *)

Lemma generate_loop_spec fuel : forall current end_datetime step slots,
  0 < step ->
  end_datetime - current <= Z.of_nat fuel * step ->
  exists grid,
    generate_loop fuel current end_datetime step slots = Ok (slots ++ grid)
    /\ Forall (fun t => current <= t < end_datetime) grid
    /\ StronglySorted Z.lt grid.
Proof.
  induction fuel as [| fuel IH]; intros current end_datetime step slots Hs Hf.
  - exists []. simpl. destruct (Z.ltb_spec current end_datetime); [lia |].
    rewrite app_nil_r. repeat split; constructor.
  - simpl. destruct (Z.ltb_spec current end_datetime) as [Hlt | Hge].
    + destruct (IH (current + step) end_datetime step (slots ++ [current]) Hs)
        as (grid & Hg & Hin & Hsorted); [lia |].
      exists (current :: grid). rewrite Hg, <- app_assoc. simpl.
      repeat split.
      * constructor; [lia |].
        eapply Forall_impl; [exact Hin |]. simpl. intros t Ht. lia.
      * constructor; [exact Hsorted |].
        eapply Forall_impl; [exact Hin |]. simpl. intros t Ht. lia.
    + exists []. rewrite app_nil_r. repeat split; constructor.
Qed.

Lemma rounds_enough lo hi step :
  0 < step -> hi - lo <= Z.of_nat (rounds lo hi step) * step.
Proof.
  intros Hs. unfold rounds. destruct (Z.ltb_spec 0 step); [| lia].
  destruct (Z_le_gt_dec 0 ((hi - lo) / step + 1)) as [Hn | Hn].
  - rewrite Z2Nat.id by lia.
    pose proof (Z.mul_succ_div_gt (hi - lo) step Hs). lia.
  - replace (Z.of_nat (Z.to_nat ((hi - lo) / step + 1))) with 0 by lia.
    assert ((hi - lo) / step < 0) by lia.
    assert (hi - lo < 0); [| lia].
    apply Z.nle_gt. intros Hc. pose proof (Z.div_pos (hi - lo) step Hc Hs). lia.
Qed.

(** [generate_time_slots] returns: the grid lies within the window on the
    day of [date], in ascending order. *)
Lemma generate_time_slots_spec start_time end_time date interval :
  0 < interval ->
  exists grid,
    generate_time_slots start_time end_time date interval = Ok grid
    /\ Forall (fun t => Py.combine (Py.toordinal date) start_time <= t
                        /\ t < Py.combine (Py.toordinal date) end_time) grid
    /\ StronglySorted Z.lt grid.
Proof.
  intros Hi. unfold generate_time_slots.
  assert (Hs : 0 < Py.minutes interval) by (unfold Py.minutes, Py.US_PER_MINUTE, Py.US_PER_SECOND; lia).
  destruct (generate_loop_spec
              (rounds (Py.combine (Py.toordinal date) start_time)
                 (Py.combine (Py.toordinal date) end_time) (Py.minutes interval))
              (Py.combine (Py.toordinal date) start_time)
              (Py.combine (Py.toordinal date) end_time)
              (Py.minutes interval) [] Hs (rounds_enough _ _ _ Hs))
    as (grid & Hg & Hin & Hsorted).
  exists grid. repeat split; assumption.
Qed.

(** *** Busy intervals *)

Lemma naive_strip dt : naive (strip dt) = naive dt.
Proof. unfold strip. now destruct (tzinfo dt). Qed.

(** A free candidate: every busy interval parses and none overlaps it. *)
Lemma is_slot_available_true t d busy :
  is_slot_available t d busy = Ok true ->
  Forall (fun b => exists bs be,
            parse_busy (busy_start b) = Ok bs
            /\ parse_busy (busy_end b) = Ok be
            /\ ~ overlaps t d bs be) busy.
Proof.
  induction busy as [| b rest IH]; simpl; intros H; [constructor |].
  destruct (parse_busy (busy_start b)) as [bs | x] eqn:Es; simpl in H; [| discriminate].
  destruct (parse_busy (busy_end b)) as [be | x] eqn:Ee; simpl in H; [| discriminate].
  rewrite !naive_strip in H.
  destruct ((t <? naive be) && (naive bs <? t + Py.minutes d)) eqn:E; [discriminate |].
  constructor; [| now apply IH].
  exists bs, be. split; [exact Es |]. split; [exact Ee |].
  unfold overlaps. intros [H1 H2].
  apply andb_false_iff in E as [E | E]; apply Z.ltb_ge in E; lia.
Qed.

(** A candidate that is not free overlaps some busy interval. *)
Lemma is_slot_available_false t d busy :
  is_slot_available t d busy = Ok false ->
  Exists (fun b => exists bs be,
            parse_busy (busy_start b) = Ok bs
            /\ parse_busy (busy_end b) = Ok be
            /\ overlaps t d bs be) busy.
Proof.
  induction busy as [| b rest IH]; simpl; intros H; [discriminate |].
  destruct (parse_busy (busy_start b)) as [bs | x] eqn:Es; simpl in H; [| discriminate].
  destruct (parse_busy (busy_end b)) as [be | x] eqn:Ee; simpl in H; [| discriminate].
  rewrite !naive_strip in H.
  destruct ((t <? naive be) && (naive bs <? t + Py.minutes d)) eqn:E.
  - apply Exists_cons_hd. exists bs, be. split; [exact Es |]. split; [exact Ee |].
    apply andb_true_iff in E as [E1 E2].
    apply Z.ltb_lt in E1. apply Z.ltb_lt in E2. unfold overlaps. lia.
  - apply Exists_cons_tl. now apply IH.
Qed.

Lemma is_slot_available_total t d busy :
  Forall (fun b => exists bs be,
            parse_busy (busy_start b) = Ok bs
            /\ parse_busy (busy_end b) = Ok be) busy ->
  exists free, is_slot_available t d busy = Ok free.
Proof.
  induction 1 as [| b rest (bs & be & Hs & He) _ IH]; simpl; [now exists true |].
  rewrite Hs, He. simpl.
  destruct ((t <? naive (strip be)) && (naive (strip bs) <? t + Py.minutes d));
    [now exists false | exact IH].
Qed.

(** *** The filter of [get_available_slots] *)

Lemma filter_slots_spec all : forall d e busy acc out,
  filter_slots all d e busy acc = Ok out ->
  out = acc ++ map (fun t => slot_of t d) (accepted all d e busy).
Proof.
  induction all as [| t rest IH]; intros d e busy acc out H; simpl in H.
  - inversion H. simpl. now rewrite app_nil_r.
  - unfold accepted. simpl. unfold is_free at 1, fits at 1.
    destruct (is_slot_available t d busy) as [[|] | x]; simpl in H;
      [| now apply IH | discriminate].
    destruct (Py.time_of (t + Py.minutes d) <=? e); simpl.
    + apply IH in H. rewrite H, <- app_assoc. reflexivity.
    + now apply IH.
Qed.

Lemma filter_slots_total all : forall d e busy acc,
  Forall (fun t => exists free, is_slot_available t d busy = Ok free) all ->
  filter_slots all d e busy acc
  = Ok (acc ++ map (fun t => slot_of t d) (accepted all d e busy)).
Proof.
  induction all as [| t rest IH]; intros d e busy acc H; simpl.
  - now rewrite app_nil_r.
  - inversion H as [| ? ? [free Hf] Hrest]; subst.
    unfold accepted. simpl. unfold is_free at 1, fits at 1. rewrite Hf. simpl.
    destruct free; simpl; [| now apply IH].
    destruct (Py.time_of (t + Py.minutes d) <=? e); simpl.
    + rewrite IH by assumption. now rewrite <- app_assoc.
    + now apply IH.
Qed.

Lemma accepted_In all d e busy t :
  In t (accepted all d e busy) <->
  In t all /\ is_slot_available t d busy = Ok true
  /\ Py.time_of (t + Py.minutes d) <= e.
Proof.
  unfold accepted. rewrite filter_In, andb_true_iff. unfold is_free, fits.
  rewrite Z.leb_le.
  destruct (is_slot_available t d busy) as [[|] | x]; intuition congruence.
Qed.

Lemma filter_StronglySorted (f : Z -> bool) l :
  StronglySorted Z.lt l -> StronglySorted Z.lt (List.filter f l).
Proof.
  induction 1 as [| a l Hs IH Ha]; simpl; [constructor |].
  destruct (f a); [| exact IH].
  constructor; [exact IH |].
  apply List.Forall_forall. intros x Hx. apply filter_In in Hx as [Hx _].
  now apply (proj1 (List.Forall_forall _ _) Ha).
Qed.

Lemma accepted_sorted all d e busy :
  StronglySorted Z.lt all -> StronglySorted Z.lt (accepted all d e busy).
Proof. apply filter_StronglySorted. Qed.

(** *** The schedule source *)

Lemma get_busy_time_slots_eq date st :
  get_busy_time_slots date st =
  let st1 := sent (query date) st in
  match resp_error (answer date st) with
  | Some _ =>
      match resp_message (answer date st) with
      | Some message =>
          (Ok [], printed ("Error fetching appointments: " +:+ message) st1)
      | None => (Raise KeyError, st1)
      end
  | None =>
      (Ok (busy_of_events (default [] (resp_collection (answer date st)))), st1)
  end.
Proof.
  unfold get_busy_time_slots, get_existing_appointments, get_scheduled_events,
    answer, query, bind. simpl.
  destruct (resp_error _); [destruct (resp_message _); reflexivity |].
  destruct (resp_collection _); reflexivity.
Qed.

(** A call sends one query, draws no uuid, and prints at most the line of a
    failed fetch. *)
Lemma get_busy_time_slots_state date st o st' :
  get_busy_time_slots date st = (o, st') ->
  requests st' = requests st ++ [query date]
  /\ uuids_drawn st' = uuids_drawn st.
Proof.
  rewrite get_busy_time_slots_eq. cbv zeta.
  destruct (resp_error _); [destruct (resp_message _) |];
    intros H; inversion H; subst; now split.
Qed.

(** *** [get_available_slots], case by case *)

Lemma get_available_slots_invalid date appointment_type st :
  get_appointment_duration appointment_type = None ->
  get_available_slots date appointment_type st
  = (Ok (invalid_type_info appointment_type), st).
Proof. intros H. unfold get_available_slots. now rewrite H. Qed.

Lemma get_available_slots_not_working date appointment_type d st :
  get_appointment_duration appointment_type = Some d ->
  is_working_day date = false ->
  get_available_slots date appointment_type st
  = (Ok (not_working_day_info date appointment_type d), st).
Proof.
  intros Hd Hw. unfold get_available_slots. rewrite Hd, Hw.
  destruct (duration_known _ _ Hd) as (_ & _ & _ & Hpos).
  destruct (Z.eqb_spec d 0); [lia | reflexivity].
Qed.

(** On a working day the answer is that of the schedule source, run through
    the filter over the day's grid. *)
Lemma get_available_slots_working date appointment_type info s e st :
  APPOINTMENT_TYPES !! appointment_type = Some info ->
  working_window date = Some (s, e) ->
  exists grid,
    generate_time_slots s e date slot_interval = Ok grid
    /\ get_available_slots date appointment_type st
       = match get_busy_time_slots date st with
         | (Ok busy, st1) =>
             match filter_slots grid (info_duration info) e busy [] with
             | Ok available =>
                 (Ok (working_day_info date (info_name info)
                        (info_duration info) available), st1)
             | Raise x => (Raise x, st1)
             end
         | (Raise x, st1) => (Raise x, st1)
         end.
Proof.
  intros Hi Hw.
  pose proof (working_window_working_day _ _ _ Hw) as Hday.
  destruct (working_day_window _ Hday) as (h & s' & e' & Hh & Hs & He & Hw' & _).
  rewrite Hw in Hw'. inversion Hw'; subst s' e'.
  destruct (generate_time_slots_spec s e date slot_interval) as (grid & Hg & _);
    [reflexivity |].
  exists grid. split; [exact Hg |].
  destruct (known_duration _ _ Hi) as [Hd Hpos].
  unfold get_available_slots. rewrite Hd, Hday.
  destruct (Z.eqb_spec (info_duration info) 0); [lia |]. cbn [negb]. cbv zeta.
  rewrite bind_lift, Hh. cbn [lookup_or_KeyError].
  rewrite bind_lift, Hs. rewrite bind_lift, He. rewrite bind_lift, Hg.
  unfold bind at 1.
  destruct (get_busy_time_slots date st) as [[busy | x] st1]; [| reflexivity].
  rewrite bind_lift.
  destruct (filter_slots grid (info_duration info) e busy []); [| reflexivity].
  rewrite bind_lift, Hi. reflexivity.
Qed.

Lemma time_of_same_day ordinal x :
  ordinal * Py.US_PER_DAY <= x < (ordinal + 1) * Py.US_PER_DAY ->
  Py.time_of x = x - ordinal * Py.US_PER_DAY.
Proof.
  intros H. unfold Py.time_of. symmetry.
  apply (Z.mod_unique_pos x Py.US_PER_DAY ordinal); lia.
Qed.

(** Within a day's window, ending by closing time on the clock is ending by
    closing time. *)
Lemma fits_same_day ordinal s e d t :
  0 <= s -> e <= 17 * Py.US_PER_HOUR -> 0 < d <= 60 ->
  Py.combine ordinal s <= t < Py.combine ordinal e ->
  Py.time_of (t + Py.minutes d) <= e <->
  t + Py.minutes d <= Py.combine ordinal e.
Proof.
  intros Hs He Hd Ht. unfold Py.combine in *.
  rewrite (time_of_same_day ordinal).
  - lia.
  - unfold Py.minutes, Py.US_PER_DAY, Py.US_PER_HOUR, Py.US_PER_MINUTE,
      Py.US_PER_SECOND in *. lia.
Qed.

(** What an [Ok] answer with a list of slots is made of: on a working day,
    the candidates of the grid that the filter keeps, for the busy intervals
    that the same call fetched. *)
Lemma get_available_slots_Ok_working date appointment_type st info st' s e d :
  get_available_slots date appointment_type st = (Ok info, st') ->
  working_window date = Some (s, e) ->
  get_appointment_duration appointment_type = Some d ->
  exists grid busy name,
    generate_time_slots s e date slot_interval = Ok grid
    /\ Forall (fun t => Py.combine (Py.toordinal date) s <= t
                        /\ t < Py.combine (Py.toordinal date) e) grid
    /\ StronglySorted Z.lt grid
    /\ get_busy_time_slots date st = (Ok busy, st')
    /\ info = working_day_info date name d
                (map (fun t => slot_of t d) (accepted grid d e busy)).
Proof.
  intros H Hw Hd.
  destruct (duration_known _ _ Hd) as (i & Hi & Hdi & _). subst d.
  destruct (get_available_slots_working date appointment_type i s e st Hi Hw)
    as (grid & Hg & Heq).
  destruct (generate_time_slots_spec s e date slot_interval)
    as (grid' & Hg' & Hin & Hsorted); [reflexivity |].
  rewrite Hg in Hg'. inversion Hg'; subst grid'.
  rewrite Heq in H.
  destruct (get_busy_time_slots date st) as [[busy | x] st1]; [| discriminate].
  destruct (filter_slots grid (info_duration i) e busy []) as [available | x] eqn:Hf;
    [| discriminate].
  inversion H; subst. apply filter_slots_spec in Hf. simpl in Hf. subst available.
  exists grid, busy, (info_name i). repeat split; assumption.
Qed.

(** *** The candidates of a day *)

Lemma toordinal_same_day ordinal x :
  ordinal * Py.US_PER_DAY <= x < (ordinal + 1) * Py.US_PER_DAY ->
  Py.toordinal x = ordinal.
Proof.
  intros H. unfold Py.toordinal. symmetry.
  apply (Z.div_unique_pos x Py.US_PER_DAY ordinal (x - ordinal * Py.US_PER_DAY)); lia.
Qed.

Lemma progression_cons first step n :
  progression first step (S n) = first :: progression (first + step) step n.
Proof.
  unfold progression. cbn [seq map]. f_equal; [lia |].
  rewrite <- seq_shift, map_map. apply map_ext. intros k.
  rewrite Nat2Z.inj_succ, Z.mul_succ_r. lia.
Qed.

Lemma steps_between_none lo hi step :
  0 < step -> hi <= lo -> steps_between lo hi step = 0%nat.
Proof.
  intros Hs Hle. unfold steps_between.
  assert ((hi - lo + step - 1) / step < 1); [| lia].
  apply Z.div_lt_upper_bound; lia.
Qed.

Lemma steps_between_succ lo hi step :
  0 < step -> lo < hi ->
  steps_between lo hi step = S (steps_between (lo + step) hi step).
Proof.
  intros Hs Hlt. unfold steps_between.
  replace (hi - lo + step - 1) with (hi - (lo + step) + step - 1 + 1 * step) by lia.
  rewrite Z.div_add by lia.
  assert (0 <= (hi - (lo + step) + step - 1) / step)
    by (apply Z.div_pos; lia).
  lia.
Qed.

Lemma generate_loop_progression fuel : forall current end_datetime step slots,
  0 < step ->
  end_datetime - current <= Z.of_nat fuel * step ->
  generate_loop fuel current end_datetime step slots
  = Ok (slots ++ progression current step (steps_between current end_datetime step)).
Proof.
  induction fuel as [| fuel IH]; intros current end_datetime step slots Hs Hf.
  - simpl. destruct (Z.ltb_spec current end_datetime); [lia |].
    rewrite steps_between_none by lia. unfold progression. simpl.
    now rewrite app_nil_r.
  - simpl. destruct (Z.ltb_spec current end_datetime) as [Hlt | Hge].
    + rewrite IH by lia. rewrite (steps_between_succ current) by assumption.
      rewrite progression_cons, <- app_assoc. reflexivity.
    + rewrite steps_between_none by lia. unfold progression. simpl.
      now rewrite app_nil_r.
Qed.

Lemma minutes_pos interval : 0 < interval -> 0 < Py.minutes interval.
Proof. unfold Py.minutes, Py.US_PER_MINUTE, Py.US_PER_SECOND. lia. Qed.

Lemma generate_time_slots_progression start_time end_time date interval :
  0 < interval ->
  generate_time_slots start_time end_time date interval
  = Ok (progression (Py.combine (Py.toordinal date) start_time)
          (Py.minutes interval)
          (steps_between (Py.combine (Py.toordinal date) start_time)
             (Py.combine (Py.toordinal date) end_time) (Py.minutes interval))).
Proof.
  intros Hi. unfold generate_time_slots.
  rewrite generate_loop_progression;
    [reflexivity | now apply minutes_pos | apply rounds_enough; now apply minutes_pos].
Qed.

Lemma is_slot_available_clear t d busy :
  Forall (clear_of t d) busy -> is_slot_available t d busy = Ok true.
Proof.
  induction 1 as [| b rest (bs & be & Hs & He & Hclear) _ IH]; [reflexivity |].
  simpl. rewrite Hs, He. simpl. rewrite !naive_strip.
  destruct ((t <? naive be) && (naive bs <? t + Py.minutes d)) eqn:E; [| exact IH].
  apply andb_true_iff in E as [E1 E2].
  apply Z.ltb_lt in E1. apply Z.ltb_lt in E2. lia.
Qed.

Lemma is_slot_available_true_clear t d busy :
  is_slot_available t d busy = Ok true -> Forall (clear_of t d) busy.
Proof.
  intros H. apply is_slot_available_true in H.
  eapply Forall_impl; [exact H |].
  intros b (bs & be & Hs & He & Hno). exists bs, be.
  split; [exact Hs |]. split; [exact He |]. unfold overlaps in Hno. lia.
Qed.

Lemma clock_table :
  forallb (fun h => forallb (fun m => clock_reads_back (Z.of_nat h) (Z.of_nat m))
                      (seq 0 60))
    (seq 0 24) = true.
Proof. vm_compute. reflexivity. Qed.

(** Reading ['%H:%M'] back: the time of day, less its seconds. *)
Lemma strptime_strftime_HM dt :
  Py.strptime_HM (Py.strftime_HM dt)
  = Some (Py.hour dt * Py.US_PER_HOUR + Py.minute dt * Py.US_PER_MINUTE)
  /\ String.length (Py.strftime_HM dt) = 5%nat.
Proof.
  assert (Hh : 0 <= Py.hour dt < 24).
  { unfold Py.hour. pose proof (time_of_range dt) as Hr.
    split; [apply Z.div_pos; [lia | reflexivity] |].
    apply Z.div_lt_upper_bound; [reflexivity |]. exact (proj2 Hr). }
  assert (Hm : 0 <= Py.minute dt < 60)
    by (unfold Py.minute; apply Z.mod_pos_bound; lia).
  pose proof clock_table as Htable.
  rewrite forallb_forall in Htable.
  specialize (Htable (Z.to_nat (Py.hour dt))).
  rewrite forallb_forall in Htable.
  specialize (Htable ltac:(apply in_seq; lia) (Z.to_nat (Py.minute dt))
                ltac:(apply in_seq; lia)).
  rewrite !Z2Nat.id in Htable by lia.
  unfold clock_reads_back in Htable.
  change (clock (Py.hour dt) (Py.minute dt)) with (Py.strftime_HM dt) in Htable.
  destruct (Py.strptime_HM (Py.strftime_HM dt)) as [t |]; [| discriminate].
  apply andb_true_iff in Htable as [Ht Hlen].
  apply Z.eqb_eq in Ht. apply Nat.eqb_eq in Hlen. subst t. now split.
Qed.

Lemma working_window_cases date s e :
  working_window date = Some (s, e) ->
  (s = 9 * Py.US_PER_HOUR /\ e = 17 * Py.US_PER_HOUR)
  \/ (s = 10 * Py.US_PER_HOUR /\ e = 14 * Py.US_PER_HOUR).
Proof.
  unfold working_window. intros Hw.
  destruct (weekday_cases date) as [[_ H] | [[_ H] | [_ H]]];
    cbv zeta in H; rewrite H in Hw; vm_compute in Hw;
    [left | right | discriminate];
    inversion Hw; split; vm_compute; reflexivity.
Qed.

(** On a candidate of the grid the clock reads back in full. *)
Lemma grid_start_reads_back ordinal s k t :
  s = 9 * Py.US_PER_HOUR \/ s = 10 * Py.US_PER_HOUR ->
  t = Py.combine ordinal s + Py.minutes slot_interval * Z.of_nat k ->
  t < Py.combine ordinal (17 * Py.US_PER_HOUR) ->
  Py.strptime_HM (Py.strftime_HM t) = Some (t - ordinal * Py.US_PER_DAY)
  /\ Py.toordinal t = ordinal.
Proof.
  intros Hs Ht Hlt.
  assert (Hday : ordinal * Py.US_PER_DAY <= t < (ordinal + 1) * Py.US_PER_DAY).
  { unfold Py.combine, Py.minutes, slot_interval, Py.US_PER_DAY, Py.US_PER_HOUR,
      Py.US_PER_MINUTE, Py.US_PER_SECOND in *. lia. }
  split; [| now apply toordinal_same_day].
  rewrite (proj1 (strptime_strftime_HM t)). f_equal.
  unfold Py.hour, Py.minute. rewrite (time_of_same_day ordinal) by exact Hday.
  unfold Py.combine, Py.minutes, slot_interval, Py.US_PER_DAY, Py.US_PER_HOUR,
    Py.US_PER_MINUTE, Py.US_PER_SECOND in *.
  assert (Hmm : exists mm, t - ordinal * (24 * (60 * (60 * 1000000)))
                           = 60000000 * mm /\ 0 <= mm)
    by (destruct Hs; [exists (540 + 15 * Z.of_nat k)
                     | exists (600 + 15 * Z.of_nat k)]; lia).
  destruct Hmm as (mm & -> & Hmm).
  replace (60 * (60 * 1000000)) with (60000000 * 60) by reflexivity.
  replace (60 * 1000000) with 60000000 by reflexivity.
  rewrite Z.div_mul_cancel_l by lia.
  rewrite (Z.mul_comm 60000000 mm), Z.div_mul by lia.
  pose proof (Z.div_mod mm 60 ltac:(lia)). lia.
Qed.

Lemma candidates_grid date s e :
  working_window date = Some (s, e) ->
  generate_time_slots s e date slot_interval = Ok (candidates date).
Proof.
  intros Hw. unfold candidates. rewrite Hw.
  now apply generate_time_slots_progression.
Qed.

(** The clock of a candidate reads back in full, and a candidate is of its
    day. *)
Lemma candidate_reads_back date t :
  In t (candidates date) ->
  Py.strptime_HM (Py.strftime_HM t) = Some (t - Py.toordinal date * Py.US_PER_DAY)
  /\ Py.toordinal t = Py.toordinal date.
Proof.
  intros Ht.
  destruct (working_window date) as [[s e] |] eqn:Hw;
    [| unfold candidates in Ht; rewrite Hw in Ht; contradiction].
  pose proof (candidates_grid _ _ _ Hw) as Hgrid.
  destruct (generate_time_slots_spec s e date slot_interval)
    as (grid & Hg & Hrange & _); [reflexivity |].
  rewrite Hgrid in Hg. injection Hg as <-.
  rewrite List.Forall_forall in Hrange. specialize (Hrange t Ht).
  cbv beta in Hrange.
  unfold candidates in Ht. rewrite Hw in Ht.
  apply in_map_iff in Ht as (k & Hk & _).
  destruct (working_window_cases _ _ _ Hw) as [[-> ->] | [-> ->]].
  - apply (grid_start_reads_back (Py.toordinal date) (9 * Py.US_PER_HOUR) k t);
      [now left | now symmetry | exact (proj2 Hrange)].
  - apply (grid_start_reads_back (Py.toordinal date) (10 * Py.US_PER_HOUR) k t);
      [now right | now symmetry |].
    unfold Py.combine, Py.US_PER_HOUR, Py.US_PER_MINUTE, Py.US_PER_SECOND
      in Hrange |- *. lia.
Qed.

Lemma candidate_label_inj date t1 t2 :
  In t1 (candidates date) -> In t2 (candidates date) ->
  Py.strftime_HM t1 = Py.strftime_HM t2 -> t1 = t2.
Proof.
  intros H1 H2 Heq.
  destruct (candidate_reads_back _ _ H1) as [B1 _].
  destruct (candidate_reads_back _ _ H2) as [B2 _].
  rewrite Heq, B2 in B1. injection B1 as B1. lia.
Qed.

(** ** The claims *)

(** C1. The slots that [get_available_slots] returns are the renderings of
    candidate starts of the day of the date, and a slot is the rendering of
    one candidate only. Each of these starts fails the half-open overlap
    test against every busy interval fetched for the date: for each busy
    interval, both ends parse and not ([t < end] and [t + duration > start]),
    where the ends are the wall-clock readings of the timestamps, their
    offset dropped and not applied. A candidate that overlaps a busy interval
    is not among the slots: no slot of the answer starts at its time. *)
Theorem available_slots_avoid_busy_intervals
    date appointment_type st info st' slots :
  get_available_slots date appointment_type st = (Ok info, st') ->
  si_available_slots info = Some slots ->
  exists d starts,
    get_appointment_duration appointment_type = Some d
    /\ slots = map (fun t => slot_of t d) starts
    /\ (forall t, In t starts -> In t (candidates date))
    /\ (forall t1 t2,
          In t1 (candidates date) -> In t2 (candidates date) ->
          slot_start_time (slot_of t1 d) = slot_start_time (slot_of t2 d) ->
          t1 = t2)
    /\ forall busy st1,
         get_busy_time_slots date st = (Ok busy, st1) ->
         Forall (fun t =>
                   Forall (fun b => exists bs be,
                             parse_busy (busy_start b) = Ok bs
                             /\ parse_busy (busy_end b) = Ok be
                             /\ ~ overlaps t d bs be) busy) starts
         /\ forall t b bs be,
              In t (candidates date) ->
              In b busy ->
              parse_busy (busy_start b) = Ok bs ->
              parse_busy (busy_end b) = Ok be ->
              overlaps t d bs be ->
              Forall (fun sl => slot_start_time sl <> Py.strftime_HM t) slots
              /\ ~ In (slot_of t d) slots.
Proof.
  intros H Hslots.
  destruct (get_appointment_duration appointment_type) as [d |] eqn:Hd.
  2: { rewrite get_available_slots_invalid in H by assumption.
       inversion H; subst. discriminate. }
  assert (Hinj : forall t1 t2,
            In t1 (candidates date) -> In t2 (candidates date) ->
            slot_start_time (slot_of t1 d) = slot_start_time (slot_of t2 d) ->
            t1 = t2)
    by (intros t1 t2 H1 H2 Heq; exact (candidate_label_inj _ _ _ H1 H2 Heq)).
  destruct (is_working_day date) eqn:Hday.
  - destruct (working_day_window _ Hday) as (h & s & e & _ & _ & _ & Hw & _).
    destruct (get_available_slots_Ok_working _ _ _ _ _ _ _ _ H Hw Hd)
      as (grid & busy' & name & Hgrid & _ & _ & Hb' & Hinfo).
    rewrite (candidates_grid _ _ _ Hw) in Hgrid. injection Hgrid as <-.
    subst info. simpl in Hslots. inversion Hslots; subst slots. clear Hslots.
    exists d, (accepted (candidates date) d e busy').
    split; [reflexivity |]. split; [reflexivity |].
    split; [intros t Ht; now apply accepted_In in Ht |].
    split; [exact Hinj |].
    intros busy st1 Hb. rewrite Hb in Hb'. inversion Hb'; subst busy' st1.
    assert (Hclear : forall t,
              In t (accepted (candidates date) d e busy) ->
              Forall (fun b => exists bs be,
                        parse_busy (busy_start b) = Ok bs
                        /\ parse_busy (busy_end b) = Ok be
                        /\ ~ overlaps t d bs be) busy).
    { intros t Ht. apply accepted_In in Ht as (_ & Hfree & _).
      now apply is_slot_available_true. }
    split; [apply List.Forall_forall; exact Hclear |].
    intros t b bs be Ht Hb0 Hs He Hover.
    assert (Hlabel : Forall (fun sl => slot_start_time sl <> Py.strftime_HM t)
                       (map (fun t0 => slot_of t0 d)
                          (accepted (candidates date) d e busy))).
    { apply List.Forall_forall. intros sl Hsl Heq.
      apply in_map_iff in Hsl as (t' & <- & Hacc).
      assert (t' = t)
        by (apply Hinj; [now apply accepted_In in Hacc | exact Ht | exact Heq]).
      subst t'. specialize (Hclear t Hacc).
      rewrite List.Forall_forall in Hclear.
      destruct (Hclear b Hb0) as (bs' & be' & Hs' & He' & Hno).
      rewrite Hs in Hs'. rewrite He in He'.
      injection Hs' as <-. injection He' as <-. contradiction. }
    split; [exact Hlabel |].
    intros Hin. rewrite List.Forall_forall in Hlabel.
    now apply (Hlabel _ Hin).
  - rewrite (get_available_slots_not_working _ _ _ _ Hd Hday) in H.
    inversion H; subst. simpl in Hslots. inversion Hslots; subst slots.
    exists d, []. split; [reflexivity |]. split; [reflexivity |].
    split; [intros t [] |]. split; [exact Hinj |].
    intros busy st1 _. split; [constructor |].
    intros t b bs be _ _ _ _ _. split; [constructor | intros []].
Qed.

(** C2. On a working day with window [\[s, e)] and for an appointment type of
    duration [d], the slots that [get_available_slots] returns are the
    renderings of the kept candidates of the grid, each of which starts at
    [s] or later and ends, [d] minutes on, at [e] or earlier; a candidate
    that no busy interval touches and whose end is past [e] is not kept. *)
Theorem available_slots_within_working_hours
    date appointment_type st info st' slots s e d :
  get_available_slots date appointment_type st = (Ok info, st') ->
  si_available_slots info = Some slots ->
  working_window date = Some (s, e) ->
  get_appointment_duration appointment_type = Some d ->
  exists grid busy,
    generate_time_slots s e date slot_interval = Ok grid
    /\ get_busy_time_slots date st = (Ok busy, st')
    /\ slots = map (fun t => slot_of t d) (accepted grid d e busy)
    /\ Forall (fun t => Py.combine (Py.toordinal date) s <= t
                        /\ t + Py.minutes d <= Py.combine (Py.toordinal date) e)
         (accepted grid d e busy)
    /\ forall t, In t grid ->
         is_slot_available t d busy = Ok true ->
         Py.combine (Py.toordinal date) e < t + Py.minutes d ->
         ~ In t (accepted grid d e busy).
Proof.
  intros H Hslots Hw Hd.
  destruct (get_available_slots_Ok_working _ _ _ _ _ _ _ _ H Hw Hd)
    as (grid & busy & name & Hg & Hin & _ & Hb & Hinfo).
  subst info. simpl in Hslots. inversion Hslots; subst slots.
  pose proof (working_window_working_day _ _ _ Hw) as Hday.
  destruct (working_day_window _ Hday) as (h & s' & e' & _ & _ & _ & Hw' & Hs & _ & He).
  rewrite Hw in Hw'. inversion Hw'; subst s' e'.
  destruct (duration_known _ _ Hd) as (_ & _ & _ & Hpos).
  assert (Hbound : forall t, In t (accepted grid d e busy) ->
            Py.combine (Py.toordinal date) s <= t
            /\ t + Py.minutes d <= Py.combine (Py.toordinal date) e).
  { intros t Ht. apply accepted_In in Ht as (Htg & _ & Hfit).
    pose proof (proj1 (List.Forall_forall _ _) Hin t Htg) as Hrange.
    cbv beta in Hrange. split; [lia |].
    apply (fits_same_day (Py.toordinal date) s e d t); assumption || lia. }
  exists grid, busy. repeat split; try assumption.
  - apply List.Forall_forall. exact Hbound.
  - intros t _ _ Hpast Hacc. apply Hbound in Hacc. lia.
Qed.

Lemma is_working_day_false_iff date :
  is_working_day date = false <-> Py.weekday date = 6.
Proof.
  unfold is_working_day.
  destruct (weekday_cases date) as [[Hk H] | [[Hk H] | [Hk H]]];
    cbv zeta in H; rewrite H; simpl; split; intros; (lia || congruence).
Qed.

(** C4. On a day that is not a working day and for an appointment type of
    the catalog, [get_available_slots] returns, without a fetch, a dict that
    has no ['error'] key, an empty ['available_slots'] list and the message
    ['Not a working day'] (the dict's way of saying that the day is not a
    working day: it has no ['day_of_week'] key either). *)
Theorem non_working_day_has_no_slots date appointment_type st :
  is_working_day date = false ->
  is_Some (APPOINTMENT_TYPES !! appointment_type) ->
  exists info,
    get_available_slots date appointment_type st = (Ok info, st)
    /\ si_error info = None
    /\ si_available_slots info = Some []
    /\ si_message info = Some "Not a working day"
    /\ si_day_of_week info = None
    /\ working_window date = None.
Proof.
  intros Hday [i Hi].
  destruct (known_duration _ _ Hi) as [Hd _].
  exists (not_working_day_info date appointment_type (info_duration i)).
  split; [now apply get_available_slots_not_working |].
  repeat split. now apply not_working_day_window.
Qed.

(** C9. The answer of [get_available_slots] depends on the state it runs in
    only through the busy intervals fetched for the date: two calls with the
    same date and appointment type, in states where the schedule source
    gives the same busy intervals, return the same result. *)
Theorem get_available_slots_deterministic date appointment_type st1 st2 :
  fst (get_busy_time_slots date st1) = fst (get_busy_time_slots date st2) ->
  fst (get_available_slots date appointment_type st1)
  = fst (get_available_slots date appointment_type st2).
Proof.
  intros Hb.
  destruct (get_appointment_duration appointment_type) as [d |] eqn:Hd.
  2: { now rewrite !get_available_slots_invalid by assumption. }
  destruct (is_working_day date) eqn:Hday.
  - destruct (working_day_window _ Hday) as (h & s & e & _ & _ & _ & Hw & _).
    destruct (duration_known _ _ Hd) as (i & Hi & _).
    destruct (get_available_slots_working date appointment_type i s e st1 Hi Hw)
      as (grid & Hg & Heq1).
    destruct (get_available_slots_working date appointment_type i s e st2 Hi Hw)
      as (grid' & Hg' & Heq2).
    rewrite Hg in Hg'. inversion Hg'; subst grid'.
    rewrite Heq1, Heq2.
    destruct (get_busy_time_slots date st1) as [[busy1 | x1] st1'];
      destruct (get_busy_time_slots date st2) as [[busy2 | x2] st2'];
      simpl in Hb; inversion Hb; subst; [| reflexivity].
    destruct (filter_slots grid (info_duration i) e busy2 []); reflexivity.
  - now rewrite !(get_available_slots_not_working _ _ _ _ Hd Hday).
Qed.

(** *** The loop over the days of a range *)

Lemma rounds_days lo hi :
  rounds lo hi (Py.days 1) = Z.to_nat ((hi - lo) / Py.days 1 + 1).
Proof. reflexivity. Qed.

Lemma days_1_pos : 0 < Py.days 1.
Proof. reflexivity. Qed.

Lemma days_inclusive_nil start_date end_date :
  end_date < start_date -> days_inclusive start_date end_date = [].
Proof.
  intros H. unfold days_inclusive. rewrite rounds_days.
  replace (Z.to_nat ((end_date - start_date) / Py.days 1 + 1)) with 0%nat;
    [reflexivity |].
  assert ((end_date - start_date) / Py.days 1 < 0); [| lia].
  apply Z.div_lt_upper_bound; [exact days_1_pos | lia].
Qed.

Lemma days_inclusive_cons start_date end_date :
  start_date <= end_date ->
  days_inclusive start_date end_date
  = start_date :: days_inclusive (start_date + Py.days 1) end_date.
Proof.
  intros H. unfold days_inclusive. rewrite !rounds_days.
  assert (Hr : Z.to_nat ((end_date - start_date) / Py.days 1 + 1)
               = S (Z.to_nat ((end_date - (start_date + Py.days 1)) / Py.days 1 + 1))).
  { replace (end_date - start_date)
      with (end_date - (start_date + Py.days 1) + 1 * Py.days 1) by lia.
    rewrite Z.div_add by discriminate.
    assert (-1 <= (end_date - (start_date + Py.days 1)) / Py.days 1); [| lia].
    apply Z.div_le_lower_bound; [exact days_1_pos | lia]. }
  rewrite Hr. cbn [seq map]. f_equal.
  - unfold Py.days. lia.
  - rewrite <- seq_shift, map_map. apply map_ext. intros k.
    unfold Py.days. lia.
Qed.

Lemma bind_assoc {A B C : Type} (m : M A) (f : A -> M B) (g : B -> M C) st :
  bind (bind m f) g st = bind m (fun a => bind (f a) g) st.
Proof. unfold bind. destruct (m st) as [[a | x] st1]; reflexivity. Qed.

Lemma bind_ext {A B : Type} (m : M A) (k1 k2 : A -> M B) st :
  (forall a st1, k1 a st1 = k2 a st1) -> bind m k1 st = bind m k2 st.
Proof.
  intros H. unfold bind. destruct (m st) as [[a | x] st1]; [apply H | reflexivity].
Qed.

Lemma range_loop_spec appointment_type end_date fuel :
  forall current_date results st,
    end_date - current_date < Z.of_nat fuel * Py.days 1 ->
    range_loop fuel current_date end_date appointment_type results st
    = (infos <- for_each (fun day => get_available_slots day appointment_type)
                 (days_inclusive current_date end_date) ;;
       ret (results ++ List.filter has_available_slots infos)) st.
Proof.
  induction fuel as [| fuel IH]; intros current_date results st Hf.
  - simpl. destruct (Z.leb_spec current_date end_date); [simpl in Hf; lia |].
    rewrite days_inclusive_nil by assumption. simpl.
    unfold bind, ret. now rewrite app_nil_r.
  - simpl. destruct (Z.leb_spec current_date end_date) as [Hle | Hgt].
    + rewrite days_inclusive_cons by assumption. cbn [for_each].
      rewrite bind_assoc. apply bind_ext. intros info st1.
      rewrite IH by (unfold Py.days in *; lia).
      rewrite bind_assoc. apply bind_ext. intros infos st2.
      unfold bind, ret. cbn [List.filter].
      destruct (has_available_slots info); [| reflexivity].
      now rewrite <- app_assoc.
    + rewrite days_inclusive_nil by assumption. simpl.
      unfold bind, ret. now rewrite app_nil_r.
Qed.

Lemma days_inclusive_In start_date end_date day :
  In day (days_inclusive start_date end_date) <->
  exists k, 0 <= k /\ day = start_date + Py.days k /\ day <= end_date.
Proof.
  unfold days_inclusive. rewrite in_map_iff. split.
  - intros (k & Hk & Hin). apply in_seq in Hin. exists (Z.of_nat k).
    split; [lia |]. split; [now symmetry |]. subst day.
    rewrite rounds_days in Hin.
    assert (Hq : Z.of_nat k <= (end_date - start_date) / Py.days 1) by lia.
    pose proof (Z.mul_div_le (end_date - start_date) (Py.days 1) days_1_pos) as Hm.
    assert (Py.days 1 * Z.of_nat k
            <= Py.days 1 * ((end_date - start_date) / Py.days 1))
      by (apply Z.mul_le_mono_nonneg_l; [discriminate | exact Hq]).
    unfold Py.days in *. lia.
  - intros (k & Hk & Hday & Hle). exists (Z.to_nat k). split.
    + rewrite Z2Nat.id by lia. now symmetry.
    + apply in_seq. split; [lia |]. rewrite rounds_days.
      assert (k <= (end_date - start_date) / Py.days 1); [| lia].
      apply Z.div_le_lower_bound; [exact days_1_pos |]. unfold Py.days in *. lia.
Qed.

Lemma days_inclusive_nth start_date end_date k day :
  nth_error (days_inclusive start_date end_date) k = Some day ->
  day = start_date + Py.days (Z.of_nat k).
Proof.
  unfold days_inclusive. intros H. rewrite nth_error_map in H.
  destruct (nth_error (seq 0 (rounds start_date end_date (Py.days 1))) k)
    as [j |] eqn:Hj; simpl in H; [| discriminate].
  inversion H. assert (j = k); [| now subst].
  assert (Hlt : (k < length (seq 0 (rounds start_date end_date (Py.days 1))))%nat)
    by (apply nth_error_Some; congruence).
  rewrite length_seq in Hlt.
  apply nth_error_nth with (d := 0%nat) in Hj.
  rewrite seq_nth in Hj by exact Hlt. lia.
Qed.

Lemma rounds_more lo hi step :
  0 < step -> hi - lo < Z.of_nat (rounds lo hi step) * step.
Proof.
  intros Hs. unfold rounds. destruct (Z.ltb_spec 0 step); [| lia].
  pose proof (Z.mul_succ_div_gt (hi - lo) step Hs) as Hgt.
  destruct (Z_le_gt_dec 0 ((hi - lo) / step + 1)) as [Hn | Hn].
  - rewrite Z2Nat.id by lia. lia.
  - replace (Z.of_nat (Z.to_nat ((hi - lo) / step + 1))) with 0 by lia.
    assert (step * Z.succ ((hi - lo) / step) <= step * 0)
      by (apply Z.mul_le_mono_nonneg_l; lia).
    lia.
Qed.

Lemma get_available_slots_range_eq start_date end_date appointment_type st :
  get_available_slots_range start_date end_date appointment_type st
  = (infos <- for_each (fun day => get_available_slots day appointment_type)
               (days_inclusive start_date end_date) ;;
     ret (List.filter has_available_slots infos)) st.
Proof.
  unfold get_available_slots_range.
  rewrite range_loop_spec by (apply rounds_more; exact days_1_pos).
  reflexivity.
Qed.

Lemma days_from_sorted start_date n : forall a,
  StronglySorted Z.lt
    (map (fun k => start_date + Py.days (Z.of_nat k)) (seq a n)).
Proof.
  induction n as [| n IH]; intros a; cbn [seq map]; constructor; [apply IH |].
  apply List.Forall_forall. intros day Hday.
  apply in_map_iff in Hday as (k & Hk & Hin). apply in_seq in Hin.
  subst day. unfold Py.days. pose proof US_PER_DAY_pos. nia.
Qed.

Lemma days_inclusive_sorted start_date end_date :
  StronglySorted Z.lt (days_inclusive start_date end_date).
Proof. apply days_from_sorted. Qed.

Lemma has_available_slots_true day_slots :
  has_available_slots day_slots = true <->
  exists first rest, si_available_slots day_slots = Some (first :: rest).
Proof.
  unfold has_available_slots.
  destruct (si_available_slots day_slots) as [[| first rest] |]; split;
    try discriminate; try (intros (f & r & H); discriminate).
  - intros _. now exists first, rest.
  - reflexivity.
Qed.

Lemma days_inclusive_ordinals start_date end_date :
  Py.time_of start_date <= Py.time_of end_date ->
  map Py.toordinal (days_inclusive start_date end_date)
  = map (fun k => Py.toordinal start_date + Z.of_nat k)
      (seq 0 (Z.to_nat (Py.toordinal end_date - Py.toordinal start_date + 1))).
Proof.
  intros Ht. unfold days_inclusive. rewrite rounds_days, map_map.
  assert (Hq : (end_date - start_date) / Py.days 1
               = Py.toordinal end_date - Py.toordinal start_date).
  { symmetry.
    apply (Z.div_unique_pos _ _ _ (Py.time_of end_date - Py.time_of start_date)).
    - pose proof (time_of_range start_date). pose proof (time_of_range end_date).
      change (Py.days 1) with Py.US_PER_DAY. lia.
    - rewrite (combine_split end_date) at 1. rewrite (combine_split start_date) at 1.
      unfold Py.combine. change (Py.days 1) with Py.US_PER_DAY. lia. }
  rewrite Hq. apply map_ext. intros k. apply toordinal_add_days.
Qed.

Lemma days_inclusive_ordinals_later start_date end_date :
  Py.time_of end_date < Py.time_of start_date ->
  map Py.toordinal (days_inclusive start_date end_date)
  = map (fun k => Py.toordinal start_date + Z.of_nat k)
      (seq 0 (Z.to_nat (Py.toordinal end_date - Py.toordinal start_date))).
Proof.
  intros Ht. unfold days_inclusive. rewrite rounds_days, map_map.
  assert (Hq : (end_date - start_date) / Py.days 1
               = Py.toordinal end_date - Py.toordinal start_date - 1).
  { symmetry.
    apply (Z.div_unique_pos _ _ _
             (Py.US_PER_DAY + Py.time_of end_date - Py.time_of start_date)).
    - pose proof (time_of_range start_date). pose proof (time_of_range end_date).
      change (Py.days 1) with Py.US_PER_DAY. lia.
    - rewrite (combine_split end_date) at 1. rewrite (combine_split start_date) at 1.
      unfold Py.combine. change (Py.days 1) with Py.US_PER_DAY. lia. }
  rewrite Hq.
  replace (Py.toordinal end_date - Py.toordinal start_date - 1 + 1)
    with (Py.toordinal end_date - Py.toordinal start_date) by lia.
  apply map_ext. intros k. apply toordinal_add_days.
Qed.

(** C5. [get_available_slots_range] goes through the days from [start_date]
    to [end_date] inclusive, in ascending order: [start_date] and every
    whole number of days after it up to [end_date], which are the calendar
    days from that of [start_date] to that of [end_date], each once, the
    time of day of [start_date] being no later than that of [end_date] (as
    when both are dates); when it is later, the day of [end_date] is not
    gone through, and the days are those up to the day before. It calls
    [get_available_slots] once for each, and returns the results that have a
    slot: no returned day has an empty ['available_slots'] list. *)
Theorem get_available_slots_range_spec start_date end_date appointment_type st :
  get_available_slots_range start_date end_date appointment_type st
  = (infos <- for_each (fun day => get_available_slots day appointment_type)
               (days_inclusive start_date end_date) ;;
     ret (List.filter has_available_slots infos)) st
  /\ (forall day,
        In day (days_inclusive start_date end_date) <->
        exists k, 0 <= k /\ day = start_date + Py.days k /\ day <= end_date)
  /\ StronglySorted Z.lt (days_inclusive start_date end_date)
  /\ (Py.time_of start_date <= Py.time_of end_date ->
      map Py.toordinal (days_inclusive start_date end_date)
      = map (fun k => Py.toordinal start_date + Z.of_nat k)
          (seq 0 (Z.to_nat (Py.toordinal end_date - Py.toordinal start_date + 1))))
  /\ (Py.time_of end_date < Py.time_of start_date ->
      map Py.toordinal (days_inclusive start_date end_date)
      = map (fun k => Py.toordinal start_date + Z.of_nat k)
          (seq 0 (Z.to_nat (Py.toordinal end_date - Py.toordinal start_date))))
  /\ (forall results st',
        get_available_slots_range start_date end_date appointment_type st
        = (Ok results, st') ->
        Forall (fun day_slots =>
                  exists first rest,
                    si_available_slots day_slots = Some (first :: rest)) results).
Proof.
  split; [apply get_available_slots_range_eq |].
  split; [intros day; apply days_inclusive_In |].
  split; [apply days_inclusive_sorted |].
  split; [apply days_inclusive_ordinals |].
  split; [apply days_inclusive_ordinals_later |].
  intros results st' H. rewrite get_available_slots_range_eq in H.
  apply bind_Ok_inv in H as (infos & st1 & _ & H).
  inversion H; subst. apply List.Forall_forall. intros day_slots Hin.
  apply filter_In in Hin as [_ Hin]. now apply has_available_slots_true.
Qed.

(** *** An appointment type that the catalog does not have *)

Lemma for_each_invalid appointment_type days st :
  get_appointment_duration appointment_type = None ->
  for_each (fun day => get_available_slots day appointment_type) days st
  = (Ok (map (fun _ => invalid_type_info appointment_type) days), st).
Proof.
  intros Hd. induction days as [| day rest IH]; [reflexivity |].
  cbn [for_each map].
  rewrite (bind_Ok _ _ _ _ _ (get_available_slots_invalid day _ st Hd)).
  now rewrite (bind_Ok _ _ _ _ _ IH).
Qed.

Lemma filter_invalid appointment_type (days : list Z) :
  List.filter has_available_slots
    (map (fun _ => invalid_type_info appointment_type) days) = [].
Proof. induction days; [reflexivity | exact IHdays]. Qed.

(** C10. For an appointment type that the catalog does not have, every day's
    result is the error dict, which has no ['available_slots'] key;
    [get_available_slots_range] therefore drops every day, and
    [get_next_available_slot] returns [found = False] with the message of a
    search that found no slot, not the invalid-type error, having sent no
    query to the calendar. *)
Theorem invalid_type_reported_as_no_slots appointment_type start_from st :
  APPOINTMENT_TYPES !! appointment_type = None ->
  (forall day,
     get_available_slots day appointment_type st
     = (Ok (invalid_type_info appointment_type), st))
  /\ si_error (invalid_type_info appointment_type) = Some true
  /\ si_available_slots (invalid_type_info appointment_type) = None
  /\ (forall start_date end_date,
        get_available_slots_range start_date end_date appointment_type st
        = (Ok [], st))
  /\ get_next_available_slot appointment_type start_from st
     = (Ok (mkNextSlot false None None None None
              (Some ("No available slots found in the next 30 days for "
                     +:+ appointment_type))), st).
Proof.
  intros Hnone. pose proof (unknown_duration _ Hnone) as Hd.
  assert (Hrange : forall start_date end_date,
            get_available_slots_range start_date end_date appointment_type st
            = (Ok [], st)).
  { intros start_date end_date. rewrite get_available_slots_range_eq.
    rewrite (bind_Ok _ _ _ _ _ (for_each_invalid _ _ st Hd)).
    unfold ret. now rewrite filter_invalid. }
  split; [intros day; now apply get_available_slots_invalid |].
  split; [reflexivity |]. split; [reflexivity |]. split; [exact Hrange |].
  unfold get_next_available_slot. cbv zeta.
  now rewrite (bind_Ok _ _ _ _ _ (Hrange _ _)).
Qed.

(** *** The search for the next slot *)

Lemma toordinal_lt a b : Py.toordinal a < Py.toordinal b -> a < b.
Proof.
  unfold Py.toordinal. intros H.
  destruct (Z_lt_ge_dec a b) as [Hlt | Hge]; [exact Hlt |].
  pose proof (Z.div_le_mono b a Py.US_PER_DAY US_PER_DAY_pos). lia.
Qed.

(** A day's result renders ascending starts on that day; when it has a slot
    it also names its date and the duration of the appointment type. *)
Lemma day_result_rendered day appointment_type sa info sb :
  get_available_slots day appointment_type sa = (Ok info, sb) ->
  exists starts,
    rendered (default 0 (get_appointment_duration appointment_type)) day info starts
    /\ (has_available_slots info = true ->
        exists d name,
          get_appointment_duration appointment_type = Some d
          /\ si_date info = Some (Py.strftime_Ymd day)
          /\ si_duration info = Some d
          /\ si_appointment_type info = Some name).
Proof.
  intros H.
  destruct (get_appointment_duration appointment_type) as [d |] eqn:Hd.
  2: { rewrite get_available_slots_invalid in H by assumption.
       inversion H; subst. exists []. split; [| discriminate].
       repeat split; constructor. }
  destruct (is_working_day day) eqn:Hday.
  - destruct (working_day_window _ Hday)
      as (h & s & e & _ & _ & _ & Hw & Hs & _ & He).
    destruct (get_available_slots_Ok_working _ _ _ _ _ _ _ _ H Hw Hd)
      as (grid & busy & name & _ & Hin & Hsorted & _ & Hinfo).
    subst info. exists (accepted grid d e busy). split.
    + split; [reflexivity |]. split; [now apply accepted_sorted |].
      apply List.Forall_forall. intros t Ht.
      apply accepted_In in Ht as (Htg & _).
      pose proof (proj1 (List.Forall_forall _ _) Hin t Htg) as Hrange.
      cbv beta in Hrange. apply toordinal_same_day.
      unfold Py.combine, Py.US_PER_DAY in *. lia.
    + intros _. exists d, name. repeat split.
  - rewrite (get_available_slots_not_working _ _ _ _ Hd Hday) in H.
    inversion H; subst. exists []. split; [| discriminate].
    repeat split; constructor.
Qed.

Lemma for_each_rendered appointment_type days : forall st infos st',
  for_each (fun day => get_available_slots day appointment_type) days st
  = (Ok infos, st') ->
  exists starts_by_day,
    Forall3 (fun day info starts =>
               rendered (default 0 (get_appointment_duration appointment_type))
                 day info starts
               /\ (has_available_slots info = true ->
                   exists d name,
                     get_appointment_duration appointment_type = Some d
                     /\ si_date info = Some (Py.strftime_Ymd day)
                     /\ si_duration info = Some d
                     /\ si_appointment_type info = Some name))
      days infos starts_by_day.
Proof.
  induction days as [| day rest IH]; intros st infos st' H.
  - inversion H; subst. exists []. constructor.
  - cbn [for_each] in H.
    apply bind_Ok_inv in H as (info & st1 & Hday & H).
    apply bind_Ok_inv in H as (infos' & st2 & Hrest & H).
    inversion H; subst.
    destruct (day_result_rendered _ _ _ _ _ Hday) as (starts & Hr).
    destruct (IH _ _ _ Hrest) as (starts_by_day & Hall).
    exists (starts :: starts_by_day). now constructor.
Qed.

Lemma Forall3_nth {A B C : Type} (P : A -> B -> C -> Prop) l1 l2 l3 :
  Forall3 P l1 l2 l3 ->
  forall k b, nth_error l2 k = Some b ->
    exists a c, nth_error l1 k = Some a /\ nth_error l3 k = Some c /\ P a b c.
Proof.
  induction 1 as [| a b c l1 l2 l3 Hp _ IH]; intros k b' Hk.
  - destruct k; discriminate.
  - destruct k as [| k]; simpl in Hk.
    + inversion Hk; subst. now exists a, c.
    + now apply IH.
Qed.

Lemma Forall3_nth_r {A B C : Type} (P : A -> B -> C -> Prop) l1 l2 l3 :
  Forall3 P l1 l2 l3 ->
  forall k c, nth_error l3 k = Some c ->
    exists a b, nth_error l1 k = Some a /\ nth_error l2 k = Some b /\ P a b c.
Proof.
  induction 1 as [| a b c l1 l2 l3 Hp _ IH]; intros k c' Hk.
  - destruct k; discriminate.
  - destruct k as [| k]; simpl in Hk.
    + inversion Hk; subst. now exists a, b.
    + now apply IH.
Qed.

(** The head of a filtered list is the first element that passes. *)
Lemma filter_head {A : Type} (f : A -> bool) l : forall x rest,
  List.filter f l = x :: rest ->
  exists k, nth_error l k = Some x /\ f x = true
            /\ forall j y, (j < k)%nat -> nth_error l j = Some y -> f y = false.
Proof.
  induction l as [| a l IH]; intros x rest H; [discriminate |].
  simpl in H. destruct (f a) eqn:Ha.
  - inversion H; subst. exists 0%nat. repeat split; [assumption |]. intros; lia.
  - destruct (IH _ _ H) as (k & Hk & Hx & Hbefore). exists (S k).
    repeat split; [assumption .. |].
    intros [| j] y Hj Hy; simpl in Hy.
    + now inversion Hy; subst.
    + apply (Hbefore j); [lia | assumption].
Qed.

Lemma filter_nil_iff {A : Type} (f : A -> bool) l :
  List.filter f l = [] <-> Forall (fun x => f x = false) l.
Proof.
  induction l as [| a l IH]; simpl; [split; [constructor | reflexivity] |].
  destruct (f a) eqn:Ha; split.
  - discriminate.
  - intros H. inversion H; congruence.
  - intros H. constructor; [assumption | now apply IH].
  - intros H. inversion H. now apply IH.
Qed.

Lemma search_window_31 start_from :
  search_window start_from
  = map (fun k => search_start start_from + Py.days (Z.of_nat k)) (seq 0 31).
Proof.
  unfold search_window, days_inclusive. rewrite rounds_days.
  replace (search_start start_from + Py.days 30 - search_start start_from)
    with (Py.days 30) by lia.
  reflexivity.
Qed.

Lemma has_available_slots_false info :
  has_available_slots info = false <-> slots_of info = [].
Proof.
  unfold has_available_slots, slots_of.
  destruct (si_available_slots info) as [[| first rest] |]; simpl;
    split; congruence.
Qed.

Lemma Forall3_mono {A B C : Type} (P Q : A -> B -> C -> Prop) l1 l2 l3 :
  (forall a b c, P a b c -> Q a b c) ->
  Forall3 P l1 l2 l3 -> Forall3 Q l1 l2 l3.
Proof. intros H. induction 1; constructor; auto. Qed.

(** C6. [get_next_available_slot] searches the 31 days from its start to 30
    days later. When every day of the window gets its answer, the search
    returns. It returns [found = False], with the no-slots message, exactly
    when no day of the window has a slot. Otherwise it returns
    [found = True] with the date of a day of the window and the slot that
    renders the start [t] on that day, where [t] is the earliest of all the
    starts of all the slots of all the days of the window (the order of
    starts is that of the pairs of date and time). *)
Theorem next_available_slot_is_earliest appointment_type start_from st infos st' :
  for_each (fun day => get_available_slots day appointment_type)
    (search_window start_from) st = (Ok infos, st') ->
  search_window start_from
  = map (fun k => search_start start_from + Py.days (Z.of_nat k)) (seq 0 31)
  /\ exists d starts_by_day r,
       Forall3 (rendered d) (search_window start_from) infos starts_by_day
       /\ get_next_available_slot appointment_type start_from st = (Ok r, st')
       /\ (ns_found r = false <-> Forall (fun info => slots_of info = []) infos)
       /\ (ns_found r = false -> r = not_found appointment_type)
       /\ (ns_found r = true ->
           exists k day info t,
             nth_error (search_window start_from) k = Some day
             /\ nth_error infos k = Some info
             /\ get_appointment_duration appointment_type = Some d
             /\ r = mkNextSlot true (Some (Py.strftime_Ymd day))
                      (Some (slot_of t d)) (si_appointment_type info) (Some d) None
             /\ Py.toordinal t = Py.toordinal day
             /\ In t (concat starts_by_day)
             /\ Forall (fun t' => t <= t') (concat starts_by_day)).
Proof.
  intros Hrun. split; [apply search_window_31 |].
  destruct (for_each_rendered _ _ _ _ _ Hrun) as (starts_by_day & HF3).
  set (d := default 0 (get_appointment_duration appointment_type)) in *.
  exists d, starts_by_day.
  assert (Hrange :
            get_available_slots_range (search_start start_from)
              (search_start start_from + Py.days 30) appointment_type st
            = (Ok (List.filter has_available_slots infos), st')).
  { rewrite get_available_slots_range_eq.
    now rewrite (bind_Ok _ _ _ _ _ Hrun). }
  assert (Hrendered : Forall3 (rendered d) (search_window start_from) infos
                        starts_by_day).
  { eapply Forall3_mono; [| exact HF3]. now intros day info starts [H _]. }
  unfold get_next_available_slot. cbv zeta.
  erewrite bind_Ok; [| exact Hrange].
  destruct (List.filter has_available_slots infos) as [| first_day others] eqn:Hf.
  - (* no day has a slot *)
    exists (not_found appointment_type).
    split; [exact Hrendered |]. split; [reflexivity |].
    split; [| split; [reflexivity | discriminate]].
    split; [| reflexivity]. intros _.
    apply filter_nil_iff in Hf.
    eapply Forall_impl; [exact Hf |]. intros info. apply has_available_slots_false.
  - (* the first day that has one *)
    destruct (filter_head _ _ _ _ Hf) as (k & Hk & Hhas & Hbefore).
    destruct (Forall3_nth _ _ _ _ HF3 k first_day Hk)
      as (day & starts & Hday & Hstarts & (Hslots & Hsorted & Hsame) & Hkeys).
    destruct (Hkeys Hhas) as (d' & name & Hd & Hdate & Hdur & Hname).
    assert (d = d') by (unfold d; now rewrite Hd). subst d'.
    apply has_available_slots_true in Hhas as (first & rest & Havail).
    unfold slots_of in Hslots. rewrite Havail in Hslots. simpl in Hslots.
    destruct starts as [| t starts']; [discriminate |].
    simpl in Hslots. inversion Hslots as [[Hfirst Hrest]].
    rewrite bind_lift, Havail. cbn [lookup_or_KeyError].
    rewrite bind_lift, Hdate. cbn [lookup_or_KeyError].
    rewrite bind_lift, Hname. cbn [lookup_or_KeyError].
    rewrite bind_lift, Hdur. cbn [lookup_or_KeyError].
    eexists. split; [exact Hrendered |]. split; [reflexivity |].
    split; [| split; [discriminate |]].
    + split; [discriminate |]. intros Hall. exfalso.
      apply nth_error_In in Hk.
      pose proof (proj1 (List.Forall_forall _ _) Hall _ Hk) as Hnil.
      unfold slots_of in Hnil. rewrite Havail in Hnil. discriminate.
    + intros _. exists k, day, first_day, t.
      split; [exact Hday |]. split; [exact Hk |]. split; [exact Hd |].
      split; [now rewrite Hname, Hfirst |].
      inversion Hsame as [| ? ? Ht _]; subst.
      split; [exact Ht |].
      split.
      { apply in_concat. exists (t :: starts'). split; [| now left].
        eapply nth_error_In; exact Hstarts. }
      apply List.Forall_forall. intros t' Hin.
      apply in_concat in Hin as (l & Hl & Ht').
      apply In_nth_error in Hl as (j & Hj).
      destruct (Forall3_nth_r _ _ _ _ HF3 j l Hj)
        as (day_j & info_j & Hday_j & Hinfo_j & (Hslots_j & Hsorted_j & Hsame_j) & _).
      destruct (Nat.lt_trichotomy j k) as [Hlt | [Heq | Hgt]].
      * apply (Hbefore j info_j Hlt) in Hinfo_j.
        apply has_available_slots_false in Hinfo_j.
        rewrite Hinfo_j in Hslots_j. destruct l; [contradiction | discriminate].
      * subst j. rewrite Hstarts in Hj. inversion Hj; subst l.
        destruct Ht' as [-> | Ht']; [lia |].
        inversion Hsorted as [| ? ? _ Hlt]; subst.
        pose proof (proj1 (List.Forall_forall _ _) Hlt _ Ht'). lia.
      * apply Z.lt_le_incl, toordinal_lt.
        pose proof (proj1 (List.Forall_forall _ _) Hsame_j _ Ht') as Ht'day.
        cbv beta in Ht'day. rewrite Ht, Ht'day.
        apply days_inclusive_nth in Hday, Hday_j. subst day day_j.
        rewrite !toordinal_add_days. lia.
Qed.

(** *** A fetch that fails *)

Lemma accepted_no_busy grid d e :
  accepted grid d e [] = List.filter (fits d e) grid.
Proof. unfold accepted. apply filter_ext. intros t. reflexivity. Qed.

(** C3, as the code has it. When the calendar answers a fetch with its error
    dict, [get_existing_appointments] prints the error message and returns
    an empty list, [get_busy_time_slots] returns an empty list of busy
    intervals, and [get_available_slots] on a working day returns, with no
    error, every candidate of the grid that ends within working hours. *)
Theorem fetch_error_is_printed_and_day_left_free date st b message :
  resp_error (answer date st) = Some b ->
  resp_message (answer date st) = Some message ->
  get_existing_appointments (Some (Py.start_of_day date))
    (Some (Py.end_of_day date)) st = (Ok [], after_failed_fetch date message st)
  /\ get_busy_time_slots date st = (Ok [], after_failed_fetch date message st)
  /\ forall appointment_type info s e,
       APPOINTMENT_TYPES !! appointment_type = Some info ->
       working_window date = Some (s, e) ->
       exists grid,
         generate_time_slots s e date slot_interval = Ok grid
         /\ get_available_slots date appointment_type st
            = (Ok (working_day_info date (info_name info) (info_duration info)
                     (map (fun t => slot_of t (info_duration info))
                        (List.filter (fits (info_duration info) e) grid))),
               after_failed_fetch date message st).
Proof.
  intros He Hm.
  assert (Hb : get_busy_time_slots date st
               = (Ok [], after_failed_fetch date message st)).
  { rewrite get_busy_time_slots_eq. cbv zeta. now rewrite He, Hm. }
  split; [| split; [exact Hb |]].
  - unfold get_existing_appointments, get_scheduled_events, bind.
    change (remote (length (requests st)) (Py.isoformat (Py.start_of_day date) +:+ "Z")
              (Py.isoformat (Py.end_of_day date) +:+ "Z")) with (answer date st).
    now rewrite He, Hm.
  - intros appointment_type info s e Hi Hw.
    destruct (get_available_slots_working date appointment_type info s e st Hi Hw)
      as (grid & Hg & Heq).
    exists grid. split; [exact Hg |].
    rewrite Heq, Hb.
    rewrite filter_slots_total.
    + simpl. now rewrite accepted_no_busy.
    + apply List.Forall_forall. intros t _. now exists true.
Qed.

(** *** Validation *)

Lemma first_missing_None data fields :
  first_missing fields data = None ->
  forall field, In field fields -> exists value, data !! field = Some value.
Proof.
  induction fields as [| f rest IH]; simpl; intros H field Hin; [contradiction |].
  destruct (data !! f) as [value |] eqn:Hv; [| discriminate].
  destruct (String.eqb value ""); [discriminate |].
  destruct Hin as [<- | Hin]; [now exists value | now apply IH].
Qed.

Lemma filled_spec data field :
  filled data field = true <-> present_and_non_empty data field.
Proof.
  unfold filled, present_and_non_empty. rewrite bool_decide_eq_true. split.
  - intros [[value Hv] Hne]. exists value. split; [exact Hv | congruence].
  - intros (value & Hv & Hne). rewrite Hv. split; [now exists value | congruence].
Qed.

Lemma filled_false data field :
  filled data field = false <-> ~ present_and_non_empty data field.
Proof.
  rewrite <- filled_spec. destruct (filled data field); split; congruence.
Qed.

(** The loop of the code over its list of fields finds the first field that
    is not there or is empty. *)
Lemma first_missing_find data fields :
  first_missing fields data = List.find (fun field => negb (filled data field)) fields.
Proof.
  induction fields as [| f rest IH]; [reflexivity |].
  cbn [first_missing List.find].
  destruct (data !! f) as [value |] eqn:Hv.
  - destruct (String.eqb_spec value "") as [-> | Hne].
    + assert (Hf : filled data f = false).
      { apply filled_false. intros (value & Hv' & Hne). congruence. }
      now rewrite Hf.
    + assert (Hf : filled data f = true)
        by (apply filled_spec; now exists value).
      rewrite Hf. exact IH.
  - assert (Hf : filled data f = false).
    { apply filled_false. intros (value & Hv' & _). congruence. }
    now rewrite Hf.
Qed.

Lemma check_required_first_missing data :
  check_required data
  = match first_missing required_fields data with
    | Some field => Some ("Missing required field: " +:+ field)
    | None => None
    end.
Proof. unfold check_required. now rewrite first_missing_find. Qed.

Lemma find_first {A : Type} (p : A -> bool) l x :
  List.find p l = Some x ->
  exists before after,
    l = before ++ x :: after /\ p x = true /\ Forall (fun y => p y = false) before.
Proof.
  induction l as [| a rest IH]; [discriminate |]. cbn [List.find].
  destruct (p a) eqn:Ha.
  - intros H. injection H as <-. exists [], rest. repeat split; [exact Ha | constructor].
  - intros H. destruct (IH H) as (before & after & -> & Hx & Hb).
    exists (a :: before), after. repeat split; [exact Hx | now constructor].
Qed.

Lemma contains_char_spec c text :
  Py.contains_char c text = true
  <-> exists before after, text = before +:+ String c after.
Proof.
  induction text as [| c' rest IH]; cbn [Py.contains_char].
  - split; [discriminate |]. intros (before & after & H).
    destruct before; discriminate.
  - rewrite orb_true_iff, IH. split.
    + intros [Heq | (before & after & ->)].
      * apply Ascii.eqb_eq in Heq. subst c'. now exists "", rest.
      * now exists (String c' before), after.
    + intros (before & after & H). destruct before as [| b before].
      * injection H as -> _. left. apply Ascii.eqb_refl.
      * injection H as _ ->. right. now exists before, after.
Qed.

(** C7. [validate_appointment_data] returns the error of the first check, in
    the order required fields, appointment type, date, time, email, that the
    request violates, and success when it violates none. A request that
    fails validation makes [create_appointment] return that error in the
    state it started in: no query went to the calendar, no slot was looked
    up. So it is for a request whose only fault is an email without ['@']:
    it fails with the email error before any availability check. The first
    check passes exactly when each of the five required fields is there and
    is not the empty text, and its error names the first of them, in their
    order, that is not; the last check passes exactly when the email has an
    ['@'] in it. *)
Theorem validation_checks_in_order data st :
  validate_appointment_data data
  = Ok (match first_violation checks_in_order data with
        | Some error => (false, Some error)
        | None => (true, None)
        end)
  /\ (forall error,
        first_violation checks_in_order data = Some error ->
        create_appointment data st = (Ok (booking_failure (Some error)), st))
  /\ (forall email,
        check_required data = None -> check_type data = None ->
        check_date data = None -> check_time data = None ->
        data !! "patient_email" = Some email ->
        Py.contains_char "@"%char email = false ->
        create_appointment data st
        = (Ok (booking_failure (Some "Invalid email format")), st))
  /\ (check_required data = None
      <-> forall field,
            In field ["appointment_type"; "date"; "time"; "patient_name";
                      "patient_email"] ->
            present_and_non_empty data field)
  /\ (forall error,
        check_required data = Some error ->
        exists before field after,
          ["appointment_type"; "date"; "time"; "patient_name"; "patient_email"]
          = before ++ field :: after
          /\ error = "Missing required field: " +:+ field
          /\ Forall (present_and_non_empty data) before
          /\ ~ present_and_non_empty data field)
  /\ (forall email,
        data !! "patient_email" = Some email ->
        check_email data = None
        <-> exists before after, email = before +:+ String "@" after).
Proof.
  assert (Hv : validate_appointment_data data
               = Ok (match first_violation checks_in_order data with
                     | Some error => (false, Some error)
                     | None => (true, None)
                     end)).
  { unfold validate_appointment_data, checks_in_order, first_violation.
    rewrite check_required_first_missing.
    destruct (first_missing required_fields data) as [field |] eqn:Hmiss;
      [reflexivity |].
    pose proof (first_missing_None _ _ Hmiss) as Hfields.
    destruct (Hfields "appointment_type") as [t Ht]; [simpl; tauto |].
    destruct (Hfields "date") as [dt Hdt]; [simpl; tauto |].
    destruct (Hfields "time") as [tm Htm]; [simpl; tauto |].
    destruct (Hfields "patient_email") as [em Hem]; [simpl; tauto |].
    unfold check_type, check_date, check_time, check_email.
    rewrite Ht, Hdt, Htm, Hem. simpl.
    destruct (APPOINTMENT_TYPES !! t); [| reflexivity].
    destruct (Py.strptime_Ymd dt); [| reflexivity].
    destruct (Py.strptime_HM tm); [| reflexivity].
    destruct (Py.contains_char "@"%char em); reflexivity. }
  assert (Hfail : forall error,
            first_violation checks_in_order data = Some error ->
            create_appointment data st = (Ok (booking_failure (Some error)), st)).
  { intros error Herr. unfold create_appointment.
    rewrite bind_lift, Hv, Herr. reflexivity. }
  split; [exact Hv |]. split; [exact Hfail |].
  split.
  { intros email H1 H2 H3 H4 Hem Hat. apply Hfail.
    unfold checks_in_order, first_violation.
    rewrite H1, H2, H3, H4. unfold check_email. now rewrite Hem, Hat. }
  assert (Hemail : forall email,
            data !! "patient_email" = Some email ->
            check_email data = None
            <-> exists before after, email = before +:+ String "@" after).
  { intros email Hem. unfold check_email. rewrite Hem, <- contains_char_spec.
    destruct (Py.contains_char "@" email); split; congruence. }
  refine ((fun both => conj (proj1 both) (conj (proj2 both) Hemail)) _).
  unfold check_required.
  set (fields := ["appointment_type"; "date"; "time"; "patient_name";
                  "patient_email"]).
  destruct (List.find (fun field => negb (filled data field)) fields)
    as [field |] eqn:Hfind.
  - split.
    + split; [discriminate |]. intros Hall.
      apply find_some in Hfind as [Hin Hnot].
      apply Hall, filled_spec in Hin. rewrite Hin in Hnot. discriminate.
    + intros error Herr. injection Herr as <-.
      apply find_first in Hfind as (before & after & Hsplit & Hnot & Hbefore).
      exists before, field, after. split; [exact Hsplit |]. split; [reflexivity |].
      split.
      * eapply Forall_impl; [exact Hbefore |]. intros f Hf. cbv beta in Hf.
        apply filled_spec. now destruct (filled data f).
      * apply filled_false. now destruct (filled data field).
  - split; [| discriminate]. split; [| reflexivity].
    intros _ field Hin. apply filled_spec.
    pose proof (find_none _ _ Hfind field Hin) as Hf. cbv beta in Hf.
    now destruct (filled data field).
Qed.

(** *** Booking *)

Lemma keeps_uuids_ret {A : Type} (a : A) : keeps_uuids (ret a).
Proof. intros st o st' H. now inversion H. Qed.

Lemma keeps_uuids_lift {A : Type} (o : outcome A) : keeps_uuids (lift o).
Proof. intros st o' st' H. now inversion H. Qed.

Lemma keeps_uuids_bind {A B : Type} (m : M A) (k : A -> M B) :
  keeps_uuids m -> (forall a, keeps_uuids (k a)) -> keeps_uuids (bind m k).
Proof.
  intros Hm Hk st o st' H. unfold bind in H.
  destruct (m st) as [[a | x] st1] eqn:E.
  - rewrite (Hk a _ _ _ H). exact (Hm _ _ _ E).
  - inversion H; subst. exact (Hm _ _ _ E).
Qed.

Lemma keeps_uuids_get_busy_time_slots date : keeps_uuids (get_busy_time_slots date).
Proof. intros st o st' H. now apply get_busy_time_slots_state in H. Qed.

Lemma keeps_uuids_get_available_slots date appointment_type :
  keeps_uuids (get_available_slots date appointment_type).
Proof.
  unfold get_available_slots.
  destruct (get_appointment_duration appointment_type) as [d |];
    [| apply keeps_uuids_ret].
  destruct (d =? 0); [apply keeps_uuids_ret |].
  destruct (negb (is_working_day date)); [apply keeps_uuids_ret |].
  cbv zeta.
  repeat (apply keeps_uuids_bind;
          [first [apply keeps_uuids_lift | apply keeps_uuids_get_busy_time_slots]
          | intros ?]).
  apply keeps_uuids_ret.
Qed.

Lemma keeps_uuids_check_slot_availability appointment_type date_str time_str :
  keeps_uuids (check_slot_availability appointment_type date_str time_str).
Proof.
  unfold check_slot_availability.
  apply keeps_uuids_bind; [apply keeps_uuids_lift | intros date].
  apply keeps_uuids_bind; [apply keeps_uuids_lift | intros time].
  apply keeps_uuids_bind; [apply keeps_uuids_get_available_slots | intros info].
  destruct (si_error info).
  - apply keeps_uuids_bind; [apply keeps_uuids_lift | intros ?; apply keeps_uuids_ret].
  - apply keeps_uuids_bind; [apply keeps_uuids_lift | intros slots].
    destruct slots; [apply keeps_uuids_ret |].
    destruct (slot_listed _ _); apply keeps_uuids_ret.
Qed.

Lemma slot_listed_In time_str slots :
  slot_listed time_str slots = true <->
  exists sl, In sl slots /\ slot_start_time sl = time_str.
Proof.
  induction slots as [| sl rest IH]; simpl.
  - split; [discriminate | now intros (sl & [] & _)].
  - destruct (String.eqb_spec (slot_start_time sl) time_str) as [He | Hne].
    + split; [| reflexivity]. intros _. exists sl. now split; [left |].
    + rewrite IH. split; intros (sl' & Hin & Hs).
      * exists sl'. split; [now right | assumption].
      * destruct Hin as [<- | Hin]; [contradiction |]. now exists sl'.
Qed.

(** A result that lists slots is no error result. *)
Lemma listed_slots_no_error date appointment_type st info st1 sl slots :
  get_available_slots date appointment_type st = (Ok info, st1) ->
  si_available_slots info = Some (sl :: slots) ->
  si_error info = None.
Proof.
  intros H Hs.
  destruct (get_appointment_duration appointment_type) as [d |] eqn:Hd.
  2: { rewrite get_available_slots_invalid in H by assumption.
       inversion H; subst. discriminate. }
  destruct (is_working_day date) eqn:Hday.
  - destruct (working_day_window _ Hday) as (h & s & e & _ & _ & _ & Hw & _).
    destruct (get_available_slots_Ok_working _ _ _ _ _ _ _ _ H Hw Hd)
      as (grid & busy & name & _ & _ & _ & _ & Hinfo).
    now subst info.
  - rewrite (get_available_slots_not_working _ _ _ _ Hd Hday) in H.
    now inversion H; subst.
Qed.

Lemma check_slot_availability_listed
    appointment_type date_str time_str date time st info st1 slots :
  Py.strptime_Ymd date_str = Some date ->
  Py.strptime_HM time_str = Some time ->
  get_available_slots date appointment_type st = (Ok info, st1) ->
  si_available_slots info = Some slots ->
  slot_listed time_str slots = true ->
  check_slot_availability appointment_type date_str time_str st
  = (Ok (true, "Slot is available"), st1).
Proof.
  intros Hdate Htime Hinfo Hslots Hlisted. unfold check_slot_availability.
  rewrite bind_lift, Hdate. cbn [strptime_or_ValueError].
  rewrite bind_lift, Htime. cbn [strptime_or_ValueError].
  rewrite (bind_Ok _ _ _ _ _ Hinfo).
  destruct slots as [| sl rest]; [discriminate |].
  rewrite (listed_slots_no_error _ _ _ _ _ _ _ Hinfo Hslots).
  rewrite bind_lift, Hslots. cbn [lookup_or_KeyError].
  now rewrite Hlisted.
Qed.

(** A booking that succeeds carries the uuid drawn by its call, the next
    one of the source, and leaves the source one draw further. *)
Lemma create_appointment_success data st r st' :
  create_appointment data st = (Ok r, st') ->
  br_success r = true ->
  br_booking_id r = Some (uuid4 (uuids_drawn st))
  /\ uuids_drawn st' = S (uuids_drawn st).
Proof.
  unfold create_appointment. intros H Hs.
  apply bind_Ok_inv in H as ([is_valid error] & st0 & Hv & H).
  apply lift_Ok_inv in Hv as [_ ->].
  destruct is_valid; cbn [negb] in H;
    [| inversion H; subst; discriminate].
  apply bind_Ok_inv in H as (t & st0 & Ht & H). apply lift_Ok_inv in Ht as [_ ->].
  apply bind_Ok_inv in H as (dt & st0 & Hdt & H). apply lift_Ok_inv in Hdt as [_ ->].
  apply bind_Ok_inv in H as (tm & st0 & Htm & H). apply lift_Ok_inv in Htm as [_ ->].
  apply bind_Ok_inv in H as ([is_available message] & st1 & Hc & H).
  apply keeps_uuids_check_slot_availability in Hc.
  destruct is_available; cbn [negb] in H;
    [| inversion H; subst; discriminate].
  apply bind_Ok_inv in H as (date & st0 & Hd & H). apply lift_Ok_inv in Hd as [_ ->].
  apply bind_Ok_inv in H as (time & st0 & Htime & H).
  apply lift_Ok_inv in Htime as [_ ->].
  unfold _simulate_booking in H.
  apply bind_Ok_inv in H as (info & st0 & Hi & H). apply lift_Ok_inv in Hi as [_ ->].
  apply bind_Ok_inv in H as (id & st2 & Hid & H).
  unfold draw_uuid in Hid. inversion Hid; subst id st2. clear Hid.
  apply bind_Ok_inv in H as (? & st0 & Hx & H). apply lift_Ok_inv in Hx as [_ ->].
  apply bind_Ok_inv in H as (? & st0 & Hx & H). apply lift_Ok_inv in Hx as [_ ->].
  apply bind_Ok_inv in H as (? & st0 & Hx & H). apply lift_Ok_inv in Hx as [_ ->].
  apply bind_Ok_inv in H as (? & st0 & Hx & H). apply lift_Ok_inv in Hx as [_ ->].
  inversion H; subst. simpl. rewrite Hc. now split.
Qed.

Lemma validate_ok_inv data :
  validate_appointment_data data = Ok (true, None) ->
  exists t dt tm nm em type_info date time,
    data !! "appointment_type" = Some t
    /\ data !! "date" = Some dt
    /\ data !! "time" = Some tm
    /\ data !! "patient_name" = Some nm
    /\ data !! "patient_email" = Some em
    /\ APPOINTMENT_TYPES !! t = Some type_info
    /\ Py.strptime_Ymd dt = Some date
    /\ Py.strptime_HM tm = Some time.
Proof.
  unfold validate_appointment_data. intros H.
  destruct (first_missing required_fields data) as [field |] eqn:Hmiss;
    [discriminate |].
  pose proof (first_missing_None _ _ Hmiss) as Hfields.
  destruct (Hfields "appointment_type") as [t Ht]; [simpl; tauto |].
  destruct (Hfields "date") as [dt Hdt]; [simpl; tauto |].
  destruct (Hfields "time") as [tm Htm]; [simpl; tauto |].
  destruct (Hfields "patient_name") as [nm Hnm]; [simpl; tauto |].
  destruct (Hfields "patient_email") as [em Hem]; [simpl; tauto |].
  rewrite Ht, Hdt, Htm, Hem in H. simpl in H.
  destruct (APPOINTMENT_TYPES !! t) as [type_info |] eqn:Hti; [| discriminate].
  destruct (Py.strptime_Ymd dt) as [date |] eqn:Hdate; [| discriminate].
  destruct (Py.strptime_HM tm) as [time |] eqn:Htime; [| discriminate].
  exists t, dt, tm, nm, em, type_info, date, time. repeat split; assumption.
Qed.

(** C8. For a request that passes validation and whose start time is that of
    one of the slots that [get_available_slots] lists for its date and
    appointment type, [create_appointment] succeeds: the booking has status
    ['scheduled'], the uuid that its call draws from the source (the next
    one, so that no later booking carries it as long as the source does not
    repeat itself), and as end time the requested start time plus the
    duration that the catalog gives the appointment type. *)
Theorem create_appointment_books_listed_slot
    data st appointment_type date_str time_str date info st1 slots sl :
  validate_appointment_data data = Ok (true, None) ->
  data !! "appointment_type" = Some appointment_type ->
  data !! "date" = Some date_str ->
  data !! "time" = Some time_str ->
  Py.strptime_Ymd date_str = Some date ->
  get_available_slots date appointment_type st = (Ok info, st1) ->
  si_available_slots info = Some slots ->
  In sl slots ->
  slot_start_time sl = time_str ->
  exists r details type_info time,
    create_appointment data st
    = (Ok r, mkState (stdout st1) (requests st1) (S (uuids_drawn st)))
    /\ br_success r = true
    /\ br_error r = None
    /\ br_booking_id r = Some (uuid4 (uuids_drawn st))
    /\ br_appointment_details r = Some details
    /\ det_status details = "scheduled"
    /\ det_date details = date_str
    /\ det_start_time details = time_str
    /\ APPOINTMENT_TYPES !! appointment_type = Some type_info
    /\ det_duration details = info_duration type_info
    /\ Py.strptime_HM time_str = Some time
    /\ det_end_time details
       = Py.strftime_HM (Py.combine (Py.toordinal date) time
                         + Py.minutes (info_duration type_info))
    /\ (forall data2 st2 r2 st3,
          (S (uuids_drawn st) <= uuids_drawn st2)%nat ->
          create_appointment data2 st2 = (Ok r2, st3) ->
          br_success r2 = true ->
          (forall m n, uuid4 m = uuid4 n -> m = n) ->
          br_booking_id r2 <> br_booking_id r).
Proof.
  intros Hvalid Ht Hdt Htm Hdate Hinfo Hslots Hin Hstart.
  destruct (validate_ok_inv _ Hvalid)
    as (t' & dt' & tm' & nm & em & type_info & date' & time
        & Ht' & Hdt' & Htm' & Hnm & Hem & Hti & Hdate' & Htime).
  rewrite Ht in Ht'. rewrite Hdt in Hdt'. rewrite Htm in Htm'.
  inversion Ht'; inversion Hdt'; inversion Htm'; subst t' dt' tm'.
  rewrite Hdate in Hdate'. inversion Hdate'; subst date'.
  assert (Hlisted : slot_listed time_str slots = true)
    by (apply slot_listed_In; now exists sl).
  pose proof (check_slot_availability_listed _ _ _ _ _ _ _ _ _
                Hdate Htime Hinfo Hslots Hlisted) as Hcheck.
  pose proof (keeps_uuids_get_available_slots _ _ _ _ _ Hinfo) as Hkeep.
  assert (Hrun : create_appointment data st
                 = (Ok (mkBooking true (Some (uuid4 (uuids_drawn st)))
                          (Some (mkDetails (info_name type_info)
                                   (info_duration type_info) date_str time_str
                                   (Py.strftime_HM
                                      (Py.combine (Py.toordinal date) time
                                       + Py.minutes (info_duration type_info)))
                                   (mkPatient nm em
                                      (default "N/A" (data !! "patient_phone")))
                                   (default "" (data !! "notes")) "scheduled"))
                          (Some "Appointment booked successfully")
                          (Some ["Confirmation email will be sent to the patient";
                                 "Calendar invite will be sent";
                                 "Please arrive 10 minutes before appointment time"])
                          None),
                    mkState (stdout st1) (requests st1) (S (uuids_drawn st)))).
  { unfold create_appointment.
    rewrite bind_lift, Hvalid. cbn [negb].
    rewrite bind_lift, Ht. cbn [lookup_or_KeyError].
    rewrite bind_lift, Hdt. cbn [lookup_or_KeyError].
    rewrite bind_lift, Htm. cbn [lookup_or_KeyError].
    rewrite (bind_Ok _ _ _ _ _ Hcheck). cbn [negb].
    rewrite bind_lift, Hdate. cbn [strptime_or_ValueError].
    rewrite bind_lift, Htime. cbn [strptime_or_ValueError].
    unfold _simulate_booking, get_appointment_info.
    rewrite bind_lift, Hti.
    unfold bind at 1. unfold draw_uuid at 1.
    rewrite bind_lift, Hdt. cbn [lookup_or_KeyError].
    rewrite bind_lift, Htm. cbn [lookup_or_KeyError].
    rewrite bind_lift, Hnm. cbn [lookup_or_KeyError].
    rewrite bind_lift, Hem. cbn [lookup_or_KeyError].
    unfold ret. now rewrite Hkeep. }
  eexists _, _, type_info, time.
  split; [exact Hrun |]. repeat (split; [reflexivity || assumption |]).
  intros data2 st2 r2 st3 Hlater Hrun2 Hok2 Hinj.
  destruct (create_appointment_success _ _ _ _ Hrun2 Hok2) as [Hid2 _].
  rewrite Hid2. simpl. intros Heq. inversion Heq as [Huuid].
  apply Hinj in Huuid. lia.
Qed.

(** ** Further properties *)

(** *** The grid of candidates *)


Lemma generate_loop_stuck end_datetime current :
  current < end_datetime ->
  forall n fuel slots,
    generate_loop (n + fuel) current end_datetime 0 slots
    = generate_loop fuel current end_datetime 0 (slots ++ repeat current n).
Proof.
  intros Hlt. induction n as [| n IH]; intros fuel slots.
  - cbn [repeat Nat.add]. now rewrite app_nil_r.
  - cbn [Nat.add generate_loop repeat].
    destruct (Z.ltb_spec current end_datetime); [| lia].
    rewrite Z.add_0_r, IH, <- app_assoc. reflexivity.
Qed.

(** X2. With an interval of [0] and a start before the end, the loop of
    [generate_time_slots] does not come to its exit: each round appends the
    start once more and leaves the loop where it was, whatever the number
    of rounds. *)
Theorem generate_time_slots_never_ends start_time end_time date :
  start_time < end_time ->
  (forall n fuel slots,
     generate_loop (n + fuel) (Py.combine (Py.toordinal date) start_time)
       (Py.combine (Py.toordinal date) end_time) (Py.minutes 0) slots
     = generate_loop fuel (Py.combine (Py.toordinal date) start_time)
         (Py.combine (Py.toordinal date) end_time) (Py.minutes 0)
         (slots ++ repeat (Py.combine (Py.toordinal date) start_time) n))
  /\ (forall fuel slots,
        generate_loop fuel (Py.combine (Py.toordinal date) start_time)
          (Py.combine (Py.toordinal date) end_time) (Py.minutes 0) slots
        = Raise Exhausted)
  /\ generate_time_slots start_time end_time date 0 = Raise Exhausted.
Proof.
  intros Hlt.
  assert (Hc : Py.combine (Py.toordinal date) start_time
               < Py.combine (Py.toordinal date) end_time)
    by (unfold Py.combine; lia).
  change (Py.minutes 0) with 0.
  assert (Hstuck : forall fuel slots,
            generate_loop fuel (Py.combine (Py.toordinal date) start_time)
              (Py.combine (Py.toordinal date) end_time) 0 slots
            = Raise Exhausted).
  { intros fuel slots.
    replace fuel with (fuel + 0)%nat by lia.
    rewrite (generate_loop_stuck _ _ Hc). cbn [generate_loop].
    destruct (Z.ltb_spec (Py.combine (Py.toordinal date) start_time)
                (Py.combine (Py.toordinal date) end_time)); [reflexivity | lia]. }
  split; [exact (generate_loop_stuck _ _ Hc) |]. split; [exact Hstuck |].
  unfold generate_time_slots. change (Py.minutes 0) with 0. apply Hstuck.
Qed.

(** *** The overlap test *)

(** X3. [is_slot_available] returns [True] exactly when every busy interval
    parses and the candidate ends by its start or starts at its end or
    later: the intervals are half-open, a candidate may touch a busy
    interval at either end. One interval that does not parse, anywhere in
    the list, and the answer is not [True]. *)
Theorem is_slot_available_true_iff t d busy :
  (is_slot_available t d busy = Ok true <-> Forall (clear_of t d) busy)
  /\ (forall b,
        In b busy ->
        parse_busy (busy_start b) = Raise AttributeError
        \/ parse_busy (busy_start b) = Raise ValueError
        \/ parse_busy (busy_end b) = Raise AttributeError
        \/ parse_busy (busy_end b) = Raise ValueError ->
        is_slot_available t d busy <> Ok true).
Proof.
  split; [split; [apply is_slot_available_true_clear | apply is_slot_available_clear] |].
  intros b Hin Hbad Htrue. apply is_slot_available_true_clear in Htrue.
  rewrite List.Forall_forall in Htrue.
  destruct (Htrue b Hin) as (bs & be & Hs & He & _).
  rewrite Hs, He in Hbad. destruct Hbad as [H | [H | [H | H]]]; discriminate.
Qed.

(** X4. [is_slot_available] is decided by the first busy interval that
    meets the candidate or does not parse, and reads nothing after it: past
    intervals that are clear of the candidate, an interval that overlaps it
    gives [False], one without a start raises [AttributeError] and one whose
    start does not parse raises [ValueError], whatever follows. *)
Theorem is_slot_available_first_decides t d before b after :
  Forall (clear_of t d) before ->
  (forall bs be,
     parse_busy (busy_start b) = Ok bs -> parse_busy (busy_end b) = Ok be ->
     overlaps t d bs be ->
     is_slot_available t d (before ++ b :: after) = Ok false)
  /\ (busy_start b = None ->
      is_slot_available t d (before ++ b :: after) = Raise AttributeError)
  /\ (forall text,
        busy_start b = Some text -> fromisoformat (Py.replace_Z text) = None ->
        is_slot_available t d (before ++ b :: after) = Raise ValueError).
Proof.
  induction 1 as [| b0 rest (bs0 & be0 & Hs0 & He0 & Hclear) _ IH].
  - cbn [app]. repeat split.
    + intros bs be Hs He [H1 H2]. simpl. rewrite Hs, He. simpl.
      rewrite !naive_strip.
      destruct (Z.ltb_spec t (naive be)); [| lia].
      destruct (Z.ltb_spec (naive bs) (t + Py.minutes d)); [reflexivity | lia].
    + intros Hnone. simpl. unfold parse_busy at 1. now rewrite Hnone.
    + intros text Hsome Hfail. simpl. unfold parse_busy at 1.
      now rewrite Hsome, Hfail.
  - assert (Hstep : forall o,
              is_slot_available t d (rest ++ b :: after) = o ->
              is_slot_available t d ((b0 :: rest) ++ b :: after) = o).
    { intros o Ho. cbn [app]. simpl. rewrite Hs0, He0. simpl.
      rewrite !naive_strip.
      destruct ((t <? naive be0) && (naive bs0 <? t + Py.minutes d)) eqn:E;
        [| exact Ho].
      apply andb_true_iff in E as [E1 E2].
      apply Z.ltb_lt in E1. apply Z.ltb_lt in E2. lia. }
    destruct IH as (IH1 & IH2 & IH3). repeat split.
    + intros bs be Hs He Ho. apply Hstep. now apply (IH1 bs be).
    + intros Hnone. apply Hstep. now apply IH2.
    + intros text Hsome Hfail. apply Hstep. now apply (IH3 text).
Qed.
(** X5. A longer list of busy intervals never adds a slot: when every
    interval of [busy1] is among those of [busy2], every slot that the
    filter keeps against [busy2] it keeps against [busy1]. *)
Theorem more_busy_fewer_slots all d e busy1 busy2 out1 out2 :
  (forall b, In b busy1 -> In b busy2) ->
  filter_slots all d e busy1 [] = Ok out1 ->
  filter_slots all d e busy2 [] = Ok out2 ->
  forall s, In s out2 -> In s out1.
Proof.
  intros Hsub H1 H2 s Hin.
  apply filter_slots_spec in H1. apply filter_slots_spec in H2.
  cbn [app] in H1, H2. subst out1 out2.
  apply in_map_iff in Hin as (t & Hs & Ht). apply in_map_iff. exists t.
  split; [exact Hs |].
  apply accepted_In in Ht as (Hall & Hfree & Hfit). apply accepted_In.
  split; [exact Hall |]. split; [| exact Hfit].
  apply is_slot_available_clear. apply is_slot_available_true_clear in Hfree.
  rewrite List.Forall_forall in *. intros b Hb. apply Hfree, Hsub, Hb.
Qed.

(** *** A day with nothing booked *)

Lemma filter_progression step c bound :
  0 < step ->
  forall n first,
    List.filter (fun t => t + c <=? bound) (progression first step n)
    = progression first step
        (Nat.min n (Z.to_nat ((bound - c - first) / step + 1))).
Proof.
  intros Hs. induction n as [| n IH]; intros first; [reflexivity |].
  rewrite progression_cons. cbn [List.filter].
  destruct (Z.leb_spec (first + c) bound) as [Hle | Hgt].
  - replace (Z.to_nat ((bound - c - first) / step + 1))
      with (S (Z.to_nat ((bound - c - (first + step)) / step + 1))).
    + cbn [Nat.min]. rewrite progression_cons. f_equal. apply IH.
    + replace (bound - c - first) with (bound - c - (first + step) + 1 * step) by lia.
      rewrite Z.div_add by lia.
      assert (-1 <= (bound - c - (first + step)) / step)
        by (apply Z.div_le_lower_bound; lia).
      lia.
  - assert (H0 : forall x, x < 0 -> Z.to_nat (x / step + 1) = 0%nat).
    { intros x Hx. assert (x / step < 0) by (apply Z.div_lt_upper_bound; lia). lia. }
    rewrite IH, !H0 by lia. rewrite !Nat.min_0_r. reflexivity.
Qed.

Lemma fitting_steps lo hi step c :
  0 < step -> 0 < c ->
  (Z.to_nat ((hi - c - lo) / step + 1) <= steps_between lo hi step)%nat.
Proof.
  intros Hs Hc. unfold steps_between.
  assert ((hi - c - lo) / step + 1 <= (hi - lo + step - 1) / step); [| lia].
  replace ((hi - c - lo) / step + 1) with ((hi - c - lo + 1 * step) / step)
    by (rewrite Z.div_add by lia; reflexivity).
  apply Z.div_le_mono; lia.
Qed.

(** X8. On a working day for which the schedule source gives no busy
    interval, because nothing active is booked or because the fetch failed
    and was reported, a known type is offered every start of the grid that
    ends by closing time, and no other: the starts a quarter of an hour
    apart from opening time on, as many as quarters fit between opening time
    and the last start. *)
Theorem free_day_offers_every_start date appointment_type info s e st st1 :
  APPOINTMENT_TYPES !! appointment_type = Some info ->
  working_window date = Some (s, e) ->
  get_busy_time_slots date st = (Ok [], st1) ->
  get_available_slots date appointment_type st
  = (Ok (working_day_info date (info_name info) (info_duration info)
           (map (fun t => slot_of t (info_duration info))
              (progression (Py.combine (Py.toordinal date) s)
                 (Py.minutes slot_interval)
                 (Z.to_nat ((e - s - Py.minutes (info_duration info))
                            / Py.minutes slot_interval + 1))))),
     st1).
Proof.
  intros Hi Hw Hbusy.
  pose proof (working_window_working_day _ _ _ Hw) as Hday.
  destruct (working_day_window _ Hday) as (h & s' & e' & _ & _ & _ & Hw' & Hs0 & Hse & He).
  rewrite Hw in Hw'. inversion Hw'; subst s' e'.
  destruct (known_duration _ _ Hi) as [_ Hd].
  destruct (get_available_slots_working date appointment_type info s e st Hi Hw)
    as (grid & Hg & Heq).
  rewrite Heq, Hbusy.
  rewrite filter_slots_total
    by (apply List.Forall_forall; intros t _; exists true; reflexivity).
  cbn [app]. do 3 f_equal.
  destruct (generate_time_slots_spec s e date slot_interval) as (grid' & Hg' & Hrange & _);
    [reflexivity |].
  rewrite Hg in Hg'. inversion Hg'; subst grid'. clear Hg'.
  rewrite generate_time_slots_progression in Hg by reflexivity.
  injection Hg as Hgrid. subst grid.
  unfold accepted.
  rewrite (List.filter_ext_in _
             (fun t => t + Py.minutes (info_duration info)
                       <=? Py.combine (Py.toordinal date) e)).
  - rewrite filter_progression by reflexivity.
    rewrite Nat.min_r.
    + replace (Py.combine (Py.toordinal date) e - Py.minutes (info_duration info)
               - Py.combine (Py.toordinal date) s)
        with (e - s - Py.minutes (info_duration info))
        by (unfold Py.combine; lia).
      reflexivity.
    + apply fitting_steps; [reflexivity |].
      unfold Py.minutes, Py.US_PER_MINUTE, Py.US_PER_SECOND. lia.
  - intros t Ht. rewrite List.Forall_forall in Hrange.
    specialize (Hrange t Ht). cbv beta in Hrange.
    unfold is_free, fits. cbn [is_slot_available andb].
    pose proof (fits_same_day (Py.toordinal date) s e (info_duration info) t
                  Hs0 He Hd) as Hfit.
    destruct (Z.leb_spec (Py.time_of (t + Py.minutes (info_duration info))) e);
      destruct (Z.leb_spec (t + Py.minutes (info_duration info))
                  (Py.combine (Py.toordinal date) e)); try reflexivity; lia.
Qed.

(** *** What a call reads and writes *)

(** X6. [get_available_slots] reads the day of [date] and not its time of
    day: two instants of one day give the same answer and the same
    effects. *)
Theorem get_available_slots_ignores_time_of_day date1 date2 appointment_type st :
  Py.toordinal date1 = Py.toordinal date2 ->
  get_available_slots date1 appointment_type st
  = get_available_slots date2 appointment_type st.
Proof.
  intros H.
  unfold get_available_slots, is_working_day, get_busy_time_slots,
    generate_time_slots, not_working_day_info, working_day_info,
    Py.strftime_A, Py.strftime_Ymd, Py.weekday, Py.start_of_day, Py.end_of_day.
  rewrite H. reflexivity.
Qed.

(** The state after [get_available_slots]: one query more, that for the
    day, when the type is in the catalog and the day is a working day; the
    state it started in otherwise. *)
Lemma get_available_slots_footprint date appointment_type st o st' :
  get_available_slots date appointment_type st = (o, st') ->
  uuids_drawn st' = uuids_drawn st
  /\ if validate_type appointment_type && is_working_day date
     then requests st' = requests st ++ [query date]
     else st' = st.
Proof.
  intros Hrun. unfold validate_type.
  destruct (APPOINTMENT_TYPES !! appointment_type) as [info |] eqn:Hi.
  - destruct (known_duration _ _ Hi) as [Hd _].
    destruct (is_working_day date) eqn:Hday; cbn [andb].
    + destruct (working_day_window _ Hday) as (h & s & e & _ & _ & _ & Hw & _).
      destruct (get_available_slots_working date appointment_type info s e st Hi Hw)
        as (grid & _ & Heq).
      rewrite Heq in Hrun.
      destruct (get_busy_time_slots date st) as [ob st1] eqn:Hb.
      apply get_busy_time_slots_state in Hb as [Hreq Huu].
      destruct ob as [busy | x].
      * destruct (filter_slots grid (info_duration info) e busy []);
          inversion Hrun; subst; split; assumption.
      * inversion Hrun; subst; split; assumption.
    + rewrite (get_available_slots_not_working _ _ _ _ Hd Hday) in Hrun.
      inversion Hrun. split; reflexivity.
  - rewrite (get_available_slots_invalid _ _ _ (unknown_duration _ Hi)) in Hrun.
    inversion Hrun. split; reflexivity.
Qed.

(** X9. A range whose end is before its start is no error: the answer of
    [get_available_slots_range] is the empty list, and nothing is asked of
    the calendar. *)
Theorem reversed_range_is_empty start_date end_date appointment_type st :
  end_date < start_date ->
  get_available_slots_range start_date end_date appointment_type st = (Ok [], st).
Proof.
  intros H. rewrite get_available_slots_range_eq, days_inclusive_nil by exact H.
  reflexivity.
Qed.
(** *** What a booking books *)

Lemma check_slot_availability_true appointment_type date_str time_str st message st1 :
  check_slot_availability appointment_type date_str time_str st
  = (Ok (true, message), st1) ->
  exists date time info slots sl,
    Py.strptime_Ymd date_str = Some date
    /\ Py.strptime_HM time_str = Some time
    /\ get_available_slots date appointment_type st = (Ok info, st1)
    /\ si_available_slots info = Some slots
    /\ In sl slots
    /\ slot_start_time sl = time_str.
Proof.
  unfold check_slot_availability. intros H.
  apply bind_Ok_inv in H as (date & st0 & Hd & H). apply lift_Ok_inv in Hd as [Hd ->].
  apply bind_Ok_inv in H as (time & st0 & Ht & H). apply lift_Ok_inv in Ht as [Ht ->].
  apply bind_Ok_inv in H as (info & st2 & Hinfo & H).
  destruct (Py.strptime_Ymd date_str) as [date' |]; [| discriminate].
  destruct (Py.strptime_HM time_str) as [time' |]; [| discriminate].
  inversion Hd; inversion Ht; subst date' time'.
  destruct (si_error info).
  - apply bind_Ok_inv in H as (m & st0 & _ & H). inversion H.
  - apply bind_Ok_inv in H as (slots & st0 & Hs & H).
    apply lift_Ok_inv in Hs as [Hs ->].
    destruct (si_available_slots info) as [slots' |] eqn:Hslots; [| discriminate].
    inversion Hs; subst slots'.
    destruct slots as [| first rest]; [inversion H |].
    destruct (slot_listed time_str (first :: rest)) eqn:Hl; inversion H; subst.
    apply slot_listed_In in Hl as (sl & Hin & Hsl).
    exists date, time, info, (first :: rest), sl.
    repeat split; first [assumption | reflexivity].
Qed.

(** What a booking that succeeded went through: its request names a type,
    a date and a time that parse, and the time is printed on one of the
    candidates that the filter kept for that day, against the busy
    intervals fetched by the call. *)
Lemma create_appointment_success_inv data st r st' :
  create_appointment data st = (Ok r, st') ->
  br_success r = true ->
  exists appointment_type date_str time_str date time d s e grid busy st1 t,
    data !! "appointment_type" = Some appointment_type
    /\ data !! "date" = Some date_str
    /\ data !! "time" = Some time_str
    /\ Py.strptime_Ymd date_str = Some date
    /\ Py.strptime_HM time_str = Some time
    /\ get_appointment_duration appointment_type = Some d
    /\ working_window date = Some (s, e)
    /\ generate_time_slots s e date slot_interval = Ok grid
    /\ get_busy_time_slots date st = (Ok busy, st1)
    /\ In t (accepted grid d e busy)
    /\ Py.strftime_HM t = time_str.
Proof.
  unfold create_appointment. intros H Hok.
  apply bind_Ok_inv in H as ([is_valid error] & st0 & Hv & H).
  apply lift_Ok_inv in Hv as [_ ->].
  destruct is_valid; cbn [negb] in H;
    [| inversion H; subst; discriminate].
  apply bind_Ok_inv in H as (ty & st0 & Hty & H). apply lift_Ok_inv in Hty as [Hty ->].
  apply bind_Ok_inv in H as (dt & st0 & Hdt & H). apply lift_Ok_inv in Hdt as [Hdt ->].
  apply bind_Ok_inv in H as (tm & st0 & Htm & H). apply lift_Ok_inv in Htm as [Htm ->].
  apply bind_Ok_inv in H as ([is_available message] & st1 & Hc & H).
  destruct is_available; cbn [negb] in H;
    [| inversion H; subst; discriminate].
  clear H.
  destruct (data !! "appointment_type") as [ty' |]; [| discriminate].
  destruct (data !! "date") as [dt' |]; [| discriminate].
  destruct (data !! "time") as [tm' |]; [| discriminate].
  inversion Hty; inversion Hdt; inversion Htm; subst ty' dt' tm'.
  apply check_slot_availability_true in Hc
    as (date & time & info & slots & sl & Hdate & Htime & Hinfo & Hslots & Hin & Hsl).
  destruct (get_appointment_duration ty) as [d |] eqn:Hd.
  2: { rewrite get_available_slots_invalid in Hinfo by assumption.
       inversion Hinfo; subst. discriminate. }
  destruct (is_working_day date) eqn:Hday.
  2: { rewrite (get_available_slots_not_working _ _ _ _ Hd Hday) in Hinfo.
       inversion Hinfo; subst. inversion Hslots; subst. contradiction. }
  destruct (working_day_window _ Hday) as (h & s & e & _ & _ & _ & Hw & _).
  destruct (get_available_slots_Ok_working _ _ _ _ _ _ _ _ Hinfo Hw Hd)
    as (grid & busy & name & Hgrid & _ & _ & Hbusy & Heq).
  subst info. inversion Hslots; subst slots.
  apply in_map_iff in Hin as (t & Hslot & Ht). subst sl.
  exists ty, dt, tm, date, time, d, s, e, grid, busy, st1, t.
  repeat split; assumption.
Qed.

(** X10. No double booking: when [create_appointment] succeeds, the
    interval it books, from the requested time of the requested day for the
    duration of the type, lies within the working hours of that day and
    meets none of the busy intervals that its call fetched from the
    calendar. *)
Theorem booked_interval_is_free data st r st' :
  create_appointment data st = (Ok r, st') ->
  br_success r = true ->
  exists appointment_type date_str time_str date time d s e busy st1,
    data !! "appointment_type" = Some appointment_type
    /\ data !! "date" = Some date_str
    /\ data !! "time" = Some time_str
    /\ Py.strptime_Ymd date_str = Some date
    /\ Py.strptime_HM time_str = Some time
    /\ get_appointment_duration appointment_type = Some d
    /\ working_window date = Some (s, e)
    /\ get_busy_time_slots date st = (Ok busy, st1)
    /\ Forall (clear_of (Py.combine (Py.toordinal date) time) d) busy
    /\ s <= time
    /\ time + Py.minutes d <= e.
Proof.
  intros Hrun Hok.
  destruct (create_appointment_success_inv _ _ _ _ Hrun Hok)
    as (ty & dt & tm & date & time & d & s & e & grid & busy & st1 & t
        & Hty & Hdt & Htm & Hdate & Htime & Hd & Hw & Hgrid & Hbusy & Hin & Hprint).
  exists ty, dt, tm, date, time, d, s, e, busy, st1.
  do 8 (split; [assumption |]).
  apply accepted_In in Hin as (Hall & Hfree & Hfit).
  pose proof (working_window_working_day _ _ _ Hw) as Hday.
  destruct (working_day_window _ Hday) as (h & s' & e' & _ & _ & _ & Hw' & Hs0 & Hse & He).
  rewrite Hw in Hw'. inversion Hw'; subst s' e'.
  destruct (duration_known _ _ Hd) as (_ & _ & _ & Hpos).
  destruct (generate_time_slots_spec s e date slot_interval)
    as (grid' & Hg' & Hrange & _); [reflexivity |].
  rewrite Hgrid in Hg'. inversion Hg'; subst grid'. clear Hg'.
  rewrite List.Forall_forall in Hrange. specialize (Hrange t Hall).
  cbv beta in Hrange.
  rewrite generate_time_slots_progression in Hgrid by reflexivity.
  injection Hgrid as Hgrid. subst grid.
  apply in_map_iff in Hall as (k & Hk & _).
  destruct (grid_start_reads_back (Py.toordinal date) s k t) as [Hback Hord].
  { destruct (working_window_cases _ _ _ Hw) as [[-> _] | [-> _]];
        [left | right]; reflexivity. }
  { now symmetry. }
  { unfold Py.combine in *. lia. }
  rewrite <- Hprint in Htime. rewrite Hback in Htime. inversion Htime as [Htime'].
  assert (Hstart : Py.combine (Py.toordinal date) (t - Py.toordinal date * Py.US_PER_DAY) = t)
    by (unfold Py.combine; lia).
  rewrite Hstart.
  split; [now apply is_slot_available_true_clear |].
  apply (fits_same_day (Py.toordinal date) s e d t Hs0 He Hpos Hrange) in Hfit.
  unfold Py.combine in *. lia.
Qed.

(** X11. A time that is not written on five characters is never booked,
    though validation lets it through when it reads as a time (['9:00']
    does): the slots are listed under the zero-padded ['%H:%M'] of their
    start, and the request is compared with that text. *)
Theorem unpadded_time_is_never_booked data st r st' time_str :
  data !! "time" = Some time_str ->
  String.length time_str <> 5%nat ->
  create_appointment data st = (Ok r, st') ->
  br_success r = false.
Proof.
  intros Htm Hlen Hrun. destruct (br_success r) eqn:Hok; [| reflexivity].
  destruct (create_appointment_success_inv _ _ _ _ Hrun Hok)
    as (ty & dt & tm & date & time & d & s & e & grid & busy & st1 & t
        & _ & _ & Htm' & _ & _ & _ & _ & _ & _ & _ & Hprint).
  rewrite Htm in Htm'. injection Htm' as Heq.
  rewrite Heq, <- Hprint in Hlen.
  now destruct (strptime_strftime_HM t) as [_ Hfive].
Qed.
Lemma validate_false_message data error :
  validate_appointment_data data = Ok (false, error) ->
  exists message, error = Some message.
Proof.
  unfold validate_appointment_data. intros H.
  destruct (first_missing required_fields data) as [field |];
    [inversion H; eauto |].
  destruct (data !! "appointment_type") as [t |]; [| discriminate]. simpl in H.
  destruct (APPOINTMENT_TYPES !! t); [| inversion H; eauto].
  destruct (data !! "date") as [dt |]; [| discriminate]. simpl in H.
  destruct (Py.strptime_Ymd dt); [| inversion H; eauto].
  destruct (data !! "time") as [tm |]; [| discriminate]. simpl in H.
  destruct (Py.strptime_HM tm); [| inversion H; eauto].
  destruct (data !! "patient_email") as [em |]; [| discriminate]. simpl in H.
  destruct (Py.contains_char "@"%char em); simpl in H; inversion H; eauto.
Qed.

(** X12. A booking that fails is only its error: [create_appointment]
    returns the failure dict with a message and nothing else, no booking
    id, no details, and it has drawn no uuid from the source. *)
Theorem failed_booking_is_only_its_error data st r st' :
  create_appointment data st = (Ok r, st') ->
  br_success r = false ->
  (exists message, r = booking_failure (Some message))
  /\ uuids_drawn st' = uuids_drawn st.
Proof.
  unfold create_appointment. intros H Hfail.
  apply bind_Ok_inv in H as ([is_valid error] & st0 & Hv & H).
  apply lift_Ok_inv in Hv as [Hv ->].
  destruct is_valid; cbn [negb] in H.
  2: { destruct (validate_false_message _ _ Hv) as [message ->].
       inversion H; subst. split; [now exists message | reflexivity]. }
  apply bind_Ok_inv in H as (t & st0 & Ht & H). apply lift_Ok_inv in Ht as [_ ->].
  apply bind_Ok_inv in H as (dt & st0 & Hdt & H). apply lift_Ok_inv in Hdt as [_ ->].
  apply bind_Ok_inv in H as (tm & st0 & Htm & H). apply lift_Ok_inv in Htm as [_ ->].
  apply bind_Ok_inv in H as ([is_available message] & st1 & Hc & H).
  apply keeps_uuids_check_slot_availability in Hc.
  destruct is_available; cbn [negb] in H.
  2: { inversion H; subst. split; [now exists message | exact Hc]. }
  apply bind_Ok_inv in H as (date & st0 & Hd & H). apply lift_Ok_inv in Hd as [_ ->].
  apply bind_Ok_inv in H as (time & st0 & Htime & H).
  apply lift_Ok_inv in Htime as [_ ->].
  unfold _simulate_booking in H.
  apply bind_Ok_inv in H as (info & st0 & Hi & H). apply lift_Ok_inv in Hi as [_ ->].
  apply bind_Ok_inv in H as (id & st2 & _ & H).
  apply bind_Ok_inv in H as (? & st0 & _ & H).
  apply bind_Ok_inv in H as (? & st3 & _ & H).
  apply bind_Ok_inv in H as (? & st4 & _ & H).
  apply bind_Ok_inv in H as (? & st5 & _ & H).
  inversion H; subst. discriminate.
Qed.

(** X13. A request that passes validation for a day that is not a working
    day is refused with ['No available slots on <date>'], and nothing is
    asked of the calendar: the state is left as it was. *)
Theorem booking_on_closed_day_is_refused data st appointment_type date_str date :
  validate_appointment_data data = Ok (true, None) ->
  data !! "appointment_type" = Some appointment_type ->
  data !! "date" = Some date_str ->
  Py.strptime_Ymd date_str = Some date ->
  is_working_day date = false ->
  create_appointment data st
  = (Ok (booking_failure (Some ("No available slots on " +:+ date_str))), st).
Proof.
  intros Hvalid Ht Hdt Hdate Hday.
  destruct (validate_ok_inv _ Hvalid)
    as (t' & dt' & tm & nm & em & type_info & date' & time
        & Ht' & Hdt' & Htm & Hnm & Hem & Hti & Hdate' & Htime).
  rewrite Ht in Ht'. rewrite Hdt in Hdt'. injection Ht' as <-. injection Hdt' as <-.
  destruct (known_duration _ _ Hti) as [Hd _].
  unfold create_appointment.
  rewrite bind_lift, Hvalid. cbn [negb].
  rewrite bind_lift, Ht. cbn [lookup_or_KeyError].
  rewrite bind_lift, Hdt. cbn [lookup_or_KeyError].
  rewrite bind_lift, Htm. cbn [lookup_or_KeyError].
  assert (Hcheck : check_slot_availability appointment_type date_str tm st
                   = (Ok (false, "No available slots on " +:+ date_str), st)).
  { unfold check_slot_availability.
    rewrite bind_lift, Hdate. cbn [strptime_or_ValueError].
    rewrite bind_lift, Htime. cbn [strptime_or_ValueError].
    rewrite (bind_Ok _ _ _ _ _ (get_available_slots_not_working _ _ _ st Hd Hday)).
    reflexivity. }
  rewrite (bind_Ok _ _ _ _ _ Hcheck). reflexivity.
Qed.
(** *** The summaries *)

Lemma capitalize_day_name date :
  Py.capitalize (Py.lower (Py.strftime_A date)) = Py.strftime_A date.
Proof.
  pose proof (weekday_range date) as Hr. unfold Py.strftime_A.
  assert (Hc : Py.weekday date = 0 \/ Py.weekday date = 1 \/ Py.weekday date = 2
               \/ Py.weekday date = 3 \/ Py.weekday date = 4 \/ Py.weekday date = 5
               \/ Py.weekday date = 6) by lia.
  destruct Hc as [H | [H | [H | [H | [H | [H | H]]]]]]; rewrite H; reflexivity.
Qed.

Lemma get_schedule_summary_eq date st :
  get_schedule_summary (Some date) st
  = match get_existing_appointments (Some (Py.start_of_day date))
            (Some (Py.end_of_day date)) st with
    | (Ok appointments, st1) =>
        (Ok (mkSummary (Py.strftime_Ymd date)
               (Py.capitalize (Py.lower (Py.strftime_A date)))
               (get_working_hours !! Py.lower (Py.strftime_A date))
               (Z.of_nat (length appointments)) appointments), st1)
    | (Raise x, st1) => (Raise x, st1)
    end.
Proof.
  unfold get_schedule_summary, bind.
  now destruct (get_existing_appointments _ _ st) as [[appointments | x] st1].
Qed.

Lemma get_busy_time_slots_of_appointments date st :
  get_busy_time_slots date st
  = match get_existing_appointments (Some (Py.start_of_day date))
            (Some (Py.end_of_day date)) st with
    | (Ok appointments, st1) =>
        (Ok (map (fun a => mkBusy (apt_start_time a) (apt_end_time a))
               (List.filter is_active appointments)), st1)
    | (Raise x, st1) => (Raise x, st1)
    end.
Proof.
  unfold get_busy_time_slots, bind.
  now destruct (get_existing_appointments _ _ st) as [[appointments | x] st1].
Qed.

Lemma is_active_status a : is_active a = status_is_active a.
Proof.
  unfold is_active, status_is_active.
  destruct (apt_status a) as [status |].
  - destruct (String.eqb_spec status "active") as [-> | Hne].
    + now rewrite bool_decide_true.
    + rewrite bool_decide_false; [reflexivity | congruence].
  - now rewrite bool_decide_false.
Qed.

(** X14. The summary of a day and the busy intervals of that day are two
    readings of one fetch: [get_schedule_summary] returns whenever the
    fetch does, with the same effects as [get_busy_time_slots]; it names
    the day as ['%A'] prints it, gives the opening hours of that day, open
    exactly when [is_working_day] says so, counts the appointments it
    lists, and the busy intervals are those of its appointments whose status
    is ['active'], in their order. *)
Theorem schedule_summary_matches_busy_slots date st :
  (forall busy st1,
     get_busy_time_slots date st = (Ok busy, st1) ->
     exists summary, get_schedule_summary (Some date) st = (Ok summary, st1))
  /\ (forall summary st1,
        get_schedule_summary (Some date) st = (Ok summary, st1) ->
        ss_date summary = Py.strftime_Ymd date
        /\ ss_day_of_week summary = Py.strftime_A date
        /\ (exists h, ss_working_hours summary = Some h
                      /\ wh_available h = is_working_day date)
        /\ ss_total_appointments summary
           = Z.of_nat (length (ss_appointments summary))
        /\ get_busy_time_slots date st
           = (Ok (map (fun a => mkBusy (apt_start_time a) (apt_end_time a))
                    (List.filter status_is_active (ss_appointments summary))),
              st1)
        /\ forall busy,
             fst (get_busy_time_slots date st) = Ok busy ->
             forall b,
               In b busy
               <-> exists a, In a (ss_appointments summary)
                             /\ apt_status a = Some "active"
                             /\ b = mkBusy (apt_start_time a) (apt_end_time a)).
Proof.
  rewrite get_schedule_summary_eq, get_busy_time_slots_of_appointments.
  destruct (get_existing_appointments (Some (Py.start_of_day date))
              (Some (Py.end_of_day date)) st) as [[appointments | x] st0].
  - split.
    + intros busy st1 H. inversion H; subst. eexists. reflexivity.
    + intros summary st1 H. inversion H; subst.
      cbn [ss_date ss_day_of_week ss_working_hours ss_total_appointments
             ss_appointments].
      split; [reflexivity |]. split; [apply capitalize_day_name |].
      split.
      { unfold is_working_day.
        destruct (weekday_cases date) as [[_ Hh] | [[_ Hh] | [_ Hh]]];
          cbv zeta in Hh; rewrite Hh; eexists; split; reflexivity. }
      split; [reflexivity |].
      rewrite (List.filter_ext _ _ is_active_status).
      split; [reflexivity |].
      intros busy Hbusy b. cbn [fst] in Hbusy. injection Hbusy as <-.
      rewrite in_map_iff. split.
      * intros (a & <- & Ha). apply filter_In in Ha as [Ha Hs].
        apply bool_decide_eq_true in Hs. now exists a.
      * intros (a & Ha & Hs & ->). exists a. split; [reflexivity |].
        apply filter_In. split; [exact Ha |]. now apply bool_decide_eq_true.
  - split; intros ? ? H; inversion H.
Qed.

Lemma count_by_type_lookup appointments : forall by_type name,
  count_by_type appointments by_type !! name
  = let n := length (List.filter (named name) appointments) in
    if (n =? 0)%nat then by_type !! name
    else Some (default 0 (by_type !! name) + Z.of_nat n).
Proof.
  induction appointments as [| apt rest IH]; intros by_type name; [reflexivity |].
  cbn [count_by_type]. cbv zeta. rewrite IH. clear IH.
  set (by_type1 := match by_type !! apt_name apt with
                   | Some _ => by_type
                   | None => <[apt_name apt := 0]> by_type
                   end).
  assert (Hsame : default 0 (by_type1 !! apt_name apt)
                  = default 0 (by_type !! apt_name apt)).
  { unfold by_type1. destruct (by_type !! apt_name apt) eqn:E.
    - now rewrite E.
    - now rewrite lookup_insert_eq. }
  assert (Hother : apt_name apt <> name -> by_type1 !! name = by_type !! name).
  { intros Hne. unfold by_type1. destruct (by_type !! apt_name apt); [reflexivity |].
    now rewrite lookup_insert_ne. }
  cbn [List.filter].
  destruct (named name apt) eqn:Hn; unfold named in Hn.
  - apply bool_decide_eq_true in Hn as He. cbn [length Nat.eqb].
    rewrite He in *. rewrite lookup_insert_eq, Hsame. cbn [default].
    destruct (length (List.filter (named name) rest)) as [| n]; cbn [Nat.eqb].
    + f_equal.
    + cbn [from_option]. unfold id. f_equal. lia.
  - apply bool_decide_eq_false in Hn as Hne.
    rewrite lookup_insert_ne by exact Hne. rewrite (Hother Hne). reflexivity.
Qed.

(** X15. [get_booking_summary] lists the appointments that the fetch
    returns, counts them, and under each name has the number of
    appointments of that name and no entry for a name that none carries.
    An event without a name is counted under the key [None]: the
    ['Unknown'] of the code is never a key. *)
Theorem booking_summary_counts start_date end_date st :
  (forall appointments st1,
     get_existing_appointments start_date end_date st = (Ok appointments, st1) ->
     exists summary,
       get_booking_summary start_date end_date st = (Ok summary, st1)
       /\ bs_appointments summary = appointments)
  /\ (forall summary st1,
        get_booking_summary start_date end_date st = (Ok summary, st1) ->
        get_existing_appointments start_date end_date st
        = (Ok (bs_appointments summary), st1)
        /\ bs_total_appointments summary
           = Z.of_nat (length (bs_appointments summary))
        /\ forall name,
             bs_by_type summary !! name
             = let n := length (List.filter (named name) (bs_appointments summary)) in
               if (n =? 0)%nat then None else Some (Z.of_nat n)).
Proof.
  unfold get_booking_summary, bind.
  destruct (get_existing_appointments start_date end_date st)
    as [[appointments | x] st0].
  - split.
    + intros ? st1 H. inversion H; subst. eexists. split; reflexivity.
    + intros summary st1 H. inversion H; subst. cbn.
      split; [reflexivity |]. split; [reflexivity |].
      intros name. rewrite count_by_type_lookup. cbv zeta.
      rewrite lookup_empty. cbn [default].
      destruct (length (List.filter (named name) appointments)); reflexivity.
  - split; intros ? ? H; inversion H.
Qed.
(** *** The catalog handler *)

Lemma catalog_items : APPOINTMENT_TYPES = list_to_map APPOINTMENT_TYPES_items.
Proof. reflexivity. Qed.

Lemma listed_entry type_id info :
  APPOINTMENT_TYPES !! type_id = Some info ->
  In (mkEntry type_id (info_name info) (info_duration info) (info_description info))
    list_all_types.
Proof.
  rewrite catalog_items. intros H.
  apply elem_of_list_to_map_2, list_elem_of_In in H.
  unfold list_all_types.
  exact (in_map (fun item => mkEntry (fst item) (info_name (snd item))
                               (info_duration (snd item))
                               (info_description (snd item))) _ _ H).
Qed.

Lemma entry_listed e :
  In e list_all_types ->
  APPOINTMENT_TYPES !! entry_id e
  = Some (mkInfo (entry_name e) (entry_duration e) (entry_description e)).
Proof.
  unfold list_all_types. intros H.
  apply in_map_iff in H as ([type_id info] & <- & Hin).
  simpl in Hin. destruct Hin as [H | [H | [H | [H | []]]]];
    inversion H; subst; vm_compute; reflexivity.
Qed.

(** X16. [list_all_types] lists the types that [validate_type] accepts,
    and no other, and each with the duration and the information that
    [get_duration] and [get_type_by_id] give for its id. *)
Theorem listed_types_are_the_valid_ones :
  (forall type_id,
     validate_type type_id = true
     <-> exists e, In e list_all_types /\ entry_id e = type_id)
  /\ (forall e,
        In e list_all_types ->
        get_duration (entry_id e) = Some (entry_duration e)
        /\ get_type_by_id (entry_id e)
           = Some (mkInfo (entry_name e) (entry_duration e) (entry_description e))).
Proof.
  split.
  - intros type_id. unfold validate_type. split.
    + destruct (APPOINTMENT_TYPES !! type_id) as [info |] eqn:H; [| discriminate].
      intros _. eexists. split; [exact (listed_entry _ _ H) | reflexivity].
    + intros (e & Hin & <-). now rewrite (entry_listed _ Hin).
  - intros e Hin. unfold get_duration, get_type_by_id, get_appointment_duration,
      get_appointment_info.
    rewrite (entry_listed _ Hin). split; reflexivity.
Qed.

Lemma filter_types_loop_eq min_duration max_duration types : forall filtered,
  filter_types_loop types min_duration max_duration filtered
  = filtered
    ++ List.filter (fun t => within min_duration max_duration (entry_duration t)) types.
Proof.
  induction types as [| t rest IH]; intros filtered; cbn [filter_types_loop List.filter].
  - now rewrite app_nil_r.
  - cbv zeta. unfold within at 1, is_set.
    destruct min_duration as [n |], max_duration as [m |];
      cbn [from_option]; unfold id; rewrite ?Z.leb_antisym;
      repeat match goal with
             | |- context [(?a =? ?b)] => destruct (a =? b)
             | |- context [(?a <? ?b)] => destruct (a <? b)
             end;
      cbn [andb orb negb]; rewrite IH; try reflexivity;
      now rewrite <- app_assoc.
Qed.

Lemma within_spec min_duration max_duration duration :
  within min_duration max_duration duration = true
  <-> (forall n, min_duration = Some n -> n <> 0 -> n <= duration)
      /\ (forall n, max_duration = Some n -> n <> 0 -> duration <= n).
Proof.
  unfold within. rewrite andb_true_iff. split.
  - intros [Hmin Hmax]. split; intros n Hn Hne.
    + subst min_duration. apply orb_true_iff in Hmin as [H0 | Hle].
      * apply Z.eqb_eq in H0. contradiction.
      * now apply Z.leb_le.
    + subst max_duration. apply orb_true_iff in Hmax as [H0 | Hle].
      * apply Z.eqb_eq in H0. contradiction.
      * now apply Z.leb_le.
  - intros [Hmin Hmax]. split.
    + destruct min_duration as [n |]; [| reflexivity].
      apply orb_true_iff. destruct (Z.eq_dec n 0) as [-> | Hne];
        [now left | right; apply Z.leb_le; now apply Hmin].
    + destruct max_duration as [n |]; [| reflexivity].
      apply orb_true_iff. destruct (Z.eq_dec n 0) as [-> | Hne];
        [now left | right; apply Z.leb_le; now apply Hmax].
Qed.

(** X17. [filter_types_by_duration] returns the listed types whose
    duration is within the bounds, in the order of the catalog: a type is in
    the answer exactly when it is listed, its duration is not below a
    minimum that is given and is not [0], and not above a maximum that is
    given and is not [0]. A bound of [0] is read as no bound: with a maximum
    of [0] the answer is that without a maximum, not the empty list. *)
Theorem filter_types_by_duration_spec min_duration max_duration :
  filter_types_by_duration min_duration max_duration
  = List.filter (fun t => within min_duration max_duration (entry_duration t))
      list_all_types
  /\ (forall t,
        In t (filter_types_by_duration min_duration max_duration)
        <-> In t list_all_types
            /\ (forall n, min_duration = Some n -> n <> 0 -> n <= entry_duration t)
            /\ (forall n, max_duration = Some n -> n <> 0 -> entry_duration t <= n))
  /\ filter_types_by_duration min_duration (Some 0)
     = filter_types_by_duration min_duration None
  /\ filter_types_by_duration None (Some 0) = list_all_types.
Proof.
  unfold filter_types_by_duration. rewrite !filter_types_loop_eq. cbn [app].
  split; [reflexivity |]. split; [| split; reflexivity].
  intros t. rewrite filter_In, within_spec. reflexivity.
Qed.

Lemma recommend_loop_eq available_time types : forall recommendations,
  recommend_loop types available_time recommendations
  = recommendations
    ++ map (recommended available_time)
         (List.filter (fun t => entry_duration t <=? available_time) types).
Proof.
  induction types as [| t rest IH]; intros recommendations;
    cbn [recommend_loop List.filter].
  - now rewrite app_nil_r.
  - destruct (entry_duration t <=? available_time); rewrite IH; [| reflexivity].
    now rewrite <- app_assoc.
Qed.

Lemma insert_by_duration_perm x sorted :
  Permutation (insert_by_duration x sorted) (x :: sorted).
Proof.
  induction sorted as [| y rest IH]; cbn [insert_by_duration]; [reflexivity |].
  destruct (entry_duration (rec_type x) <? entry_duration (rec_type y));
    [| reflexivity].
  eapply perm_trans; [apply perm_skip, IH | apply perm_swap].
Qed.

Lemma sort_longest_first_perm l : Permutation (sort_longest_first l) l.
Proof.
  induction l as [| x rest IH]; [reflexivity |].
  unfold sort_longest_first. cbn [fold_right].
  eapply perm_trans; [apply insert_by_duration_perm | apply perm_skip, IH].
Qed.

Lemma insert_by_duration_sorted x sorted :
  StronglySorted not_shorter sorted ->
  StronglySorted not_shorter (insert_by_duration x sorted).
Proof.
  induction 1 as [| y rest Hsorted IH Hall]; cbn [insert_by_duration].
  - constructor; constructor.
  - destruct (Z.ltb_spec (entry_duration (rec_type x)) (entry_duration (rec_type y)))
      as [Hlt | Hge].
    + constructor; [exact IH |].
      eapply Permutation_Forall;
        [apply Permutation_sym, insert_by_duration_perm |].
      constructor; [unfold not_shorter; lia | exact Hall].
    + constructor; [now constructor |].
      constructor; [exact Hge |].
      eapply Forall_impl; [exact Hall |].
      unfold not_shorter. intros z Hz. lia.
Qed.

Lemma sort_longest_first_sorted l :
  StronglySorted not_shorter (sort_longest_first l).
Proof.
  induction l as [| x rest IH]; [constructor |].
  unfold sort_longest_first. cbn [fold_right]. now apply insert_by_duration_sorted.
Qed.

(** X18. [get_type_recommendations] recommends the listed types that fit
    in the available time, each once and no other, the longest first, each
    with the time that it leaves, which is never negative. *)
Theorem type_recommendations_spec available_time :
  StronglySorted not_shorter (get_type_recommendations available_time)
  /\ (forall r,
        In r (get_type_recommendations available_time)
        <-> exists t, In t list_all_types
                      /\ entry_duration t <= available_time
                      /\ r = recommended available_time t)
  /\ length (get_type_recommendations available_time)
     = length (List.filter (fun t => entry_duration t <=? available_time)
                 list_all_types)
  /\ Forall (fun r => rec_fits r = true /\ 0 <= rec_time_remaining r)
       (get_type_recommendations available_time).
Proof.
  unfold get_type_recommendations. rewrite recommend_loop_eq. cbn [app].
  set (fitting := List.filter (fun t => entry_duration t <=? available_time)
                    list_all_types).
  pose proof (sort_longest_first_perm (map (recommended available_time) fitting))
    as Hperm.
  assert (Hin : forall r,
            In r (sort_longest_first (map (recommended available_time) fitting))
            <-> exists t, In t list_all_types
                          /\ entry_duration t <= available_time
                          /\ r = recommended available_time t).
  { intros r. split.
    - intros H. apply (Permutation_in _ Hperm) in H.
      apply in_map_iff in H as (t & <- & Ht).
      apply filter_In in Ht as [Ht Hfit]. apply Z.leb_le in Hfit. now exists t.
    - intros (t & Ht & Hfit & ->).
      apply (Permutation_in _ (Permutation_sym Hperm)).
      apply in_map, filter_In. split; [exact Ht | now apply Z.leb_le]. }
  split; [apply sort_longest_first_sorted |]. split; [exact Hin |].
  split; [now rewrite (Permutation_length Hperm), length_map |].
  apply List.Forall_forall. intros r Hr.
  apply Hin in Hr as (t & _ & Hfit & ->). cbn. split; [reflexivity | lia].
Qed.
(** *** The availability trends of the dashboard *)

Lemma sunday_within_a_week today :
  exists i, In i (map Z.of_nat (seq 0 14))
            /\ is_working_day (today + Py.days i) = false.
Proof.
  pose proof (weekday_range today) as Hr.
  exists (6 - Py.weekday today). split.
  - apply in_map_iff. exists (Z.to_nat (6 - Py.weekday today)).
    split; [lia | apply in_seq; lia].
  - apply is_working_day_false_iff. unfold Py.weekday in *.
    rewrite toordinal_add_days.
    pose proof (Z.div_mod (Py.toordinal today + 6) 7 ltac:(lia)) as Hdm.
    symmetry.
    apply (Z.mod_unique_pos _ 7 ((Py.toordinal today + 6) / 7) 6); lia.
Qed.

Lemma trend_days_raises apt_type_key info today :
  APPOINTMENT_TYPES !! apt_type_key = Some info ->
  forall range trend_data st,
    (exists i, In i range /\ is_working_day (today + Py.days i) = false) ->
    exists x st', trend_days apt_type_key today range trend_data st = (Raise x, st').
Proof.
  intros Hi. destruct (known_duration _ _ Hi) as [Hd _].
  induction range as [| j rest IH]; intros trend_data st (i & Hin & Hclosed);
    [contradiction |].
  cbn [trend_days]. cbv zeta.
  destruct Hin as [-> | Hin].
  - rewrite (bind_Ok _ _ _ _ _
               (get_available_slots_not_working _ _ _ st Hd Hclosed)).
    rewrite bind_lift. cbn [not_working_day_info si_date lookup_or_KeyError].
    rewrite bind_lift, Hi. cbn [lookup_or_KeyError].
    rewrite bind_lift. cbn [si_total_slots lookup_or_KeyError]. eauto.
  - destruct (get_available_slots (today + Py.days j) apt_type_key st)
      as [[slots | x] st1] eqn:E.
    + rewrite (bind_Ok _ _ _ _ _ E). rewrite bind_lift.
      destruct (lookup_or_KeyError (si_date slots)); [| eauto].
      rewrite bind_lift, Hi. cbn [lookup_or_KeyError]. rewrite bind_lift.
      destruct (lookup_or_KeyError (si_total_slots slots)); [| eauto].
      apply IH. eauto.
    + rewrite (bind_Raise _ _ _ _ _ E). eauto.
Qed.

(** X19. The loops that fill the availability trends of the dashboard
    never get to their end: among the fourteen days from today there is a
    Sunday, the answer of [get_available_slots] for a day that is not a
    working day has no ['total_slots'], and reading it raises. When today
    is such a day, the first reading raises [KeyError] before anything is
    asked of the calendar. *)
Theorem availability_trends_always_raises st :
  (exists x st', availability_trends st = (Raise x, st'))
  /\ (is_working_day now = false -> availability_trends st = (Raise KeyError, st)).
Proof.
  unfold availability_trends. cbv zeta.
  cbn [APPOINTMENT_TYPES_items map fst trend_types].
  assert (Hi : APPOINTMENT_TYPES !! "general_consultation"
               = Some (mkInfo "General Consultation" 30
                         "Standard medical consultation"))
    by (vm_compute; reflexivity).
  split.
  - destruct (trend_days_raises _ _ now Hi (map Z.of_nat (seq 0 14)) [] st
                (sunday_within_a_week now)) as (x & st' & H).
    rewrite (bind_Raise _ _ _ _ _ H). eauto.
  - intros Hclosed.
    destruct (known_duration _ _ Hi) as [Hd _].
    assert (Hfirst : is_working_day (now + Py.days 0) = false)
      by (now replace (now + Py.days 0) with now by (unfold Py.days; lia)).
    assert (H : trend_days "general_consultation" now (map Z.of_nat (seq 0 14)) [] st
                = (Raise KeyError, st)).
    { cbn [seq map trend_days]. cbv zeta.
      change (Z.of_nat 0) with 0.
      rewrite (bind_Ok _ _ _ _ _
                 (get_available_slots_not_working _ _ _ st Hd Hfirst)).
      rewrite bind_lift. cbn [not_working_day_info si_date lookup_or_KeyError].
      rewrite bind_lift, Hi. cbn [lookup_or_KeyError].
      rewrite bind_lift. reflexivity. }
    rewrite (bind_Raise _ _ _ _ _ H). reflexivity.
Qed.
(** *** More on what is asked of the calendar, and on the slots *)

Lemma for_each_requests appointment_type :
  validate_type appointment_type = true ->
  forall days st infos st',
    for_each (fun day => get_available_slots day appointment_type) days st
    = (Ok infos, st') ->
    requests st' = requests st ++ map query (List.filter is_working_day days).
Proof.
  intros Hvalid. induction days as [| day rest IH]; intros st infos st' H.
  - inversion H; subst. now rewrite app_nil_r.
  - cbn [for_each] in H.
    apply bind_Ok_inv in H as (info & st1 & Hday & H).
    apply bind_Ok_inv in H as (others & st2 & Hrest & H).
    inversion H; subst. clear H.
    apply IH in Hrest. rewrite Hrest.
    apply get_available_slots_footprint in Hday as [_ Hday].
    rewrite Hvalid in Hday. cbn [andb List.filter] in *.
    destruct (is_working_day day).
    + rewrite Hday. cbn [map]. now rewrite <- app_assoc.
    + now subst st1.
Qed.

(** X7. The calendar is asked once for each working day, and for no
    other: [get_available_slots] sends one query, that for the day, when
    the type is in the catalog and the day is a working day, and leaves the
    state as it is otherwise, drawing no uuid whatever its outcome; a range
    that [get_available_slots_range] answers has sent the queries for its
    working days, in the order of the days. *)
Theorem calendar_is_asked_once_per_working_day appointment_type st :
  (forall date o st',
     get_available_slots date appointment_type st = (o, st') ->
     uuids_drawn st' = uuids_drawn st
     /\ if validate_type appointment_type && is_working_day date
        then requests st' = requests st ++ [query date]
        else st' = st)
  /\ (forall start_date end_date infos st',
        validate_type appointment_type = true ->
        get_available_slots_range start_date end_date appointment_type st
        = (Ok infos, st') ->
        requests st'
        = requests st
          ++ map query
               (List.filter is_working_day (days_inclusive start_date end_date))).
Proof.
  split.
  - intros date o st'. apply get_available_slots_footprint.
  - intros start_date end_date infos st' Hvalid H.
    rewrite get_available_slots_range_eq in H.
    apply bind_Ok_inv in H as (all & st1 & Hall & H).
    inversion H; subst. now apply (for_each_requests _ Hvalid) in Hall.
Qed.

(** X20. The opening hours by the day of the week: 09:00 to 17:00 from
    Monday to Friday, 10:00 to 14:00 on Saturday, closed on Sunday, which
    is the one day that is not a working day. *)
Theorem opening_hours_by_weekday date :
  working_window date
  = (if Py.weekday date <? 5
     then Some (9 * Py.US_PER_HOUR, 17 * Py.US_PER_HOUR)
     else if Py.weekday date =? 5
          then Some (10 * Py.US_PER_HOUR, 14 * Py.US_PER_HOUR)
          else None)
  /\ is_working_day date = negb (Py.weekday date =? 6).
Proof.
  unfold working_window, is_working_day.
  destruct (weekday_cases date) as [[Hw H] | [[Hw H] | [Hw H]]];
    cbv zeta in H; rewrite H.
  - destruct (Z.ltb_spec (Py.weekday date) 5); [| lia].
    destruct (Z.eqb_spec (Py.weekday date) 6); [lia |].
    split; vm_compute; reflexivity.
  - rewrite Hw. split; vm_compute; reflexivity.
  - rewrite Hw. split; vm_compute; reflexivity.
Qed.

Lemma StronglySorted_lt_NoDup l : StronglySorted Z.lt l -> List.NoDup l.
Proof.
  induction 1 as [| x rest _ IH Hall]; constructor; [| exact IH].
  intros Hin. rewrite List.Forall_forall in Hall. specialize (Hall x Hin). lia.
Qed.

(** X21. No two slots of an answer of [get_available_slots] carry the
    same start: the ['start_time'] by which a booking request picks its
    slot names one slot. *)
Theorem slot_labels_are_distinct date appointment_type st info st' :
  get_available_slots date appointment_type st = (Ok info, st') ->
  List.NoDup (map slot_start_time (slots_of info)).
Proof.
  intros H.
  destruct (get_appointment_duration appointment_type) as [d |] eqn:Hd.
  2: { rewrite get_available_slots_invalid in H by assumption.
       inversion H; subst. constructor. }
  destruct (is_working_day date) eqn:Hday.
  2: { rewrite (get_available_slots_not_working _ _ _ _ Hd Hday) in H.
       inversion H; subst. constructor. }
  destruct (working_day_window _ Hday) as (h & s & e & _ & _ & _ & Hw & Hs0 & Hse & He).
  destruct (get_available_slots_Ok_working _ _ _ _ _ _ _ _ H Hw Hd)
    as (grid & busy & name & Hgrid & Hrange & Hsorted & _ & ->).
  unfold slots_of, working_day_info. cbn [si_available_slots default from_option id].
  rewrite map_map. cbn [slot_of slot_start_time].
  apply NoDup_map_NoDup_ForallPairs;
    [| apply StronglySorted_lt_NoDup, accepted_sorted, Hsorted].
  rewrite generate_time_slots_progression in Hgrid by reflexivity.
  injection Hgrid as Hgrid. rewrite List.Forall_forall in Hrange.
  assert (Hback : forall t,
            In t (accepted grid d e busy) ->
            Py.strptime_HM (Py.strftime_HM t)
            = Some (t - Py.toordinal date * Py.US_PER_DAY)).
  { intros t Ht. apply accepted_In in Ht as (Ht & _ & _).
    specialize (Hrange t Ht). cbv beta in Hrange.
    rewrite <- Hgrid in Ht. apply in_map_iff in Ht as (k & Hk & _).
    apply (grid_start_reads_back (Py.toordinal date) s k t).
    - destruct (working_window_cases _ _ _ Hw) as [[-> _] | [-> _]];
        [left | right]; reflexivity.
    - now symmetry.
    - unfold Py.combine in Hrange |- *. lia. }
  intros t1 t2 H1 H2 Heq.
  pose proof (Hback t1 H1) as B1. pose proof (Hback t2 H2) as B2.
  rewrite Heq, B2 in B1. injection B1 as B1. lia.
Qed.

(** X22. [reschedule_appointment] books nothing anew and checks nothing:
    for a booking that [create_appointment] made, and whatever the new date
    and time are, it succeeds with an id that is not that of the booking,
    as long as the uuid source does not give the same uuid twice in a row,
    and neither asks the calendar nor prints. *)
Theorem reschedule_checks_nothing data st r st1 booking_id new_date new_time :
  create_appointment data st = (Ok r, st1) ->
  br_success r = true ->
  br_booking_id r = Some booking_id ->
  uuid4 (S (uuids_drawn st)) <> uuid4 (uuids_drawn st) ->
  exists result st2,
    reschedule_appointment booking_id new_date new_time st1 = (Ok result, st2)
    /\ rs_success result = true
    /\ rs_old_booking_id result = booking_id
    /\ rs_new_booking_id result <> booking_id
    /\ rs_new_date result = new_date
    /\ rs_new_time result = new_time
    /\ requests st2 = requests st1
    /\ stdout st2 = stdout st1.
Proof.
  intros Hrun Hok Hid Hinj.
  destruct (create_appointment_success _ _ _ _ Hrun Hok) as [Hid' Hdrawn].
  rewrite Hid in Hid'. injection Hid' as ->.
  eexists _, _. split; [reflexivity |]. cbn.
  split; [reflexivity |]. split; [reflexivity |].
  split; [| repeat split].
  rewrite Hdrawn. exact Hinj.
Qed.

End Program.

(** ** The program on the sample environment *)

Example strptime_HM_0930 : Py.strptime_HM "09:30" = Some (570 * Py.US_PER_MINUTE).
Proof. reflexivity. Qed.

Example strptime_HM_one_digit : Py.strptime_HM "9:5" = Some (545 * Py.US_PER_MINUTE).
Proof. reflexivity. Qed.

Example strptime_HM_2400 : Py.strptime_HM "24:00" = None.
Proof. reflexivity. Qed.

Example strptime_HM_left_over : Py.strptime_HM "12:60" = None.
Proof. reflexivity. Qed.

Example strptime_Ymd_monday : Py.strptime_Ymd "2024-01-15" = Some Sample.monday.
Proof. reflexivity. Qed.

Example strptime_Ymd_no_such_day : Py.strptime_Ymd "2024-02-30" = None.
Proof. reflexivity. Qed.

Example isoformat_monday_0930 :
  Py.isoformat (Sample.at_minute Sample.monday 9 30) = "2024-01-15T09:30:00".
Proof. reflexivity. Qed.

Example day_name_monday : Py.lower (Py.strftime_A Sample.monday) = "monday".
Proof. reflexivity. Qed.

Local Abbreviation sample_slots :=
  (get_available_slots Sample.fromisoformat Sample.remote Sample.utcnow).
Local Abbreviation sample_busy := (get_busy_time_slots Sample.remote Sample.utcnow).

(** The example of the specification: Monday 09:00-17:00, 30 minutes, one
    busy interval 09:30-10:00. *)
Example monday_slots_begin :
  exists info, fst (sample_slots Sample.monday "general_consultation" Sample.start)
               = Ok info
    /\ firstn 3 (map slot_start_time (slots_of info)) = ["09:00"; "10:00"; "10:15"]
    /\ length (slots_of info) = 28%nat.
Proof. eexists. vm_compute. repeat split. Qed.

(** The offset of a busy timestamp is dropped, not applied: 09:30+05:00 is
    04:30 UTC, and it blocks the candidates around 09:30 on the wall clock. *)
Example offset_is_dropped :
  is_slot_available Sample.fromisoformat (Sample.at_minute Sample.monday 9 30) 30
    [mkBusy (Some "2024-01-15T09:30:00+05:00") (Some "2024-01-15T10:00:00+05:00")]
  = Ok false
  /\ is_slot_available Sample.fromisoformat (Sample.at_minute Sample.monday 4 30) 30
       [mkBusy (Some "2024-01-15T09:30:00+05:00") (Some "2024-01-15T10:00:00+05:00")]
     = Ok true.
Proof. split; reflexivity. Qed.

(** The candidate 16:45 is free and does not fit before 17:00. *)
Example last_candidate_excluded :
  is_slot_available Sample.fromisoformat (Sample.at_minute Sample.monday 16 45) 30 []
  = Ok true
  /\ fits 30 (17 * Py.US_PER_HOUR) (Sample.at_minute Sample.monday 16 45) = false
  /\ fits 30 (17 * Py.US_PER_HOUR) (Sample.at_minute Sample.monday 16 30) = true.
Proof. repeat split. Qed.

Lemma available_slots_avoid_busy_intervals_witness :
  exists info st' slots,
    sample_slots Sample.monday "general_consultation" Sample.start = (Ok info, st')
    /\ si_available_slots info = Some slots
    /\ length slots = 28%nat
    /\ existsb (String.eqb "09:30") (map slot_start_time slots) = false
    /\ exists d starts,
         get_appointment_duration "general_consultation" = Some d
         /\ slots = map (fun t => slot_of t d) starts
         /\ (forall t, In t starts -> In t (candidates Sample.monday))
         /\ (forall t1 t2,
               In t1 (candidates Sample.monday) ->
               In t2 (candidates Sample.monday) ->
               slot_start_time (slot_of t1 d) = slot_start_time (slot_of t2 d) ->
               t1 = t2)
         /\ forall busy st1,
              sample_busy Sample.monday Sample.start = (Ok busy, st1) ->
              Forall (fun t =>
                        Forall (fun b => exists bs be,
                                  parse_busy Sample.fromisoformat (busy_start b) = Ok bs
                                  /\ parse_busy Sample.fromisoformat (busy_end b) = Ok be
                                  /\ ~ overlaps t d bs be) busy) starts
              /\ forall t b bs be,
                   In t (candidates Sample.monday) ->
                   In b busy ->
                   parse_busy Sample.fromisoformat (busy_start b) = Ok bs ->
                   parse_busy Sample.fromisoformat (busy_end b) = Ok be ->
                   overlaps t d bs be ->
                   Forall (fun sl => slot_start_time sl <> Py.strftime_HM t) slots
                   /\ ~ In (slot_of t d) slots.
Proof.
  set (run := sample_slots Sample.monday "general_consultation" Sample.start).
  set (info := match fst run with Ok info => info | Raise _ => invalid_type_info "" end).
  exists info, (snd run), (slots_of info).
  split; [vm_compute; reflexivity |].
  split; [vm_compute; reflexivity |].
  split; [vm_compute; reflexivity |].
  split; [vm_compute; reflexivity |].
  apply (available_slots_avoid_busy_intervals Sample.fromisoformat Sample.remote
           Sample.utcnow Sample.monday "general_consultation" Sample.start
           info (snd run) (slots_of info));
    vm_compute; reflexivity.
Defined.

Lemma available_slots_within_working_hours_witness :
  exists info st' slots,
    sample_slots Sample.monday "general_consultation" Sample.start = (Ok info, st')
    /\ si_available_slots info = Some slots
    /\ working_window Sample.monday = Some (9 * Py.US_PER_HOUR, 17 * Py.US_PER_HOUR)
    /\ get_appointment_duration "general_consultation" = Some 30
    /\ exists grid busy,
         generate_time_slots (9 * Py.US_PER_HOUR) (17 * Py.US_PER_HOUR)
           Sample.monday slot_interval = Ok grid
         /\ sample_busy Sample.monday Sample.start = (Ok busy, st')
         /\ slots = map (fun t => slot_of t 30)
                      (accepted Sample.fromisoformat grid 30 (17 * Py.US_PER_HOUR) busy)
         /\ Forall (fun t => Py.combine (Py.toordinal Sample.monday) (9 * Py.US_PER_HOUR) <= t
                             /\ t + Py.minutes 30
                                <= Py.combine (Py.toordinal Sample.monday)
                                     (17 * Py.US_PER_HOUR))
              (accepted Sample.fromisoformat grid 30 (17 * Py.US_PER_HOUR) busy)
         /\ forall t, In t grid ->
              is_slot_available Sample.fromisoformat t 30 busy = Ok true ->
              Py.combine (Py.toordinal Sample.monday) (17 * Py.US_PER_HOUR)
              < t + Py.minutes 30 ->
              ~ In t (accepted Sample.fromisoformat grid 30 (17 * Py.US_PER_HOUR) busy).
Proof.
  set (run := sample_slots Sample.monday "general_consultation" Sample.start).
  set (info := match fst run with Ok info => info | Raise _ => invalid_type_info "" end).
  exists info, (snd run), (slots_of info).
  split; [vm_compute; reflexivity |].
  split; [vm_compute; reflexivity |].
  split; [vm_compute; reflexivity |].
  split; [vm_compute; reflexivity |].
  apply (available_slots_within_working_hours Sample.fromisoformat Sample.remote
           Sample.utcnow Sample.monday "general_consultation" Sample.start
           info (snd run) (slots_of info));
    vm_compute; reflexivity.
Defined.

Lemma non_working_day_has_no_slots_witness :
  is_working_day Sample.sunday = false
  /\ is_Some (APPOINTMENT_TYPES !! "follow_up")
  /\ exists info,
       sample_slots Sample.sunday "follow_up" Sample.start = (Ok info, Sample.start)
       /\ si_error info = None
       /\ si_available_slots info = Some []
       /\ si_message info = Some "Not a working day"
       /\ si_day_of_week info = None
       /\ working_window Sample.sunday = None.
Proof.
  assert (Hday : is_working_day Sample.sunday = false) by (vm_compute; reflexivity).
  assert (Htype : is_Some (APPOINTMENT_TYPES !! "follow_up"))
    by (exists (mkInfo "Follow-up" 15
                  "Follow-up appointment for previous consultation");
        vm_compute; reflexivity).
  split; [exact Hday |]. split; [exact Htype |].
  exact (non_working_day_has_no_slots Sample.fromisoformat Sample.remote
           Sample.utcnow Sample.sunday "follow_up" Sample.start Hday Htype).
Defined.

Lemma get_available_slots_deterministic_witness :
  fst (sample_busy Sample.monday Sample.start)
  = fst (sample_busy Sample.monday
           (snd (sample_slots Sample.monday "physical_exam" Sample.start)))
  /\ fst (sample_slots Sample.monday "physical_exam" Sample.start)
     = fst (sample_slots Sample.monday "physical_exam"
              (snd (sample_slots Sample.monday "physical_exam" Sample.start))).
Proof.
  assert (Hbusy : fst (sample_busy Sample.monday Sample.start)
                  = fst (sample_busy Sample.monday
                           (snd (sample_slots Sample.monday "physical_exam"
                                   Sample.start))))
    by (vm_compute; reflexivity).
  split; [exact Hbusy |].
  exact (get_available_slots_deterministic Sample.fromisoformat Sample.remote
           Sample.utcnow Sample.monday "physical_exam" Sample.start _ Hbusy).
Defined.

Lemma get_available_slots_range_spec_witness :
  exists results st',
    get_available_slots_range Sample.fromisoformat Sample.remote Sample.utcnow
      Sample.sunday (Sample.sunday + Py.days 2) "general_consultation" Sample.start
    = (Ok results, st')
    /\ map si_date results = [Some "2024-01-15"; Some "2024-01-16"]
    /\ Py.time_of Sample.sunday <= Py.time_of (Sample.sunday + Py.days 2)
    /\ map Py.toordinal (days_inclusive Sample.sunday (Sample.sunday + Py.days 2))
       = map (fun k => Py.toordinal Sample.sunday + Z.of_nat k) (seq 0 3)
    /\ Forall (fun day_slots =>
                 exists first rest,
                   si_available_slots day_slots = Some (first :: rest)) results.
Proof.
  set (run := get_available_slots_range Sample.fromisoformat Sample.remote
                Sample.utcnow Sample.sunday (Sample.sunday + Py.days 2)
                "general_consultation" Sample.start).
  set (results := match fst run with Ok r => r | Raise _ => [] end).
  assert (Hrun : run = (Ok results, snd run)) by (vm_compute; reflexivity).
  assert (Htime : Py.time_of Sample.sunday <= Py.time_of (Sample.sunday + Py.days 2))
    by (vm_compute; discriminate).
  pose proof (get_available_slots_range_spec Sample.fromisoformat Sample.remote
                Sample.utcnow Sample.sunday (Sample.sunday + Py.days 2)
                "general_consultation" Sample.start)
    as (_ & _ & _ & Hdays & _ & Hfull).
  exists results, (snd run).
  split; [exact Hrun |]. split; [vm_compute; reflexivity |].
  split; [exact Htime |]. split; [exact (Hdays Htime) |].
  exact (Hfull results (snd run) Hrun).
Defined.

(** C5 as the specification has it fails: from Monday 15:00 to Tuesday 09:00
    the loop goes through Monday only, for Monday 15:00 plus one day is
    after Tuesday 09:00; the Tuesday has slots and is not in the answer. *)
Lemma range_leaves_out_the_end_day :
  Py.toordinal (Sample.at_minute Sample.tuesday 9 0)
  = Py.toordinal (Sample.at_minute Sample.monday 15 0) + 1
  /\ days_inclusive (Sample.at_minute Sample.monday 15 0)
       (Sample.at_minute Sample.tuesday 9 0)
     = [Sample.at_minute Sample.monday 15 0]
  /\ (exists info,
        fst (get_available_slots Sample.fromisoformat Sample.remote Sample.utcnow
               (Sample.at_minute Sample.tuesday 9 0) "general_consultation"
               Sample.start) = Ok info
        /\ length (slots_of info) = 31%nat)
  /\ exists results,
       fst (get_available_slots_range Sample.fromisoformat Sample.remote
              Sample.utcnow (Sample.at_minute Sample.monday 15 0)
              (Sample.at_minute Sample.tuesday 9 0) "general_consultation"
              Sample.start) = Ok results
       /\ map si_date results = [Some "2024-01-15"].
Proof.
  split; [vm_compute; reflexivity |]. split; [vm_compute; reflexivity |].
  split; eexists; vm_compute; repeat split.
Qed.

Lemma invalid_type_reported_as_no_slots_witness :
  APPOINTMENT_TYPES !! "dental_cleaning" = None
  /\ get_next_available_slot Sample.fromisoformat Sample.remote Sample.now
       Sample.utcnow "dental_cleaning" None Sample.start
     = (Ok (mkNextSlot false None None None None
              (Some "No available slots found in the next 30 days for dental_cleaning")),
        Sample.start).
Proof.
  assert (Hnone : APPOINTMENT_TYPES !! "dental_cleaning" = None)
    by (vm_compute; reflexivity).
  split; [exact Hnone |].
  exact (proj2 (proj2 (proj2 (proj2
           (invalid_type_reported_as_no_slots Sample.fromisoformat Sample.remote
              Sample.now Sample.utcnow "dental_cleaning" None Sample.start Hnone))))).
Defined.

Lemma next_available_slot_is_earliest_witness :
  exists infos st' d starts_by_day r,
    for_each (fun day => sample_slots day "general_consultation")
      (search_window Sample.now None) Sample.start = (Ok infos, st')
    /\ Forall3 (rendered d) (search_window Sample.now None) infos starts_by_day
    /\ get_next_available_slot Sample.fromisoformat Sample.remote Sample.now
         Sample.utcnow "general_consultation" None Sample.start = (Ok r, st')
    /\ (ns_found r = false <-> Forall (fun info => slots_of info = []) infos)
    /\ (ns_found r = false -> r = not_found "general_consultation")
    /\ (ns_found r = true ->
        exists k day info t,
          nth_error (search_window Sample.now None) k = Some day
          /\ nth_error infos k = Some info
          /\ get_appointment_duration "general_consultation" = Some d
          /\ r = mkNextSlot true (Some (Py.strftime_Ymd day))
                   (Some (slot_of t d)) (si_appointment_type info) (Some d) None
          /\ Py.toordinal t = Py.toordinal day
          /\ In t (concat starts_by_day)
          /\ Forall (fun t' => t <= t') (concat starts_by_day)).
Proof.
  set (run := for_each (fun day => sample_slots day "general_consultation")
                (search_window Sample.now None) Sample.start).
  set (infos := match fst run with Ok l => l | Raise _ => [] end).
  assert (Hrun : run = (Ok infos, snd run)) by (vm_compute; reflexivity).
  destruct (next_available_slot_is_earliest Sample.fromisoformat Sample.remote
              Sample.now Sample.utcnow "general_consultation" None Sample.start
              infos (snd run) Hrun)
    as (_ & d & starts_by_day & r & H).
  exists infos, (snd run), d, starts_by_day, r.
  split; [exact Hrun | exact H].
Defined.

Lemma fetch_error_is_printed_and_day_left_free_witness :
  resp_error (answer Sample.remote_down Sample.monday Sample.start) = Some true
  /\ resp_message (answer Sample.remote_down Sample.monday Sample.start)
     = Some "503 Server Error: Service Unavailable"
  /\ get_busy_time_slots Sample.remote_down Sample.utcnow Sample.monday Sample.start
     = (Ok [], after_failed_fetch Sample.monday
                 "503 Server Error: Service Unavailable" Sample.start).
Proof.
  assert (He : resp_error (answer Sample.remote_down Sample.monday Sample.start)
               = Some true) by reflexivity.
  assert (Hm : resp_message (answer Sample.remote_down Sample.monday Sample.start)
               = Some "503 Server Error: Service Unavailable") by reflexivity.
  split; [exact He |]. split; [exact Hm |].
  exact (proj1 (proj2
           (fetch_error_is_printed_and_day_left_free Sample.fromisoformat
              Sample.remote_down Sample.utcnow Sample.monday Sample.start true
              "503 Server Error: Service Unavailable" He Hm))).
Defined.

(** C3 as the specification has it fails: the calendar is down, the fetch
    returns the error dict, and the schedule source hands an empty list of
    busy intervals to its caller, no error; the slot engine then offers all
    31 candidates of the Monday that fit, the day taken as fully free. *)
Lemma fetch_error_becomes_empty_busy_list :
  resp_error (answer Sample.remote_down Sample.monday Sample.start) = Some true
  /\ fst (get_busy_time_slots Sample.remote_down Sample.utcnow Sample.monday
            Sample.start) = Ok []
  /\ exists info,
       fst (get_available_slots Sample.fromisoformat Sample.remote_down
              Sample.utcnow Sample.monday "general_consultation" Sample.start)
       = Ok info
       /\ si_error info = None
       /\ length (slots_of info) = 31%nat.
Proof.
  split; [reflexivity |]. split; [vm_compute; reflexivity |].
  eexists. vm_compute. repeat split.
Qed.

Lemma validation_checks_in_order_witness :
  validate_appointment_data (<["patient_email" := "not-an-email"]> Sample.request)
  = Ok (false, Some "Invalid email format")
  /\ create_appointment Sample.fromisoformat Sample.remote Sample.utcnow
       Sample.uuid4 (<["patient_email" := "not-an-email"]> Sample.request)
       Sample.start
     = (Ok (booking_failure (Some "Invalid email format")), Sample.start).
Proof.
  pose proof (validation_checks_in_order Sample.fromisoformat Sample.remote
                Sample.utcnow Sample.uuid4
                (<["patient_email" := "not-an-email"]> Sample.request)
                Sample.start) as (Hv & _ & Hmail & _ & _ & _).
  split.
  - rewrite Hv. vm_compute. reflexivity.
  - apply (Hmail "not-an-email"); vm_compute; reflexivity.
Defined.

Lemma create_appointment_books_listed_slot_witness :
  exists r details,
    create_appointment Sample.fromisoformat Sample.remote Sample.utcnow
      Sample.uuid4 Sample.request Sample.start
    = (Ok r, mkState [] [query Sample.monday] 1)
    /\ br_success r = true
    /\ br_booking_id r = Some (Sample.uuid4 0)
    /\ br_appointment_details r = Some details
    /\ det_status details = "scheduled"
    /\ det_start_time details = "10:00"
    /\ det_end_time details = "10:30".
Proof.
  set (run := sample_slots Sample.monday "general_consultation" Sample.start).
  set (info := match fst run with Ok info => info | Raise _ => invalid_type_info "" end).
  destruct (create_appointment_books_listed_slot Sample.fromisoformat
              Sample.remote Sample.utcnow Sample.uuid4 Sample.request
              Sample.start "general_consultation" "2024-01-15" "10:00"
              Sample.monday info (snd run) (slots_of info)
              (slot_of (Sample.at_minute Sample.monday 10 0) 30))
    as (r & details & type_info & time & Hrun & Hok & _ & Hid & Hdet & Hstatus
        & _ & Hstart & Htype & _ & Htime & Hend & _);
    try (vm_compute; reflexivity).
  - vm_compute. tauto.
  - exists r, details.
    split; [rewrite Hrun; vm_compute; reflexivity |].
    split; [exact Hok |]. split; [exact Hid |]. split; [exact Hdet |].
    split; [exact Hstatus |]. split; [exact Hstart |].
    rewrite Hend.
    assert (Htype' : APPOINTMENT_TYPES !! "general_consultation"
                     = Some (mkInfo "General Consultation" 30
                               "Standard medical consultation"))
      by (vm_compute; reflexivity).
    assert (Htime' : Py.strptime_HM "10:00" = Some (10 * Py.US_PER_HOUR))
      by (vm_compute; reflexivity).
    rewrite Htype' in Htype. rewrite Htime' in Htime.
    inversion Htype. inversion Htime. vm_compute. reflexivity.
Defined.
(** ** The further properties on the sample environment *)

Local Abbreviation sample_create :=
  (create_appointment Sample.fromisoformat Sample.remote Sample.utcnow Sample.uuid4).
Local Abbreviation sample_range :=
  (get_available_slots_range Sample.fromisoformat Sample.remote Sample.utcnow).


Lemma generate_time_slots_never_ends_witness :
  9 * Py.US_PER_HOUR < 17 * Py.US_PER_HOUR
  /\ generate_time_slots (9 * Py.US_PER_HOUR) (17 * Py.US_PER_HOUR) Sample.monday 0
     = Raise Exhausted.
Proof.
  assert (H1 : 9 * Py.US_PER_HOUR < 17 * Py.US_PER_HOUR) by reflexivity.
  split; [exact H1 |].
  exact (proj2 (proj2 (generate_time_slots_never_ends (9 * Py.US_PER_HOUR)
                         (17 * Py.US_PER_HOUR) Sample.monday H1))).
Defined.

(** A candidate at 09:00 for 30 minutes: the interval that ends at 09:00
    is clear of it, the one from 09:15 decides, and the one after it, which
    has no start, is not read. *)
Lemma is_slot_available_first_decides_witness :
  Forall (clear_of Sample.fromisoformat (Sample.at_minute Sample.monday 9 0) 30)
    [mkBusy (Some "2024-01-15T08:00:00Z") (Some "2024-01-15T09:00:00Z")]
  /\ is_slot_available Sample.fromisoformat (Sample.at_minute Sample.monday 9 0) 30
       ([mkBusy (Some "2024-01-15T08:00:00Z") (Some "2024-01-15T09:00:00Z")]
        ++ mkBusy (Some "2024-01-15T09:15:00Z") (Some "2024-01-15T10:00:00Z")
           :: [mkBusy None None])
     = Ok false.
Proof.
  assert (Hclear : Forall (clear_of Sample.fromisoformat
                             (Sample.at_minute Sample.monday 9 0) 30)
                     [mkBusy (Some "2024-01-15T08:00:00Z")
                        (Some "2024-01-15T09:00:00Z")]).
  { constructor; [| constructor].
    eexists _, _. split; [reflexivity |]. split; [reflexivity |].
    right. apply Z.leb_le. vm_compute. reflexivity. }
  split; [exact Hclear |].
  eapply (proj1 (is_slot_available_first_decides Sample.fromisoformat
                   (Sample.at_minute Sample.monday 9 0) 30 _
                   (mkBusy (Some "2024-01-15T09:15:00Z") (Some "2024-01-15T10:00:00Z"))
                   [mkBusy None None] Hclear));
    [reflexivity | reflexivity | split; vm_compute; reflexivity].
Defined.

(** Against the interval 09:30-10:00 the candidate 09:00 stays and 09:15
    and 09:30 go. *)
Lemma more_busy_fewer_slots_witness :
  exists out1 out2,
    (forall b, In b [] ->
               In b [mkBusy (Some "2024-01-15T09:30:00Z") (Some "2024-01-15T10:00:00Z")])
    /\ filter_slots Sample.fromisoformat
         (progression (Sample.at_minute Sample.monday 9 0) (Py.minutes 15) 3)
         30 (17 * Py.US_PER_HOUR) [] [] = Ok out1
    /\ filter_slots Sample.fromisoformat
         (progression (Sample.at_minute Sample.monday 9 0) (Py.minutes 15) 3)
         30 (17 * Py.US_PER_HOUR)
         [mkBusy (Some "2024-01-15T09:30:00Z") (Some "2024-01-15T10:00:00Z")] []
       = Ok out2
    /\ map slot_start_time out1 = ["09:00"; "09:15"; "09:30"]
    /\ map slot_start_time out2 = ["09:00"]
    /\ forall s, In s out2 -> In s out1.
Proof.
  set (all := progression (Sample.at_minute Sample.monday 9 0) (Py.minutes 15) 3).
  set (busy2 := [mkBusy (Some "2024-01-15T09:30:00Z") (Some "2024-01-15T10:00:00Z")]).
  set (out1 := match filter_slots Sample.fromisoformat all 30 (17 * Py.US_PER_HOUR)
                       [] [] with Ok o => o | Raise _ => [] end).
  set (out2 := match filter_slots Sample.fromisoformat all 30 (17 * Py.US_PER_HOUR)
                       busy2 [] with Ok o => o | Raise _ => [] end).
  assert (Hsub : forall b : busy_slot, In b [] -> In b busy2)
    by (intros b []).
  assert (H1 : filter_slots Sample.fromisoformat all 30 (17 * Py.US_PER_HOUR) [] []
               = Ok out1) by (vm_compute; reflexivity).
  assert (H2 : filter_slots Sample.fromisoformat all 30 (17 * Py.US_PER_HOUR) busy2 []
               = Ok out2) by (vm_compute; reflexivity).
  exists out1, out2.
  split; [exact Hsub |]. split; [exact H1 |]. split; [exact H2 |].
  split; [vm_compute; reflexivity |]. split; [vm_compute; reflexivity |].
  exact (more_busy_fewer_slots Sample.fromisoformat all 30 (17 * Py.US_PER_HOUR)
           [] busy2 out1 out2 Hsub H1 H2).
Defined.

Lemma free_day_offers_every_start_witness :
  APPOINTMENT_TYPES !! "follow_up"
  = Some (mkInfo "Follow-up" 15 "Follow-up appointment for previous consultation")
  /\ working_window Sample.tuesday = Some (9 * Py.US_PER_HOUR, 17 * Py.US_PER_HOUR)
  /\ sample_busy Sample.tuesday Sample.start
     = (Ok [], sent (query Sample.tuesday) Sample.start)
  /\ sample_slots Sample.tuesday "follow_up" Sample.start
     = (Ok (working_day_info Sample.tuesday "Follow-up" 15
              (map (fun t => slot_of t 15)
                 (progression (Sample.at_minute Sample.tuesday 9 0) (Py.minutes 15)
                    32))),
        sent (query Sample.tuesday) Sample.start).
Proof.
  assert (Hi : APPOINTMENT_TYPES !! "follow_up"
               = Some (mkInfo "Follow-up" 15
                         "Follow-up appointment for previous consultation"))
    by (vm_compute; reflexivity).
  assert (Hw : working_window Sample.tuesday
               = Some (9 * Py.US_PER_HOUR, 17 * Py.US_PER_HOUR))
    by (vm_compute; reflexivity).
  assert (Hb : sample_busy Sample.tuesday Sample.start
               = (Ok [], sent (query Sample.tuesday) Sample.start))
    by (vm_compute; reflexivity).
  split; [exact Hi |]. split; [exact Hw |]. split; [exact Hb |].
  exact (free_day_offers_every_start Sample.fromisoformat Sample.remote Sample.utcnow
           Sample.tuesday "follow_up" _ _ _ Sample.start _ Hi Hw Hb).
Defined.

Lemma get_available_slots_ignores_time_of_day_witness :
  Py.toordinal Sample.monday = Py.toordinal Sample.now
  /\ sample_slots Sample.monday "physical_exam" Sample.start
     = sample_slots Sample.now "physical_exam" Sample.start.
Proof.
  assert (H : Py.toordinal Sample.monday = Py.toordinal Sample.now)
    by (vm_compute; reflexivity).
  split; [exact H |].
  exact (get_available_slots_ignores_time_of_day Sample.fromisoformat Sample.remote
           Sample.utcnow Sample.monday Sample.now "physical_exam" Sample.start H).
Defined.

(** From Sunday to Tuesday the calendar is asked for Monday and for
    Tuesday. *)
Lemma calendar_is_asked_once_per_working_day_witness :
  exists infos st',
    validate_type "follow_up" = true
    /\ sample_range Sample.sunday Sample.tuesday "follow_up" Sample.start
       = (Ok infos, st')
    /\ length infos = 2%nat
    /\ List.filter is_working_day (days_inclusive Sample.sunday Sample.tuesday)
       = [Sample.monday; Sample.tuesday]
    /\ requests st'
       = requests Sample.start
         ++ map query
              (List.filter is_working_day
                 (days_inclusive Sample.sunday Sample.tuesday)).
Proof.
  set (run := sample_range Sample.sunday Sample.tuesday "follow_up" Sample.start).
  set (infos := match fst run with Ok infos => infos | Raise _ => [] end).
  assert (Hv : validate_type "follow_up" = true) by (vm_compute; reflexivity).
  assert (Hrun : sample_range Sample.sunday Sample.tuesday "follow_up" Sample.start
                 = (Ok infos, snd run)) by (vm_compute; reflexivity).
  exists infos, (snd run).
  split; [exact Hv |]. split; [exact Hrun |].
  split; [vm_compute; reflexivity |]. split; [vm_compute; reflexivity |].
  exact (proj2 (calendar_is_asked_once_per_working_day Sample.fromisoformat
                  Sample.remote Sample.utcnow "follow_up" Sample.start)
           Sample.sunday Sample.tuesday infos (snd run) Hv Hrun).
Defined.

Lemma reversed_range_is_empty_witness :
  Sample.monday < Sample.tuesday
  /\ sample_range Sample.tuesday Sample.monday "follow_up" Sample.start
     = (Ok [], Sample.start).
Proof.
  assert (H : Sample.monday < Sample.tuesday) by reflexivity.
  split; [exact H |].
  exact (reversed_range_is_empty Sample.fromisoformat Sample.remote Sample.utcnow
           Sample.tuesday Sample.monday "follow_up" Sample.start H).
Defined.

(** The request for Monday 10:00 is booked: 10:00 to 10:30, after the
    check-up that ends at 10:00. *)
Lemma booked_interval_is_free_witness :
  exists r st',
    sample_create Sample.request Sample.start = (Ok r, st')
    /\ br_success r = true
    /\ exists appointment_type date_str time_str date time d s e busy st1,
         Sample.request !! "appointment_type" = Some appointment_type
         /\ Sample.request !! "date" = Some date_str
         /\ Sample.request !! "time" = Some time_str
         /\ Py.strptime_Ymd date_str = Some date
         /\ Py.strptime_HM time_str = Some time
         /\ get_appointment_duration appointment_type = Some d
         /\ working_window date = Some (s, e)
         /\ sample_busy date Sample.start = (Ok busy, st1)
         /\ Forall (clear_of Sample.fromisoformat
                      (Py.combine (Py.toordinal date) time) d) busy
         /\ s <= time
         /\ time + Py.minutes d <= e.
Proof.
  set (run := sample_create Sample.request Sample.start).
  set (r := match fst run with Ok r => r | Raise _ => booking_failure None end).
  assert (Hrun : sample_create Sample.request Sample.start = (Ok r, snd run))
    by (vm_compute; reflexivity).
  assert (Hok : br_success r = true) by (vm_compute; reflexivity).
  exists r, (snd run). split; [exact Hrun |]. split; [exact Hok |].
  exact (booked_interval_is_free Sample.fromisoformat Sample.remote Sample.utcnow
           Sample.uuid4 Sample.request Sample.start r (snd run) Hrun Hok).
Defined.

(** ['9:00'] passes validation, the slot of 09:00 is free, and the request
    is refused. *)
Lemma unpadded_time_is_never_booked_witness :
  exists r st',
    validate_appointment_data Sample.unpadded_request = Ok (true, None)
    /\ Sample.unpadded_request !! "time" = Some "9:00"
    /\ String.length "9:00" <> 5%nat
    /\ sample_create Sample.unpadded_request Sample.start = (Ok r, st')
    /\ br_error r = Some "Time slot 9:00 is not available on 2024-01-15"
    /\ br_success r = false.
Proof.
  set (run := sample_create Sample.unpadded_request Sample.start).
  set (r := match fst run with Ok r => r | Raise _ => booking_failure None end).
  assert (Htime : Sample.unpadded_request !! "time" = Some "9:00")
    by (vm_compute; reflexivity).
  assert (Hlen : String.length "9:00" <> 5%nat) by (cbn; lia).
  assert (Hrun : sample_create Sample.unpadded_request Sample.start
                 = (Ok r, snd run)) by (vm_compute; reflexivity).
  exists r, (snd run).
  split; [vm_compute; reflexivity |]. split; [exact Htime |].
  split; [exact Hlen |]. split; [exact Hrun |].
  split; [vm_compute; reflexivity |].
  exact (unpadded_time_is_never_booked Sample.fromisoformat Sample.remote
           Sample.utcnow Sample.uuid4 Sample.unpadded_request Sample.start r
           (snd run) "9:00" Htime Hlen Hrun).
Defined.

Lemma failed_booking_is_only_its_error_witness :
  exists r st',
    sample_create Sample.unpadded_request Sample.start = (Ok r, st')
    /\ br_success r = false
    /\ (exists message, r = booking_failure (Some message))
    /\ uuids_drawn st' = uuids_drawn Sample.start.
Proof.
  set (run := sample_create Sample.unpadded_request Sample.start).
  set (r := match fst run with Ok r => r | Raise _ => booking_failure None end).
  assert (Hrun : sample_create Sample.unpadded_request Sample.start
                 = (Ok r, snd run)) by (vm_compute; reflexivity).
  assert (Hfail : br_success r = false) by (vm_compute; reflexivity).
  exists r, (snd run). split; [exact Hrun |]. split; [exact Hfail |].
  exact (failed_booking_is_only_its_error Sample.fromisoformat Sample.remote
           Sample.utcnow Sample.uuid4 Sample.unpadded_request Sample.start r
           (snd run) Hrun Hfail).
Defined.

Lemma booking_on_closed_day_is_refused_witness :
  validate_appointment_data Sample.sunday_request = Ok (true, None)
  /\ Sample.sunday_request !! "appointment_type" = Some "general_consultation"
  /\ Sample.sunday_request !! "date" = Some "2024-01-14"
  /\ Py.strptime_Ymd "2024-01-14" = Some Sample.sunday
  /\ is_working_day Sample.sunday = false
  /\ sample_create Sample.sunday_request Sample.start
     = (Ok (booking_failure (Some "No available slots on 2024-01-14")), Sample.start).
Proof.
  assert (Hv : validate_appointment_data Sample.sunday_request = Ok (true, None))
    by (vm_compute; reflexivity).
  assert (Ht : Sample.sunday_request !! "appointment_type"
               = Some "general_consultation") by (vm_compute; reflexivity).
  assert (Hd : Sample.sunday_request !! "date" = Some "2024-01-14")
    by (vm_compute; reflexivity).
  assert (Hp : Py.strptime_Ymd "2024-01-14" = Some Sample.sunday)
    by (vm_compute; reflexivity).
  assert (Hc : is_working_day Sample.sunday = false) by (vm_compute; reflexivity).
  split; [exact Hv |]. split; [exact Ht |]. split; [exact Hd |].
  split; [exact Hp |]. split; [exact Hc |].
  exact (booking_on_closed_day_is_refused Sample.fromisoformat Sample.remote
           Sample.utcnow Sample.uuid4 Sample.sunday_request Sample.start
           "general_consultation" "2024-01-14" Sample.sunday Hv Ht Hd Hp Hc).
Defined.

Lemma slot_labels_are_distinct_witness :
  exists info st',
    sample_slots Sample.monday "general_consultation" Sample.start = (Ok info, st')
    /\ length (slots_of info) = 28%nat
    /\ List.NoDup (map slot_start_time (slots_of info)).
Proof.
  set (run := sample_slots Sample.monday "general_consultation" Sample.start).
  set (info := match fst run with Ok info => info | Raise _ => invalid_type_info "" end).
  assert (Hrun : sample_slots Sample.monday "general_consultation" Sample.start
                 = (Ok info, snd run)) by (vm_compute; reflexivity).
  exists info, (snd run). split; [exact Hrun |].
  split; [vm_compute; reflexivity |].
  exact (slot_labels_are_distinct Sample.fromisoformat Sample.remote Sample.utcnow
           Sample.monday "general_consultation" Sample.start info (snd run) Hrun).
Defined.

(** The booking of Monday 10:00, moved to a date and a time that are none. *)
Lemma reschedule_checks_nothing_witness :
  exists r st1 booking_id,
    sample_create Sample.request Sample.start = (Ok r, st1)
    /\ br_success r = true
    /\ br_booking_id r = Some booking_id
    /\ Sample.uuid4 (S (uuids_drawn Sample.start))
       <> Sample.uuid4 (uuids_drawn Sample.start)
    /\ exists result st2,
         reschedule_appointment Sample.uuid4 booking_id "no date" "no time" st1
         = (Ok result, st2)
         /\ rs_success result = true
         /\ rs_old_booking_id result = booking_id
         /\ rs_new_booking_id result <> booking_id
         /\ rs_new_date result = "no date"
         /\ rs_new_time result = "no time"
         /\ requests st2 = requests st1
         /\ stdout st2 = stdout st1.
Proof.
  set (run := sample_create Sample.request Sample.start).
  set (r := match fst run with Ok r => r | Raise _ => booking_failure None end).
  set (booking_id := default "" (br_booking_id r)).
  assert (Hrun : sample_create Sample.request Sample.start = (Ok r, snd run))
    by (vm_compute; reflexivity).
  assert (Hok : br_success r = true) by (vm_compute; reflexivity).
  assert (Hid : br_booking_id r = Some booking_id) by (vm_compute; reflexivity).
  assert (Hne : Sample.uuid4 (S (uuids_drawn Sample.start))
                <> Sample.uuid4 (uuids_drawn Sample.start))
    by (vm_compute; discriminate).
  exists r, (snd run), booking_id.
  split; [exact Hrun |]. split; [exact Hok |]. split; [exact Hid |].
  split; [exact Hne |].
  exact (reschedule_checks_nothing Sample.fromisoformat Sample.remote Sample.utcnow
           Sample.uuid4 Sample.request Sample.start r (snd run) booking_id
           "no date" "no time" Hrun Hok Hid Hne).
Defined.

(** An interval without a start, behind one that is clear of the candidate:
    the answer is not [True]. *)
Lemma is_slot_available_true_iff_witness :
  In (mkBusy None None)
    [mkBusy (Some "2024-01-15T08:00:00Z") (Some "2024-01-15T09:00:00Z");
     mkBusy None None]
  /\ is_slot_available Sample.fromisoformat (Sample.at_minute Sample.monday 9 0) 30
       [mkBusy (Some "2024-01-15T08:00:00Z") (Some "2024-01-15T09:00:00Z");
        mkBusy None None]
     <> Ok true.
Proof.
  assert (Hin : In (mkBusy None None)
                  [mkBusy (Some "2024-01-15T08:00:00Z") (Some "2024-01-15T09:00:00Z");
                   mkBusy None None]) by (right; left; reflexivity).
  split; [exact Hin |].
  exact (proj2 (is_slot_available_true_iff Sample.fromisoformat
                  (Sample.at_minute Sample.monday 9 0) 30 _)
           (mkBusy None None) Hin (or_introl eq_refl)).
Defined.

(** The summary of the Monday: one appointment, the check-up, which is its
    one busy interval. *)
Lemma schedule_summary_matches_busy_slots_witness :
  exists summary st1,
    get_schedule_summary Sample.remote Sample.now Sample.utcnow (Some Sample.monday)
      Sample.start = (Ok summary, st1)
    /\ ss_day_of_week summary = "Monday"
    /\ ss_total_appointments summary = 1
    /\ sample_busy Sample.monday Sample.start
       = (Ok (map (fun a => mkBusy (apt_start_time a) (apt_end_time a))
                (List.filter status_is_active (ss_appointments summary))),
          st1).
Proof.
  set (run := get_schedule_summary Sample.remote Sample.now Sample.utcnow
                (Some Sample.monday) Sample.start).
  set (summary := match fst run with
                  | Ok summary => summary
                  | Raise _ => mkSummary "" "" None 0 []
                  end).
  assert (Hrun : get_schedule_summary Sample.remote Sample.now Sample.utcnow
                   (Some Sample.monday) Sample.start = (Ok summary, snd run))
    by (vm_compute; reflexivity).
  exists summary, (snd run). split; [exact Hrun |].
  split; [vm_compute; reflexivity |]. split; [vm_compute; reflexivity |].
  exact (proj1 (proj2 (proj2 (proj2 (proj2
           (proj2 (schedule_summary_matches_busy_slots Sample.remote Sample.now
                     Sample.utcnow Sample.monday Sample.start)
              summary (snd run) Hrun)))))).
Defined.

Lemma booking_summary_counts_witness :
  exists summary st1,
    get_booking_summary Sample.remote Sample.utcnow (Some Sample.monday)
      (Some Sample.tuesday) Sample.start = (Ok summary, st1)
    /\ bs_total_appointments summary = 1
    /\ bs_by_type summary !! Some "Check-up" = Some 1
    /\ bs_by_type summary !! Some "Unknown" = None
    /\ forall name,
         bs_by_type summary !! name
         = let n := length (List.filter (named name) (bs_appointments summary)) in
           if (n =? 0)%nat then None else Some (Z.of_nat n).
Proof.
  set (run := get_booking_summary Sample.remote Sample.utcnow (Some Sample.monday)
                (Some Sample.tuesday) Sample.start).
  set (summary := match fst run with
                  | Ok summary => summary
                  | Raise _ => mkBookingSummary 0 ∅ []
                  end).
  assert (Hrun : get_booking_summary Sample.remote Sample.utcnow (Some Sample.monday)
                   (Some Sample.tuesday) Sample.start = (Ok summary, snd run))
    by (vm_compute; reflexivity).
  exists summary, (snd run). split; [exact Hrun |].
  split; [vm_compute; reflexivity |]. split; [vm_compute; reflexivity |].
  split; [vm_compute; reflexivity |].
  exact (proj2 (proj2
           (proj2 (booking_summary_counts Sample.remote Sample.utcnow
                     (Some Sample.monday) (Some Sample.tuesday) Sample.start)
              summary (snd run) Hrun))).
Defined.

(** Opened on a Sunday, the trends raise at their first reading. *)
Lemma availability_trends_always_raises_witness :
  is_working_day Sample.sunday = false
  /\ availability_trends Sample.fromisoformat Sample.remote Sample.sunday
       Sample.utcnow Sample.start
     = (Raise KeyError, Sample.start).
Proof.
  assert (H : is_working_day Sample.sunday = false) by (vm_compute; reflexivity).
  split; [exact H |].
  exact (proj2 (availability_trends_always_raises Sample.fromisoformat Sample.remote
                  Sample.sunday Sample.utcnow Sample.start) H).
Defined.
